(** * CliFM: the bulk rename and bulk remove core

    A shallow embedding of [src/src/bulk_rename.c] (which holds both
    [bulk_rename.c] and [bulk_remove.c] of CliFM) and the properties of
    the editor-mediated batch rename ([br]) and batch remove ([rr])
    flows.

    Modelling choices:
    - a C string or line buffer is a [list ascii]; where the code reads a
      buffer as a string ([strlen], [strcmp], [%s]) the model takes the
      bytes before the first NUL ([cstr]);
    - a stream opened for reading is the list of bytes still to be read;
      [fgets] and [getline] are modelled with their buffer bound and
      their newline rule, a [while (fgets (...))] loop is a fold over the
      records [fgets] delivers;
    - system calls and collaborators of other translation units are the
      fields of the class [OS]; they act on an abstract [World];
    - the process state is [world], [errno] and a chronological [trace]
      of the calls made and of the text printed. *)

From Stdlib Require Import Ascii String.
From Stdlib Require Import List ZArith Lia Bool Arith Permutation.
Import ListNotations.

#[local] Abbreviation length := Datatypes.length.

Set Implicit Arguments.

(** ** Bytes and C strings *)

Definition bytes := list ascii.

Definition NUL : ascii := Ascii.zero.
Definition NL : ascii := "010"%char.

(** Text literals of the source, as bytes. *)
Definition str (s : string) : bytes := list_ascii_of_string s.

(** The C string held by a buffer: the bytes before the first NUL. *)
Fixpoint cstr (buf : bytes) : bytes :=
  match buf with
  | [] => []
  | c :: r => if Ascii.eqb c NUL then [] else c :: cstr r
  end.

Definition strlen (buf : bytes) : nat := length (cstr buf).

Fixpoint bytes_eqb (a b : bytes) : bool :=
  match a, b with
  | [], [] => true
  | x :: a', y :: b' => Ascii.eqb x y && bytes_eqb a' b'
  | _, _ => false
  end.

(** [strcmp (a, b) == 0]. *)
Definition streq (a b : bytes) : bool := bytes_eqb (cstr a) (cstr b).

(** [strchr (s, c) != NULL], for [c] other than NUL. *)
Definition strchr (s : bytes) (c : ascii) : bool :=
  existsb (Ascii.eqb c) (cstr s).

(** The idiom [len = strlen (line); if (line[len - 1] == '\n')
    line[len - 1] = '\0';], on a buffer whose first byte is not NUL. *)
Definition chomp (line : bytes) : bytes :=
  let s := cstr line in
  if Ascii.eqb (last s NUL) NL then removelast s else s.

(** [snprintf (buf, size, ...)] keeps at most [size - 1] bytes of the
    text the format expands to. *)
Definition snprintf (size : nat) (text : bytes) : bytes :=
  firstn (size - 1) text.

(** [PATH_MAX] of <limits.h>; 4096 on Linux. *)
Definition PATH_MAX : nat := N.to_nat 4096.

(** ** Reading lines *)

(** One [fgets] record out of [s]: at most [room] bytes, ending after the
    first newline. *)
Fixpoint fgets_chunk (room : nat) (s : bytes) : bytes * bytes :=
  match room, s with
  | S r, c :: s' =>
      if Ascii.eqb c NL then ([c], s')
      else let (l, rest) := fgets_chunk r s' in (c :: l, rest)
  | _, _ => ([], s)
  end.

(** [fgets (line, size, fp)]: [None] at end of file, else the record read
    (at most [size - 1] bytes) and the rest of the stream. *)
Definition fgets (size : nat) (s : bytes) : option (bytes * bytes) :=
  match s with
  | [] => None
  | _ => Some (fgets_chunk (size - 1) s)
  end.

(** The records delivered by [while (fgets (line, size, fp))]. Every call
    on a non-empty stream consumes a byte when [2 <= size], so
    [S (length s)] rounds are enough (lemma [fgets_loop_fuel]). *)
Fixpoint fgets_loop (fuel size : nat) (s : bytes) : list bytes :=
  match fuel with
  | 0 => []
  | S f =>
      match fgets size s with
      | None => []
      | Some (l, rest) => l :: fgets_loop f size rest
      end
  end.

Definition fgets_lines (size : nat) (s : bytes) : list bytes :=
  fgets_loop (S (length s)) size s.

(** One [getline] record: up to and including the first newline, whatever
    its length. *)
Fixpoint getline_chunk (s : bytes) : bytes * bytes :=
  match s with
  | [] => ([], [])
  | c :: s' =>
      if Ascii.eqb c NL then ([c], s')
      else let (l, rest) := getline_chunk s' in (c :: l, rest)
  end.

(** [getline (&line, &size, fp)]: [None] (-1) at end of file. *)
Definition getline (s : bytes) : option (bytes * bytes) :=
  match s with
  | [] => None
  | _ => Some (getline_chunk s)
  end.

Fixpoint getline_loop (fuel : nat) (s : bytes) : list bytes :=
  match fuel with
  | 0 => []
  | S f =>
      match getline s with
      | None => []
      | Some (l, rest) => l :: getline_loop f rest
      end
  end.

(** The records delivered by [while ((len = getline (...)) > 0)]. *)
Definition getline_lines (s : bytes) : list bytes :=
  getline_loop (S (length s)) s.

(** ** The operating system and the collaborators *)

Definition EXIT_SUCCESS : Z := 0.
Definition EXIT_FAILURE : Z := 1.

(** Error numbers of <errno.h>, with their Linux values. POSIX makes
    every error number a positive [int]. *)
Definition ENOENT : positive := 2.
Definition EXDEV : positive := 18.
Definition ENOTDIR : positive := 20.

(** The outcome of a call that fails by returning -1 (or NULL) and
    setting [errno]. *)
Inductive res (A : Type) : Type :=
| Ok (a : A)
| Err (e : positive).

Arguments Ok {A} a.
Arguments Err {A} e.

(** The [d_type] of a directory entry (<dirent.h>), [DT_DOOR] being the
    Solaris extension the source names. *)
Inductive dtype : Type :=
| DT_UNKNOWN | DT_FIFO | DT_CHR | DT_DIR | DT_BLK | DT_REG | DT_LNK
| DT_SOCK | DT_WHT | DT_DOOR.

(** A [struct dirent] of a scan, or an element of [file_info]: the name
    and the type are all the core reads. *)
Record dirent : Type := mkDirent { d_name : bytes; d_type : dtype }.

(** The last two arguments of [launch_execv]. *)
Inductive exec_mode : Type := FOREGROUND | BACKGROUND.
Inductive exec_flag : Type := E_NOFLAG | E_MUTE.

(** What a run does to its environment, in the order it does it. *)
Inductive event : Type :=
| Stdout (text : string) (args : list bytes)
| Stderr (text : string) (args : list bytes)
| PressAnyKey
| Mkstemp (template : bytes)
| WriteDoc (fd : Z) (data : bytes)
| Renameat (oldpath newpath : bytes)
| Unlinkat (fd : Z) (path : bytes)
| Unlink (path : bytes)
| Execv (argv : list bytes) (bg : exec_mode) (flags : exec_flag)
| OpenFile (path : bytes)
| Ask (prompt : string)
| OpenFwrite (path : bytes)
| RemoveFiles (argv : list bytes)
| GetSelFiles
| ReloadDirlist
| ReloadMsg (text : string) (count : nat).

(** The system calls, the collaborators declared in the headers the
    source includes, and the process-wide settings it reads. A call that
    can change the file system or the terminal returns the new [World]. *)
Class OS : Type := {
  World : Type;
  (* settings and cached state *)
  stealth_mode : Z;                (* xargs.stealth_mode *)
  P_tmpdir : bytes;
  tmp_dir : bytes;
  TMP_FILENAME : bytes;
  conf_autols : Z;                 (* conf.autols *)
  cwd_path : bytes;                (* workspaces[cur_ws].path *)
  file_info : list dirent;         (* file_info[0 .. files - 1] *)
  sel_n : Z;
  uninit_mtime : Z;                (* st_mtime of a struct stat never written *)
  mi_c : bytes;
  df_c : bytes;
  (* build configuration *)
  SOLARIS_DOORS : bool;
  HAVE_S_IFWHT : bool;
  DOOR_CHR : ascii;
  WHT_CHR : ascii;
  (* helpers of other translation units *)
  IS_HELP : bytes -> bool;
  unescape_str : bytes -> option bytes;
  abbreviate_file_name : bytes -> option bytes;
  is_file_in_cwd : World -> bytes -> bool;
  have_sel_files : World -> bool;
  get_cmd_path : World -> bytes -> option bytes;
  count_dir : World -> bytes -> Z;
  (* calls that read *)
  sys_fdopen : World -> Z -> res unit;
  sys_realpath : World -> bytes -> res bytes;
  sys_lstat : World -> bytes -> res Z;             (* st_mtime *)
  sys_stat : World -> bytes -> res (bool * Z);     (* S_ISDIR, st_mtime *)
  sys_fstat : World -> Z -> res Z;                 (* st_mtime *)
  open_fread : World -> bytes -> Z * res bytes;    (* *fd, the stream *)
  sys_fopen_r : World -> bytes -> res bytes;       (* fopen (file, "r") *)
  sys_scandir : World -> bytes -> res (list dirent);
  (* calls that act *)
  sys_mkstemp : World -> bytes -> res (Z * bytes) * World;
  sys_write : World -> Z -> bytes -> World;
  sys_renameat : World -> bytes -> bytes -> res unit * World;
  sys_unlinkat : World -> Z -> bytes -> res unit * World;
  sys_unlink : World -> bytes -> res unit * World;
  open_fwrite : World -> bytes -> res Z * World;
  launch_execv : World -> list bytes -> exec_mode -> exec_flag -> Z * World;
  open_file : World -> bytes -> Z * World;
  rl_get_y_or_n : World -> string -> Z * World;
  remove_files : World -> list bytes -> Z * World;
  get_sel_files : World -> World;
  reload_dirlist : World -> World
}.

(** ** Process state and the monad of the flows *)

Section Flows.

Context {os : OS}.

Record state : Type := mkState {
  world : World;
  errno : Z;
  trace : list event
}.

Definition M (A : Type) : Type := state -> A * state.

Definition ret {A : Type} (a : A) : M A := fun s => (a, s).

Definition bind {A B : Type} (m : M A) (k : A -> M B) : M B :=
  fun s => let (a, s') := m s in k a s'.

Notation "x <- m ;; k" := (bind m (fun x => k))
  (at level 61, m at next level, right associativity).
Notation "m ;; k" := (bind m (fun _ => k))
  (at level 61, right associativity).

(** Text printed, a key awaited: recorded, nothing else changes. *)
Definition emit (e : event) : M unit :=
  fun s => (tt, mkState (world s) (errno s) (trace s ++ [e])).

Definition puts (text : string) : M unit := emit (Stdout text []).
Definition xerror (text : string) (args : list bytes) : M unit :=
  emit (Stderr text args).

Definition get_errno : M Z := fun s => (errno s, s).

(** A value read off the world. *)
Definition peek {A : Type} (f : World -> A) : M A :=
  fun s => (f (world s), s).

(** A call that reads: on failure it sets [errno]. *)
Definition query {A : Type} (f : World -> res A) : M (res A) :=
  fun s =>
    match f (world s) with
    | Ok a => (Ok a, s)
    | Err e => (Err e, mkState (world s) (Z.pos e) (trace s))
    end.

(** A call that acts and fails with [errno]. *)
Definition sys {A : Type} (e : event) (f : World -> res A * World)
  : M (res A) :=
  fun s =>
    let (r, w) := f (world s) in
    (r, mkState w
          (match r with Err n => Z.pos n | Ok _ => errno s end)
          (trace s ++ [e])).

(** A collaborator that acts and returns a status. *)
Definition call {A : Type} (e : event) (f : World -> A * World) : M A :=
  fun s => let (a, w) := f (world s) in
           (a, mkState w (errno s) (trace s ++ [e])).

Fixpoint foldM {A B : Type} (f : A -> B -> M A) (l : list B) (a : A)
  : M A :=
  match l with
  | [] => ret a
  | x :: l' => a' <- f a x ;; foldM f l' a'
  end.

Definition when (b : bool) (m : M unit) : M unit :=
  if b then m else ret tt.

(** ** bulk_rename.c *)

(** [err_open_tmp_file]: error opening the temporary file. *)
Definition err_open_tmp_file (file : bytes) (fd : Z) : M Z :=
  xerror "br: open: '%s': %s\n" [file] ;;
  r <- sys (Unlinkat fd file) (fun w => sys_unlinkat w fd file) ;;
  when (match r with Err _ => true | Ok _ => false end)
       (xerror "br: unlink: '%s': %s\n" [file]) ;;
  get_errno.

(** The first statement of [rename_file]: a trailing slash of NEWPATH is
    overwritten with NUL when the string is longer than one byte. *)
Definition trim_slash (newpath : bytes) : bytes :=
  let s := cstr newpath in
  if (1 <? length s) && Ascii.eqb (last s NUL) "/" then removelast s
  else s.

(** [rename_file (oldpath, newpath)]. NEWPATH is edited in place, so the
    caller's buffer holds the second component afterwards. *)
Definition rename_file (oldpath newpath : bytes) : M (Z * bytes) :=
  let newpath := trim_slash newpath in
  r <- sys (Renameat oldpath newpath)
           (fun w => sys_renameat w oldpath newpath) ;;
  match r with
  | Ok _ => ret (0%Z, newpath)
  | Err _ =>
      e <- get_errno ;;
      if negb (e =? Z.pos EXDEV)%Z then
        xerror "br: Cannot rename '%s' to '%s': %s\n" [oldpath; newpath] ;;
        e' <- get_errno ;;
        ret (e', newpath)
      else
        let cmd := [str "mv"; str "--"; oldpath; newpath] in
        st <- call (Execv cmd FOREGROUND E_NOFLAG)
                   (fun w => launch_execv w cmd FOREGROUND E_NOFLAG) ;;
        ret (st, newpath)
  end.

(** The test that sends an argument through [realpath]: it starts with
    "./" or "../". *)
Definition dot_slash (a : bytes) : bool :=
  match a with
  | c0 :: c1 :: r =>
      Ascii.eqb c0 "." &&
      (Ascii.eqb c1 "/" ||
       (Ascii.eqb c1 "." &&
        match r with c2 :: _ => Ascii.eqb c2 "/" | [] => false end))
  | _ => false
  end.

(** One round of the loop of [write_renfiles_to_tmp] on [args[i]]:
    the string the round leaves in the vector, [attr.st_mtime], and
    whether the name was written (a round left through [continue] writes
    nothing and does not count). *)
Definition write_renfile (fd : Z) (attr : Z) (arg : bytes)
  : M (bytes * Z * bool) :=
  deq <- (if strchr arg "\" then
            match unescape_str arg with
            | None =>
                xerror "br: '%s': Error unescaping file name\n" [arg] ;;
                emit PressAnyKey ;;
                ret None
            | Some d => ret (Some (cstr d))
            end
          else ret (Some arg)) ;;
  match deq with
  | None => ret (arg, attr, false)
  | Some arg1 =>
      rp <- (if dot_slash arg1 then
               p <- query (fun w => sys_realpath w arg1) ;;
               match p with
               | Err _ =>
                   xerror "br: '%s': %s\n" [arg1] ;;
                   emit PressAnyKey ;;
                   ret None
               | Ok p' => ret (Some p')
               end
             else ret (Some arg1)) ;;
      match rp with
      | None => ret (arg1, attr, false)
      | Some arg2 =>
          st <- query (fun w => sys_lstat w arg2) ;;
          match st with
          | Err _ =>
              xerror "br: '%s': %s\n" [arg2] ;;
              emit PressAnyKey ;;
              ret (arg2, attr, false)
          | Ok a =>
              let data := cstr arg2 ++ [NL] in
              call (WriteDoc fd data) (fun w => (tt, sys_write w fd data)) ;;
              ret (arg2, a, true)
          end
      end
  end.

(** The loop [for (i = 1; args[i]; i++)]: the vector from index 1 on
    as the loop leaves it, [attr.st_mtime] and [*total_input]. An
    argument that fails a check stays in the vector. *)
Fixpoint write_renfiles_loop (fd : Z) (attr : Z) (total : nat)
  (rest : list bytes) : M (list bytes * Z * nat) :=
  match rest with
  | [] => ret ([], attr, total)
  | arg :: rest' =>
      r <- write_renfile fd attr arg ;;
      let '(arg', attr', written) := r in
      r' <- write_renfiles_loop fd attr'
              (if written then S total else total) rest' ;;
      let '(l, attr'', total') := r' in
      ret (arg' :: l, attr'', total')
  end.

Definition BULK_RENAME_TMP_FILE_HEADER : bytes :=
  str "# CliFM - Rename files in bulk" ++ [NL] ++
  str "# Edit file names, save, and quit the editor (you will be" ++ [NL] ++
  str "# asked for confirmation)" ++ [NL] ++
  str "# Just quit the editor without any edit to cancel the operation"
  ++ [NL; NL].

(** [write_renfiles_to_tmp (&args, bulk_file, fd, &mtime_bfr,
    &total_input)]: the status, the vector, [*mtime_bfr] and
    [*total_input]. [attr] is written by a successful [lstat] before it
    is read, so its first value does not matter. *)
Definition write_renfiles_to_tmp (args : list bytes) (bulk_file : bytes)
  (fd : Z) : M (Z * list bytes * Z * nat) :=
  fp <- query (fun w => sys_fdopen w fd) ;;
  match fp with
  | Err _ =>
      rc <- err_open_tmp_file bulk_file fd ;;
      ret (rc, args, 0%Z, 0)
  | Ok _ =>
      call (WriteDoc fd BULK_RENAME_TMP_FILE_HEADER)
           (fun w => (tt, sys_write w fd BULK_RENAME_TMP_FILE_HEADER)) ;;
      r <- write_renfiles_loop fd 0%Z 0 (tl args) ;;
      let '(rest, attr, total_input) := r in
      let args' := firstn 1 args ++ rest in
      if total_input =? 0 then
        u <- sys (Unlinkat fd bulk_file)
                 (fun w => sys_unlinkat w fd bulk_file) ;;
        when (match u with Err _ => true | Ok _ => false end)
             (xerror "br: unlink: '%s': %s\n" [bulk_file]) ;;
        ret (EXIT_FAILURE, args', 0%Z, total_input)
      else
        st <- query (fun w => sys_fstat w fd) ;;
        let mtime_bfr := match st with Ok m => m | Err _ => attr end in
        ret (EXIT_SUCCESS, args', mtime_bfr, total_input)
  end.

(** The lines the three loops of the rename flow skip: an empty buffer, an
    empty line, a comment. *)
Definition br_skip (line : bytes) : bool :=
  match line with
  | [] => true
  | c :: _ => Ascii.eqb c NUL || Ascii.eqb c NL || Ascii.eqb c "#"
  end.

Definition abbrev (name : bytes) : bytes :=
  match abbreviate_file_name name with
  | Some a => a
  | None => name
  end.

(** One round of the loop of [count_modified_names]; the state is
    [(i, modified)]. [args[i]] past the end of the vector reads as the
    terminating NULL. *)
Definition count_modified_round (args : list bytes) (st : nat * nat)
  (line : bytes) : M (nat * nat) :=
  let (i, modified) := st in
  if br_skip line then ret st
  else
    let line := chomp line in
    match nth_error args i with
    | Some a =>
        if negb (streq a line) then
          emit (Stdout "%s %s->%s %s\n" [abbrev a; mi_c; df_c; abbrev line]) ;;
          ret (S i, S modified)
        else ret (S i, modified)
    | None => ret (S i, modified)
    end.

(** [count_modified_names (args, fp)]. *)
Definition count_modified_names (args : list bytes) (fp : bytes) : M nat :=
  r <- foldM (count_modified_round args) (fgets_lines PATH_MAX fp) (1, 0) ;;
  let modified := snd r in
  if modified =? 0 then puts "br: Nothing to do" ;; ret 0
  else ret modified.

(** [open_bulk_file (bulk_file)]. *)
Definition open_bulk_file (bulk_file : bytes) : M Z :=
  exit_status <- call (OpenFile bulk_file)
                      (fun w => open_file w bulk_file) ;;
  if negb (exit_status =? EXIT_SUCCESS)%Z then
    xerror "br: %s\n" [] ;;
    u <- sys (Unlink bulk_file) (fun w => sys_unlink w bulk_file) ;;
    when (match u with Err _ => true | Ok _ => false end)
         (xerror "br: unlink: '%s': %s\n" [bulk_file]) ;;
    ret exit_status
  else ret EXIT_SUCCESS.

(** The counter of [check_line_mismatch]: the records that are not
    skipped. *)
Definition total_modified (fp : bytes) : nat :=
  fold_left (fun n line => if br_skip line then n else S n)
            (fgets_lines PATH_MAX fp) 0.

(** [check_line_mismatch (fp, total_input)]. *)
Definition check_line_mismatch (fp : bytes) (total_input : nat) : M Z :=
  if negb (total_input =? total_modified fp) then
    xerror "%s\n" [str "br: Line mismatch in temporary file"] ;;
    ret EXIT_FAILURE
  else ret EXIT_SUCCESS.

(** The variables of the loop of [rename_bulk_files]. *)
Record rename_vars : Type := mkVars {
  rv_i : nat;
  rv_exit_status : Z;
  rv_is_cwd : Z;
  rv_renamed : nat
}.

(** One round of the loop of [rename_bulk_files]. *)
Definition rename_round (args : list bytes) (modified : nat)
  (v : rename_vars) (line : bytes) : M rename_vars :=
  if br_skip line then ret v
  else
    match nth_error args (rv_i v) with
    | None => ret (mkVars (S (rv_i v)) (rv_exit_status v) (rv_is_cwd v)
                          (rv_renamed v))
    | Some a =>
        let line := chomp line in
        if streq a line then
          ret (mkVars (S (rv_i v)) (rv_exit_status v) (rv_is_cwd v)
                      (rv_renamed v))
        else
          r <- rename_file a line ;;
          let (rc, line') := r in
          if negb (rc =? 0)%Z then
            when ((conf_autols =? 1)%Z && (1 <? modified))
                 (emit PressAnyKey) ;;
            ret (mkVars (S (rv_i v)) rc (rv_is_cwd v) (rv_renamed v))
          else
            in_cwd <- peek (fun w => is_file_in_cwd w a
                                     || is_file_in_cwd w line') ;;
            let is_cwd :=
              if (rv_is_cwd v =? 0)%Z && in_cwd then 1%Z
              else rv_is_cwd v in
            ret (mkVars (S (rv_i v)) (rv_exit_status v) is_cwd
                        (S (rv_renamed v)))
    end.

(** [rename_bulk_files (args, fp, &is_cwd, &renamed, modified)]: the
    status, [*is_cwd] and [*renamed]. *)
Definition rename_bulk_files (args : list bytes) (fp : bytes)
  (is_cwd : Z) (renamed modified : nat) : M (Z * Z * nat) :=
  v <- foldM (rename_round args modified) (fgets_lines PATH_MAX fp)
             (mkVars 1 EXIT_SUCCESS is_cwd renamed) ;;
  ret (rv_exit_status v, rv_is_cwd v, rv_renamed v).

(** What [bulk_rename] holds once the document has been written, edited
    and reopened: the vector as [write_renfiles_to_tmp] left it, the path
    and descriptor of the document, the reopened stream, and the two
    values written through [&mtime_bfr] and [&total_input]. *)
Record rename_ctx : Type := mkCtx {
  br_args : list bytes;
  br_file : bytes;
  br_fd : Z;
  br_fp : bytes;
  br_mtime_bfr : Z;
  br_total_input : nat
}.

(** The label [ERROR] of [bulk_rename]. *)
Definition bulk_rename_ERROR (c : rename_ctx) (exit_status : Z) : M Z :=
  u <- sys (Unlinkat (br_fd c) (br_file c))
           (fun w => sys_unlinkat w (br_fd c) (br_file c)) ;;
  match u with
  | Err _ =>
      xerror "br: unlinkat: '%s': %s\n" [br_file c] ;;
      get_errno
  | Ok _ => ret exit_status
  end.

(** [bulk_rename], from its first statement to the reopening of the
    document: either the value returned on the way, or the context the
    rest of the function works on. ["BULK_USAGE"] stands for the text of
    that macro of [messages.h]. *)
Definition bulk_rename_open (args : list bytes) : M (Z + rename_ctx) :=
  match nth_error args 1 with
  | None => puts "BULK_USAGE" ;; ret (inl EXIT_SUCCESS)
  | Some a1 =>
      if IS_HELP a1 then puts "BULK_USAGE" ;; ret (inl EXIT_SUCCESS)
      else
        let template :=
          snprintf PATH_MAX
            (cstr (if (stealth_mode =? 1)%Z then P_tmpdir else tmp_dir)
             ++ str "/" ++ cstr TMP_FILENAME) in
        m <- sys (Mkstemp template) (fun w => sys_mkstemp w template) ;;
        match m with
        | Err _ =>
            xerror "br: mkstemp: '%s': %s\n" [template] ;;
            ret (inl EXIT_FAILURE)
        | Ok (fd, bulk_file) =>
            r <- write_renfiles_to_tmp args bulk_file fd ;;
            let '(rc, args', mtime_bfr, total_input) := r in
            if negb (rc =? EXIT_SUCCESS)%Z then ret (inl rc)
            else
              rc' <- open_bulk_file bulk_file ;;
              if negb (rc' =? EXIT_SUCCESS)%Z then ret (inl rc')
              else
                fd' <- peek (fun w => fst (open_fread w bulk_file)) ;;
                fp <- query (fun w => snd (open_fread w bulk_file)) ;;
                match fp with
                | Err _ =>
                    rc'' <- err_open_tmp_file bulk_file fd' ;;
                    ret (inl rc'')
                | Ok stream =>
                    ret (inr (mkCtx args' bulk_file fd' stream mtime_bfr
                                    total_input))
                end
        end
  end.

(** The rest of [bulk_rename]: the comparison of the modification times,
    the line count, the summary, the confirmation, the renames and the
    report. *)
Definition bulk_rename_apply (c : rename_ctx) : M Z :=
  st <- query (fun w => sys_fstat w (br_fd c)) ;;
  match st with
  | Err _ =>
      xerror "br: '%s': %s\n" [br_file c] ;;
      bulk_rename_ERROR c EXIT_SUCCESS
  | Ok mtime =>
      if (br_mtime_bfr c =? mtime)%Z then
        puts "br: Nothing to do" ;;
        bulk_rename_ERROR c EXIT_SUCCESS
      else
        chk <- check_line_mismatch (br_fp c) (br_total_input c) ;;
        if negb (chk =? EXIT_SUCCESS)%Z then
          bulk_rename_ERROR c EXIT_FAILURE
        else
          modified <- count_modified_names (br_args c) (br_fp c) ;;
          yes <- call (Ask "Continue? [y/n] ")
                      (fun w => rl_get_y_or_n w "Continue? [y/n] ") ;;
          if (yes =? 0)%Z then bulk_rename_ERROR c EXIT_SUCCESS
          else
            r <- rename_bulk_files (br_args c) (br_fp c) 0%Z 0 modified ;;
            let '(rc, is_cwd, renamed) := r in
            let exit_status :=
              if negb (rc =? EXIT_SUCCESS)%Z then rc else EXIT_SUCCESS in
            u <- sys (Unlinkat (br_fd c) (br_file c))
                     (fun w => sys_unlinkat w (br_fd c) (br_file c)) ;;
            exit_status' <-
              match u with
              | Err _ =>
                  e <- get_errno ;;
                  xerror "br: unlink: '%s': %s\n" [br_file c] ;;
                  ret e
              | Ok _ => ret exit_status
              end ;;
            sel <- peek have_sel_files ;;
            when ((0 <? sel_n)%Z && sel)
                 (call GetSelFiles (fun w => (tt, get_sel_files w))) ;;
            when ((0 <? renamed) && (is_cwd =? 1)%Z && (conf_autols =? 1)%Z)
                 (call ReloadDirlist (fun w => (tt, reload_dirlist w))) ;;
            emit (ReloadMsg "%zu file(s) renamed\n" renamed) ;;
            ret exit_status'
  end.

(** [bulk_rename (args)]. *)
Definition bulk_rename (args : list bytes) : M Z :=
  r <- bulk_rename_open args ;;
  match r with
  | inl rc => ret rc
  | inr c => bulk_rename_apply c
  end.

(** ** bulk_remove.c *)

(** Where [target] points: at [workspaces[cur_ws].path] itself, or at the
    caller's string. The source tells the two apart by comparing the
    pointers, so a path that spells the current directory is [T_dir]. *)
Inductive target_t : Type :=
| T_cwd
| T_dir (path : bytes).

Definition target_path (t : target_t) : bytes :=
  match t with
  | T_cwd => cwd_path
  | T_dir p => p
  end.

Definition is_cwd_target (t : target_t) : bool :=
  match t with
  | T_cwd => true
  | T_dir _ => false
  end.

(** A [char *] parameter that is NULL or points to an empty string. *)
Definition no_string (s : option bytes) : bool :=
  match s with
  | None => true
  | Some p => match cstr p with [] => true | _ => false end
  end.

(** [parse_bulk_remove_params (s1, s2, &app, &target)]: the status, [*app]
    and [*target]. *)
Definition parse_bulk_remove_params (s1 s2 : option bytes)
  : M (Z * option bytes * option target_t) :=
  match s1 with
  | None => ret (EXIT_SUCCESS, None, Some T_cwd)
  | Some p1 =>
      if no_string s1 then ret (EXIT_SUCCESS, None, Some T_cwd)
      else
        st <- query (fun w => sys_stat w p1) ;;
        match st with
        | Ok (true, _) =>
            let s := cstr p1 in
            let dir :=
              if (2 <? length s) && Ascii.eqb (last s NUL) "/"
              then removelast s else s in
            if no_string s2 then ret (EXIT_SUCCESS, None, Some (T_dir dir))
            else
              p <- peek (fun w => get_cmd_path w (match s2 with
                                                  | Some p2 => p2
                                                  | None => []
                                                  end)) ;;
              match p with
              | Some _ => ret (EXIT_SUCCESS, s2, Some (T_dir dir))
              | None =>
                  xerror "rr: '%s': %s\n" [match s2 with
                                           | Some p2 => p2
                                           | None => []
                                           end] ;;
                  ret (Z.pos ENOENT, None, Some (T_dir dir))
              end
        | other =>
            p <- peek (fun w => get_cmd_path w p1) ;;
            match p with
            | None =>
                let ec := match other with
                          | Err _ => ENOENT
                          | Ok _ => ENOTDIR
                          end in
                xerror "rr: '%s': %s\n" [p1] ;;
                ret (Z.pos ec, None, None)
            | Some _ => ret (EXIT_SUCCESS, Some p1, Some T_cwd)
            end
        end
  end.

(** [create_tmp_file (&file, &fd)]: the status, [*file] and [*fd]. The
    buffer is as long as the string printed into it. *)
Definition create_tmp_file : M (Z * bytes * Z) :=
  let template :=
    cstr (if (stealth_mode =? 1)%Z then P_tmpdir else tmp_dir)
    ++ str "/" ++ cstr TMP_FILENAME in
  (fun s => (tt, mkState (world s) 0%Z (trace s))) ;;
  m <- sys (Mkstemp template) (fun w => sys_mkstemp w template) ;;
  match m with
  | Err _ =>
      xerror "rr: mkstemp: '%s': %s\n" [template] ;;
      ret (EXIT_FAILURE, template, (-1)%Z)
  | Ok (fd, file) => ret (EXIT_SUCCESS, file, fd)
  end.

(** Modelled from the spec: the file-type suffix characters of
    [helpers.h], which is not among the sources: "[/] for directory, [@]
    for symlink, [=] for socket, [|] for fifo, [?] for unknown". The door
    and whiteout characters ("platform extensions") are fields of [OS]. *)
Definition DIR_CHR : ascii := "/".
Definition LINK_CHR : ascii := "@".
Definition SOCK_CHR : ascii := "=".
Definition FIFO_CHR : ascii := "|".
Definition UNKNOWN_CHR : ascii := "?".

(** [get_file_suffix (type)]; NUL is the [0] of the source. *)
Definition get_file_suffix (type : dtype) : ascii :=
  match type with
  | DT_DIR => DIR_CHR
  | DT_REG => NUL
  | DT_LNK => LINK_CHR
  | DT_SOCK => SOCK_CHR
  | DT_FIFO => FIFO_CHR
  | DT_DOOR => if SOLARIS_DOORS then DOOR_CHR else NUL
  | DT_WHT => if HAVE_S_IFWHT then WHT_CHR else NUL
  | DT_UNKNOWN => UNKNOWN_CHR
  | _ => NUL
  end.

(** The bytes [print_file (fp, name, type)] writes, in a build where
    [_DIRENT_HAVE_D_TYPE] is defined (glibc). *)
Definition print_file_text (name : bytes) (type : dtype) : bytes :=
  let s := get_file_suffix type in
  if negb (Ascii.eqb s NUL) then cstr name ++ [s; NL]
  else cstr name ++ [NL].

Definition print_file (fd : Z) (name : bytes) (type : dtype) : M unit :=
  let data := print_file_text name type in
  call (WriteDoc fd data) (fun w => (tt, sys_write w fd data)).

(** Modelled from the spec: the macro [SELFORPARENT] of [helpers.h], which
    is not among the sources; it holds of the names "." and ".." (the two
    "dotted entries"). *)
Definition SELFORPARENT (name : bytes) : bool :=
  bytes_eqb (cstr name) (str ".") || bytes_eqb (cstr name) (str "..").

Definition BULK_RM_TMP_FILE_HEADER : bytes :=
  str "# CliFM - Remove files in bulk" ++ [NL] ++
  str "# Remove the files you want to be deleted, save and exit" ++ [NL] ++
  str "# Just quit the editor without any edit to cancel the operation"
  ++ [NL; NL].

Fixpoint print_files (fd : Z) (l : list dirent) : M unit :=
  match l with
  | [] => ret tt
  | e :: l' => print_file fd (d_name e) (d_type e) ;; print_files fd l'
  end.

(** The loop over the scan in [write_files_to_tmp]. *)
Fixpoint print_scanned (fd : Z) (l : list dirent) : M unit :=
  match l with
  | [] => ret tt
  | e :: l' =>
      (if SELFORPARENT (d_name e) then ret tt
       else print_file fd (d_name e) (d_type e)) ;;
      print_scanned fd l'
  end.

(** [write_files_to_tmp (&a, &n, target, tmp_file)]: the status and the
    scan [*a] (with [*n] its length; both stay empty for the current
    directory). *)
Definition write_files_to_tmp (target : target_t) (tmp_file : bytes)
  : M (Z * list dirent) :=
  f <- sys (OpenFwrite tmp_file) (fun w => open_fwrite w tmp_file) ;;
  match f with
  | Err _ =>
      xerror "%s: rr: fopen: '%s': %s\n" [tmp_file] ;;
      e <- get_errno ;;
      ret (e, [])
  | Ok fd =>
      call (WriteDoc fd BULK_RM_TMP_FILE_HEADER)
           (fun w => (tt, sys_write w fd BULK_RM_TMP_FILE_HEADER)) ;;
      match target with
      | T_cwd => print_files fd file_info ;; ret (EXIT_SUCCESS, [])
      | T_dir dir =>
          cnt <- peek (fun w => count_dir w dir) ;;
          if (cnt <=? 2)%Z then
            xerror "%s: '%s': Directory empty\n" [dir] ;;
            ret (EXIT_FAILURE, [])
          else
            sc <- query (fun w => sys_scandir w dir) ;;
            match sc with
            | Err _ =>
                tmp_err <- get_errno ;;
                xerror "rr: '%s': %s" [dir] ;;
                ret (tmp_err, [])
            | Ok a => print_scanned fd a ;; ret (EXIT_SUCCESS, a)
            end
      end
  end.

(** [open_tmp_file (&a, n, tmp_file, app)]. *)
Definition open_tmp_file (tmp_file : bytes) (app : option bytes) : M Z :=
  if no_string app then
    exit_status <- call (OpenFile tmp_file)
                        (fun w => open_file w tmp_file) ;;
    if (exit_status =? EXIT_SUCCESS)%Z then ret EXIT_SUCCESS
    else
      xerror "rr: '%s': Cannot open file\n" [tmp_file] ;;
      ret exit_status
  else
    let cmd := [match app with Some p => p | None => [] end; tmp_file] in
    call (Execv cmd FOREGROUND E_NOFLAG)
         (fun w => launch_execv w cmd FOREGROUND E_NOFLAG).

(** The lines the loops of the remove flow skip: a comment, an empty
    line. *)
Definition rr_skip (line : bytes) : bool :=
  match line with
  | [] => false
  | c :: _ => Ascii.eqb c "#" || Ascii.eqb c NL
  end.

(** The characters [get_files_from_tmp_file] strips. *)
Definition is_suffix_chr (c : ascii) : bool :=
  Ascii.eqb c "/" || Ascii.eqb c "@" || Ascii.eqb c "=" ||
  Ascii.eqb c "|" || Ascii.eqb c "?".

(** [savestring (str, size)] of [aux.c]: a fresh copy of the string. *)
Definition savestring (s : bytes) : bytes := cstr s.

(** What a record of [getline] becomes in [tmp_files]: the newline goes,
    then one suffix character; [len] counts bytes, the copy is a string. *)
Definition read_name (line : bytes) : bytes :=
  let l1 := if Ascii.eqb (last line NUL) NL then removelast line
            else line in
  let l2 := if (0 <? length l1) && is_suffix_chr (last l1 NUL)
            then removelast l1 else l1 in
  savestring l2.

(** The loop of [get_files_from_tmp_file] over the stream. *)
Definition read_names (stream : bytes) : list bytes :=
  map read_name (filter (fun l => negb (rr_skip l)) (getline_lines stream)).

(** [get_files_from_tmp_file (tmp_file, target, n)]: [None] is NULL. The
    vector is allocated for [nfiles + 2] pointers and the loop does not
    look at that bound; lemma [tmp_files_fit] shows that [bulk_remove]
    never sends it past the end. *)
Definition get_files_from_tmp_file (tmp_file : bytes)
  : M (option (list bytes)) :=
  f <- query (fun w => sys_fopen_r w tmp_file) ;;
  match f with
  | Err _ => ret None
  | Ok stream => ret (Some (read_names stream))
  end.

(** [remove_this_file (file, list)]: 1 when FILE is not found in LIST. *)
Definition remove_this_file (file : bytes) (list : list bytes) : Z :=
  if SELFORPARENT file then 0%Z
  else if existsb (fun x => Ascii.eqb (hd NUL file) (hd NUL x)
                            && streq file x) list
       then 0%Z
       else 1%Z.

(** The path [get_remove_files] builds for an entry of a scanned
    directory. *)
Definition scanned_path (dir name : bytes) : bytes :=
  if Ascii.eqb (hd NUL dir) "/" then
    savestring (snprintf PATH_MAX (cstr dir ++ str "/" ++ cstr name))
  else
    savestring (snprintf PATH_MAX
                  (cstr cwd_path ++ str "/" ++ cstr dir ++ str "/"
                   ++ cstr name)).

(** [get_remove_files (target, tmp_files, &a, n)]. *)
Definition get_remove_files (target : target_t) (tmp_files : list bytes)
  (a : list dirent) : list bytes :=
  savestring (str "rr") ::
  match target with
  | T_cwd =>
      map (fun e => savestring (d_name e))
          (filter (fun e => (remove_this_file (d_name e) tmp_files =? 1)%Z)
                  file_info)
  | T_dir dir =>
      map (fun e => scanned_path dir (d_name e))
          (filter (fun e => (remove_this_file (d_name e) tmp_files =? 1)%Z)
                  a)
  end.

(** The counter [c] of [diff_files]. *)
Definition diff_count (stream : bytes) : Z :=
  fold_left (fun c line => if rr_skip line then c else (c + 1)%Z)
            (fgets_lines (PATH_MAX + 6) stream) 0%Z.

(** [diff_files (tmp_file, n)]. *)
Definition diff_files (tmp_file : bytes) (n : Z) : M Z :=
  f <- query (fun w => sys_fopen_r w tmp_file) ;;
  match f with
  | Err _ =>
      xerror "br: '%s': %s\n" [tmp_file] ;;
      ret 0%Z
  | Ok stream => ret (if (diff_count stream <? n)%Z then 1%Z else 0%Z)
  end.

(** [nothing_to_do (&tmp_file, &a, n, fd)]. The source compares the
    result of [unlinkat] with 1, which it never is, so no diagnostic
    follows a failure. *)
Definition nothing_to_do (tmp_file : bytes) (fd : Z) : M Z :=
  puts "rr: Nothing to do" ;;
  sys (Unlinkat fd tmp_file) (fun w => sys_unlinkat w fd tmp_file) ;;
  ret EXIT_SUCCESS.

(** What [bulk_remove] holds once the document has been written and the
    editor has returned: [target], [tmp_file], [fd], the scan [a] (its
    length is [n]) and [old_t], which is also what [attr.st_mtime] still
    holds. *)
Record remove_ctx : Type := mkRctx {
  rr_target : target_t;
  rr_tmp_file : bytes;
  rr_fd : Z;
  rr_a : list dirent;
  rr_old_t : Z
}.

(** The label [END] of [bulk_remove]. *)
Definition bulk_remove_END (tmp_file : bytes) (fd : Z) (rc : Z) : M Z :=
  u <- sys (Unlinkat fd tmp_file) (fun w => sys_unlinkat w fd tmp_file) ;;
  when (match u with Err _ => true | Ok _ => false end)
       (xerror "rr: unlink: '%s': %s\n" [tmp_file]) ;;
  ret rc.

(** [bulk_remove], from its first statement to the return of the
    editor. *)
Definition bulk_remove_open (s1 s2 : option bytes) : M (Z + remove_ctx) :=
  if match s1 with Some p1 => IS_HELP p1 | None => false end then
    puts "RR_USAGE" ;; ret (inl EXIT_SUCCESS)
  else
    p <- parse_bulk_remove_params s1 s2 ;;
    let '(rc, app, target) := p in
    match target with
    | None => ret (inl rc)
    | Some target =>
        if negb (rc =? EXIT_SUCCESS)%Z then ret (inl rc)
        else
          t <- create_tmp_file ;;
          let '(rc1, tmp_file, fd) := t in
          if negb (rc1 =? EXIT_SUCCESS)%Z then ret (inl rc1)
          else
            wr <- write_files_to_tmp target tmp_file ;;
            let (rc2, a) := wr in
            if negb (rc2 =? EXIT_SUCCESS)%Z then
              rc' <- bulk_remove_END tmp_file fd rc2 ;; ret (inl rc')
            else
              st <- query (fun w => sys_stat w tmp_file) ;;
              let old_t := match st with
                           | Ok (_, m) => m
                           | Err _ => uninit_mtime
                           end in
              rc3 <- open_tmp_file tmp_file app ;;
              if negb (rc3 =? EXIT_SUCCESS)%Z then
                rc' <- bulk_remove_END tmp_file fd rc3 ;; ret (inl rc')
              else ret (inr (mkRctx target tmp_file fd a old_t))
    end.

(** [num]: the number of entries written to the document. *)
Definition rr_num (c : remove_ctx) : Z :=
  match rr_target c with
  | T_cwd => Z.of_nat (length file_info)
  | T_dir _ => (Z.of_nat (length (rr_a c)) - 2)%Z
  end.

(** The rest of [bulk_remove]: the comparison of the modification times,
    the line count, the names read back, the removal. *)
Definition bulk_remove_apply (c : remove_ctx) : M Z :=
  st <- query (fun w => sys_stat w (rr_tmp_file c)) ;;
  let mtime := match st with
               | Ok (_, m) => m
               | Err _ => rr_old_t c
               end in
  d <- (if (rr_old_t c =? mtime)%Z then ret 0%Z
        else diff_files (rr_tmp_file c) (rr_num c)) ;;
  if (rr_old_t c =? mtime)%Z || (d =? 0)%Z then
    nothing_to_do (rr_tmp_file c) (rr_fd c)
  else
    rfiles <- get_files_from_tmp_file (rr_tmp_file c) ;;
    match rfiles with
    | None => bulk_remove_END (rr_tmp_file c) (rr_fd c) EXIT_SUCCESS
    | Some tmp_files =>
        let rem_files := get_remove_files (rr_target c) tmp_files (rr_a c) in
        rc <- call (RemoveFiles rem_files)
                   (fun w => remove_files w rem_files) ;;
        bulk_remove_END (rr_tmp_file c) (rr_fd c) rc
    end.

(** [bulk_remove (s1, s2)]. *)
Definition bulk_remove (s1 s2 : option bytes) : M Z :=
  r <- bulk_remove_open s1 s2 ;;
  match r with
  | inl rc => ret rc
  | inr c => bulk_remove_apply c
  end.

End Flows.

(** ** A small operating system to run the flows on

    The scenarios of the specification and the concrete runs below are
    evaluated on this instance of [OS]: a flat name space, one temporary
    document, an editor that saves a scripted text. *)

Module Toy.

Record world : Type := mkWorld {
  tw_names : list bytes;               (* the files that exist *)
  tw_doc : bytes;                      (* the temporary document *)
  tw_mtime : Z;                        (* its modification time *)
  tw_editor : option (bytes * Z);      (* the text the editor saves and the
                                          seconds it takes; None: no save *)
  tw_fail : list (bytes * positive);   (* renameat fails on these NEWPATHs *)
  tw_mv : Z;                           (* the exit status of mv *)
  tw_unlink : option positive;         (* how unlinkat fails, if it does *)
  tw_scan : list dirent;               (* what scandir returns *)
  tw_answer : Z                        (* the reply to the prompt *)
}.

Definition set_names (w : world) (l : list bytes) : world :=
  mkWorld l (tw_doc w) (tw_mtime w) (tw_editor w) (tw_fail w) (tw_mv w)
          (tw_unlink w) (tw_scan w) (tw_answer w).

Definition set_doc (w : world) (d : bytes) (t : Z) : world :=
  mkWorld (tw_names w) d t (tw_editor w) (tw_fail w) (tw_mv w)
          (tw_unlink w) (tw_scan w) (tw_answer w).

Definition known (w : world) (p : bytes) : bool :=
  existsb (bytes_eqb p) (tw_names w).

Fixpoint lookup (p : bytes) (l : list (bytes * positive))
  : option positive :=
  match l with
  | [] => None
  | (q, e) :: l' => if bytes_eqb p q then Some e else lookup p l'
  end.

Definition move (w : world) (oldpath newpath : bytes) : world :=
  set_names w (newpath ::
               filter (fun q => negb (bytes_eqb q oldpath)
                                && negb (bytes_eqb q newpath))
                      (tw_names w)).

Definition edit (w : world) : Z * world :=
  match tw_editor w with
  | Some (d, dt) => (0%Z, set_doc w d (tw_mtime w + dt)%Z)
  | None => (0%Z, w)
  end.

Definition tmp_name : bytes := str "/tmp/clifm/.tempXXXXXX".

Definition os (listing : list dirent) : OS := {|
  World := world;
  stealth_mode := 0%Z;
  P_tmpdir := str "/tmp";
  tmp_dir := str "/tmp/clifm";
  TMP_FILENAME := str ".tempXXXXXX";
  conf_autols := 1%Z;
  cwd_path := str "/home/u";
  file_info := listing;
  sel_n := 0%Z;
  uninit_mtime := 0%Z;
  mi_c := [];
  df_c := [];
  SOLARIS_DOORS := false;
  HAVE_S_IFWHT := false;
  DOOR_CHR := ">"%char;
  WHT_CHR := "%"%char;
  IS_HELP := fun a => bytes_eqb a (str "--help");
  unescape_str := fun a => Some a;
  abbreviate_file_name := fun _ => None;
  is_file_in_cwd := fun _ p => negb (strchr p "/");
  have_sel_files := fun _ => false;
  get_cmd_path := fun _ p => if bytes_eqb p (str "vi")
                             then Some (str "/usr/bin/vi") else None;
  count_dir := fun w _ => Z.of_nat (length (tw_scan w));
  sys_fdopen := fun _ _ => Ok tt;
  sys_realpath := fun _ p => Ok p;
  sys_lstat := fun w p => if known w p then Ok 0%Z else Err ENOENT;
  sys_stat := fun w p =>
    if bytes_eqb p tmp_name then Ok (false, tw_mtime w)
    else if bytes_eqb p (str "/d") then Ok (true, 0%Z)
    else if known w p then Ok (false, 0%Z)
    else Err ENOENT;
  sys_fstat := fun w _ => Ok (tw_mtime w);
  open_fread := fun w _ => (4%Z, Ok (tw_doc w));
  sys_fopen_r := fun w _ => Ok (tw_doc w);
  sys_scandir := fun w _ => Ok (tw_scan w);
  sys_mkstemp := fun w t => (Ok (3%Z, t), set_doc w [] 100%Z);
  sys_write := fun w _ data => set_doc w (tw_doc w ++ data) (tw_mtime w);
  sys_renameat := fun w oldpath newpath =>
    match lookup newpath (tw_fail w) with
    | Some e => (Err e, w)
    | None => if known w oldpath then (Ok tt, move w oldpath newpath)
              else (Err ENOENT, w)
    end;
  sys_unlinkat := fun w _ _ =>
    match tw_unlink w with
    | Some e => (Err e, w)
    | None => (Ok tt, set_doc w [] 0%Z)
    end;
  sys_unlink := fun w _ =>
    match tw_unlink w with
    | Some e => (Err e, w)
    | None => (Ok tt, set_doc w [] 0%Z)
    end;
  open_fwrite := fun w _ => (Ok 5%Z, w);
  launch_execv := fun w argv _ _ =>
    match argv with
    | [_; _; oldpath; newpath] =>
        (tw_mv w, if (tw_mv w =? 0)%Z then move w oldpath newpath else w)
    | _ => edit w
    end;
  open_file := fun w _ => edit w;
  rl_get_y_or_n := fun w _ => (tw_answer w, w);
  remove_files := fun w argv =>
    (0%Z, set_names w (filter (fun q => negb (existsb (bytes_eqb q)
                                                      (tl argv)))
                              (tw_names w)));
  get_sel_files := fun w => w;
  reload_dirlist := fun w => w
|}.

(** The text of a document: the lines given, each ended by a newline. *)
Definition text (lines : list string) : bytes :=
  concat (map (fun l => str l ++ [NL]) lines).

(** A world where NAMES exist and the editor will save the LINES given
    DT seconds after the document was written. *)
Definition boot (names : list string) (saved : option (list string * Z))
  : world :=
  mkWorld (map str names) [] 0%Z
          (match saved with
           | Some (l, dt) => Some (text l, dt)
           | None => None
           end)
          [] 0%Z None [] 1%Z.

Definition start (listing : list dirent) (w : world)
  : @state (os listing) :=
  @mkState (os listing) w 0%Z [].

(** [bulk_rename] on the arguments given, from a fresh process state. *)
Definition br (args : list string) (w : world) :=
  @bulk_rename (os []) (map str args) (start [] w).

(** [bulk_remove] with the listing given for the current directory. *)
Definition rr (listing : list dirent) (s1 s2 : option string) (w : world) :=
  @bulk_remove (os listing) (option_map str s1) (option_map str s2)
               (start listing w).

End Toy.

(** ** The small operating system, with more to set

    [Toy.os] with the directories [stat] knows given as a list, and with
    an [fstat] and an [fopen] that fail when an error number is given. *)

Module Rig.

Import Toy.

Definition os (listing : list dirent) (dirs : list bytes)
  (fstat_err fopen_err : option positive) : OS := {|
  World := world;
  stealth_mode := @stealth_mode (Toy.os listing);
  P_tmpdir := @P_tmpdir (Toy.os listing);
  tmp_dir := @tmp_dir (Toy.os listing);
  TMP_FILENAME := @TMP_FILENAME (Toy.os listing);
  conf_autols := @conf_autols (Toy.os listing);
  cwd_path := @cwd_path (Toy.os listing);
  file_info := listing;
  sel_n := @sel_n (Toy.os listing);
  uninit_mtime := @uninit_mtime (Toy.os listing);
  mi_c := @mi_c (Toy.os listing);
  df_c := @df_c (Toy.os listing);
  SOLARIS_DOORS := @SOLARIS_DOORS (Toy.os listing);
  HAVE_S_IFWHT := @HAVE_S_IFWHT (Toy.os listing);
  DOOR_CHR := @DOOR_CHR (Toy.os listing);
  WHT_CHR := @WHT_CHR (Toy.os listing);
  IS_HELP := @IS_HELP (Toy.os listing);
  unescape_str := @unescape_str (Toy.os listing);
  abbreviate_file_name := @abbreviate_file_name (Toy.os listing);
  is_file_in_cwd := @is_file_in_cwd (Toy.os listing);
  have_sel_files := @have_sel_files (Toy.os listing);
  get_cmd_path := @get_cmd_path (Toy.os listing);
  count_dir := @count_dir (Toy.os listing);
  sys_fdopen := @sys_fdopen (Toy.os listing);
  sys_realpath := @sys_realpath (Toy.os listing);
  sys_lstat := @sys_lstat (Toy.os listing);
  sys_stat := fun w p =>
    if bytes_eqb p tmp_name then Ok (false, tw_mtime w)
    else if existsb (bytes_eqb p) dirs then Ok (true, 0%Z)
    else if known w p then Ok (false, 0%Z)
    else Err ENOENT;
  sys_fstat := fun w fd =>
    match fstat_err with
    | Some e => Err e
    | None => Ok (tw_mtime w)
    end;
  open_fread := @open_fread (Toy.os listing);
  sys_fopen_r := fun w p =>
    match fopen_err with
    | Some e => Err e
    | None => Ok (tw_doc w)
    end;
  sys_scandir := @sys_scandir (Toy.os listing);
  sys_mkstemp := @sys_mkstemp (Toy.os listing);
  sys_write := @sys_write (Toy.os listing);
  sys_renameat := @sys_renameat (Toy.os listing);
  sys_unlinkat := @sys_unlinkat (Toy.os listing);
  sys_unlink := @sys_unlink (Toy.os listing);
  open_fwrite := @open_fwrite (Toy.os listing);
  launch_execv := @launch_execv (Toy.os listing);
  open_file := @open_file (Toy.os listing);
  rl_get_y_or_n := @rl_get_y_or_n (Toy.os listing);
  remove_files := @remove_files (Toy.os listing);
  get_sel_files := @get_sel_files (Toy.os listing);
  reload_dirlist := @reload_dirlist (Toy.os listing)
|}.

Definition start (o : OS) (w : @World o) : @state o := @mkState o w 0%Z [].

(** An absolute path of [PATH_MAX - 4] bytes, "/d/d/.../d": with "/"
    and a name of three bytes the text of the path is one byte too long
    for a buffer of [PATH_MAX] bytes. *)
Definition deep : bytes := concat (repeat (str "/d") ((PATH_MAX - 4) / 2)).

(** The scan of [deep]: the two dotted entries and the file "..x". *)
Definition deep_scan : list dirent :=
  [mkDirent (str ".") DT_DIR; mkDirent (str "..") DT_DIR;
   mkDirent (str "..x") DT_REG].

(** The editor saves the document with the one line of "..x" taken
    out. *)
Definition line_of_dotdotx_deleted : world :=
  mkWorld [] [] 0%Z (Some ([], 5%Z)) [] 0%Z None deep_scan 1%Z.

End Rig.

(** ** The runs the theorems are tried on *)

Module Run.

Import Toy.

(** The context [bulk_rename_open] reaches, when it reaches one. *)
Definition ctx_of (r : Z + rename_ctx) : rename_ctx :=
  match r with
  | inr c => c
  | inl _ => mkCtx [] [] 0%Z [] 0%Z 0
  end.

Definition rctx_of (r : Z + remove_ctx) : remove_ctx :=
  match r with
  | inr c => c
  | inl _ => mkRctx T_cwd [] 0%Z [] 0%Z
  end.

Definition ab : list bytes := [str "br"; str "a"; str "b"].

(** "br a b", both files exist. *)
Definition br_start (w : world) : @state (os []) := start [] w.

Definition br_ctx (w : world) : rename_ctx :=
  ctx_of (fst (@bulk_rename_open (os []) ab (br_start w))).

Definition br_opened (w : world) : @state (os []) :=
  snd (@bulk_rename_open (os []) ab (br_start w)).

(** The editor quits without saving. *)
Definition untouched : world := boot ["a"; "b"]%string None.

(** The editor saves a document one line short. *)
Definition one_line_short : world :=
  boot ["a"; "b"]%string (Some (["a"]%string, 5%Z)).

(** The editor saves two new names; [renameat] fails on both, with
    [EACCES] (13) on the first and [ENOENT] (2) on the second. *)
Definition two_failures : world :=
  mkWorld [str "a"; str "b"] [] 0%Z
          (Some (text ["x"; "y"]%string, 5%Z))
          [(str "x", 13%positive); (str "y", 2%positive)]
          0%Z None [] 1%Z.

(** The new name "/mnt/b" lies on another device. *)
Definition other_device : world :=
  mkWorld [str "a"] [] 0%Z None [(str "/mnt/b", EXDEV)] 0%Z None [] 1%Z.

(** "br missing a b": the first argument does not exist, the editor
    changes the first of the two lines written. *)
Definition with_missing : list bytes :=
  [str "br"; str "missing"; str "a"; str "b"].

Definition first_line_edited : world :=
  boot ["a"; "b"]%string (Some (["a2"; "b"]%string, 5%Z)).

(** A current directory with a directory, a regular file and a link. *)
Definition listing : list dirent :=
  [mkDirent (str "x") DT_DIR; mkDirent (str "y") DT_REG;
   mkDirent (str "z") DT_LNK].

Definition rr_start (w : world) : @state (os listing) := start listing w.

Definition rr_ctx (w : world) : remove_ctx :=
  rctx_of (fst (@bulk_remove_open (os listing) None None (rr_start w))).

Definition rr_opened (w : world) : @state (os listing) :=
  snd (@bulk_remove_open (os listing) None None (rr_start w)).

(** The line of "y" is taken out. *)
Definition y_deleted : world :=
  boot ["x"; "y"; "z"]%string (Some (["x/"; "z@"]%string, 5%Z)).

(** The line of "y" is replaced: as many lines as entries. *)
Definition y_replaced : world :=
  boot ["x"; "y"; "z"]%string (Some (["x/"; "w"; "z@"]%string, 5%Z)).

(** A line is added: more lines than entries. *)
Definition line_added : world :=
  boot ["x"; "y"; "z"]%string (Some (["x/"; "y"; "z@"; "w"]%string, 5%Z)).

(** The editor saves one line that is too long for the buffer:
    [PATH_MAX - 1] times "x", then "y". *)
Definition long_line : bytes :=
  repeat "x"%char (PATH_MAX - 1) ++ str "y" ++ [NL].

(** [renameat] refuses the name of [PATH_MAX - 1] bytes with
    [ENAMETOOLONG] (36). *)
Definition one_long_line : world :=
  mkWorld [str "a"; str "b"] [] 0%Z (Some (long_line, 5%Z))
          [(repeat "x"%char (PATH_MAX - 1), 36%positive)] 0%Z None [] 1%Z.

(** The editor replaces the line of "b" by a line of one blank. *)
Definition blank_for_b : world :=
  boot ["a"; "b"]%string (Some (["a"; " "]%string, 5%Z)).

(** "br a b": the line of "a" is edited to "x", and the user answers
    "no" to the prompt. *)
Definition says_no : world :=
  mkWorld [str "a"; str "b"] [] 0%Z
          (Some (text ["x"; "b"]%string, 5%Z)) [] 0%Z None [] 0%Z.

(** The entries of the listing other than "y". *)
Definition keep_but_y (e : dirent) : bool :=
  negb (bytes_eqb (d_name e) (str "y")).
End Run.

(** ** The vocabulary of the claims *)

(** A comment of a document, without its newline: an empty line, or a
    line whose first character is [#]. *)
Definition comment_line (c : bytes) : Prop :=
  ~ In NL c /\ (c = [] \/ exists r, c = "#"%char :: r).

(** A place of a text where a line can be put in or taken out: its start,
    or right after a newline. *)
Definition line_start (pre : bytes) : Prop :=
  pre = [] \/ exists p, pre = p ++ [NL].

(** Two documents that differ by comment lines of less than BOUND bytes
    (newline included), put in or taken out at any place, any number of
    times. *)
Inductive comment_edit (bound : nat) : bytes -> bytes -> Prop :=
| ce_same (d : bytes) : comment_edit bound d d
| ce_add (pre c post : bytes) :
    line_start pre -> comment_line c -> length c + 1 < bound ->
    comment_edit bound (pre ++ post) (pre ++ c ++ NL :: post)
| ce_del (pre c post : bytes) :
    line_start pre -> comment_line c -> length c + 1 < bound ->
    comment_edit bound (pre ++ c ++ NL :: post) (pre ++ post)
| ce_then (d1 d2 d3 : bytes) :
    comment_edit bound d1 d2 -> comment_edit bound d2 d3 ->
    comment_edit bound d1 d3.

(** A name the remove document can hold on a line of its own: not empty,
    no NUL, no newline, not starting like a comment, and not ending with
    a character the reader strips. *)
Definition plain_name (name : bytes) : Prop :=
  name <> [] /\ ~ In NUL name /\ ~ In NL name /\
  hd NUL name <> "#"%char /\ is_suffix_chr (last name NUL) = false.

(** The kinds whose suffix the reader strips, or that have none. *)
Definition stripped_kind {os : OS} (type : dtype) : Prop :=
  get_file_suffix type = NUL \/ is_suffix_chr (get_file_suffix type) = true.

(** The document [write_files_to_tmp] writes for the entries given. *)
Definition remove_document {os : OS} (entries : list dirent) : bytes :=
  BULK_RM_TMP_FILE_HEADER
  ++ concat (map (fun e => print_file_text (d_name e) (d_type e)) entries).

(** An entry survives when [get_remove_files] does not schedule it. *)
Definition survives (name : bytes) (tmp_files : list bytes) : Prop :=
  remove_this_file name tmp_files = 0%Z.

(** The name is the text of one of the lines read back. *)
Definition on_a_line (name : bytes) (tmp_files : list bytes) : Prop :=
  exists x, In x tmp_files /\ cstr x = cstr name.

(** The entries the removal list is computed from. *)
Definition entries_of {os : OS} (target : target_t) (a : list dirent)
  : list dirent :=
  match target with
  | T_cwd => file_info
  | T_dir _ => a
  end.

(** The string the removal list holds for an entry. *)
Definition removal_path {os : OS} (target : target_t) (name : bytes)
  : bytes :=
  match target with
  | T_cwd => savestring name
  | T_dir dir => scanned_path dir name
  end.

(** The change list of the rename flow: the pairs of [args[i]] and the
    i-th line that is not skipped, newline removed, for the lines that
    differ from their argument; [i] counts from the index given. *)
Fixpoint change_list (args : list bytes) (i : nat) (lines : list bytes)
  : list (bytes * bytes) :=
  match lines with
  | [] => []
  | line :: rest =>
      if br_skip line then change_list args i rest
      else
        match nth_error args i with
        | None => change_list args (S i) rest
        | Some a =>
            if streq a (chomp line) then change_list args (S i) rest
            else (a, chomp line) :: change_list args (S i) rest
        end
  end.

(** The Executor as the specification words it: every pair of the change
    list is given to [rename_file], in order and whatever became of the
    pairs before it; a failure is followed by the pause the source makes.
    The result is the list of the values [rename_file] returned. *)
Fixpoint rename_each {os : OS} (modified : nat)
  (changes : list (bytes * bytes)) : M (list Z) :=
  match changes with
  | [] => ret []
  | (oldpath, newpath) :: rest =>
      bind (rename_file oldpath newpath) (fun r =>
      bind (when (negb (fst r =? 0)%Z
                  && ((conf_autols =? 1)%Z && (1 <? modified)))
                 (emit PressAnyKey)) (fun _ =>
      bind (rename_each modified rest) (fun codes =>
      ret (fst r :: codes))))
  end.

(** What [exit_status] becomes when a rename returns [rc]. *)
Definition keep_error (acc rc : Z) : Z := if (rc =? 0)%Z then acc else rc.

(** The last value of a list of return values that is not zero; zero
    when there is none. *)
Definition last_nonzero (codes : list Z) : Z :=
  fold_left keep_error codes 0%Z.

(** The first value that is not zero; zero when there is none. *)
Definition first_nonzero (codes : list Z) : Z :=
  hd 0%Z (filter (fun rc => negb (rc =? 0)%Z) codes).

(** How many renames succeeded. *)
Definition count_renamed (codes : list Z) : nat :=
  length (filter (fun rc => (rc =? 0)%Z) codes).

(** The summary and the prompt of [bulk_rename]: what runs between the
    line count and the renames. *)
Definition summary_and_prompt {os : OS} (c : rename_ctx) : M (nat * Z) :=
  bind (count_modified_names (br_args c) (br_fp c)) (fun modified =>
  bind (call (Ask "Continue? [y/n] ")
             (fun w => rl_get_y_or_n w "Continue? [y/n] ")) (fun yes =>
  ret (modified, yes))).

(** The calls of [renameat] in a trace, in order. *)
Definition renames_of (tr : list event) : list (bytes * bytes) :=
  flat_map (fun e => match e with
                     | Renameat o n => [(o, n)]
                     | _ => []
                     end) tr.

(** Every event a computation adds to the trace satisfies [P]; nothing
    of the trace it started from is lost. *)
Definition emits {os : OS} {A : Type} (P : event -> Prop) (m : M A) : Prop :=
  forall s, exists evs,
    trace (snd (m s)) = trace s ++ evs /\ Forall P evs.

(** The events that are no rename: neither a call of [renameat] nor a
    launched command. *)
Definition no_rename (e : event) : Prop :=
  match e with
  | Renameat _ _ | Execv _ _ _ => False
  | _ => True
  end.

(** The diagnostic that follows a failed [unlinkat]. *)
Definition unlink_diag {A : Type} (r : res A) (text : string)
  (file : bytes) : list event :=
  match r with
  | Ok _ => []
  | Err _ => [Stderr text [file]]
  end.

(** The events that remove or rename nothing. *)
Definition no_removal (e : event) : Prop :=
  match e with
  | RemoveFiles _ | Renameat _ _ => False
  | _ => True
  end.

(** The vectors handed to [remove_files] in a trace, in order. *)
Definition removals_of (tr : list event) : list (list bytes) :=
  flat_map (fun e => match e with
                     | RemoveFiles argv => [argv]
                     | _ => []
                     end) tr.

(** What [bulk_remove] does when it goes on to the removal: the names
    are read back, the list is computed and handed over, the document is
    unlinked, the status of [remove_files] is returned. *)
Definition remove_proceeds {os : OS} (c : remove_ctx) (stream : bytes)
  : M Z :=
  let rem_files :=
    get_remove_files (rr_target c) (read_names stream) (rr_a c) in
  bind (call (RemoveFiles rem_files) (fun w => remove_files w rem_files))
       (fun rc => bulk_remove_END (rr_tmp_file c) (rr_fd c) rc).

(** The modification time [bulk_remove] reads after the editor
    returned; a [stat] that fails leaves the one read before. *)
Definition mtime_now {os : OS} (c : remove_ctx) (st : state) : Z :=
  match sys_stat (world st) (rr_tmp_file c) with
  | Ok (_, m) => m
  | Err _ => rr_old_t c
  end.

(** The lines of a list that a loop of the remove flow counts. *)
Definition kept (lines : list bytes) : nat :=
  length (filter (fun l => negb (rr_skip l)) lines).

(** A record of [getline] without its newline. *)
Definition strip_newline (l : bytes) : bytes :=
  if Ascii.eqb (last l NUL) NL then removelast l else l.

(** The lines of a document, each without its newline; the last one may
    have had none. *)
Definition doc_lines (d : bytes) : list bytes :=
  map strip_newline (getline_lines d).

(** A comment of an edited document, decided on the line: it is empty or
    its first character is [#]. *)
Definition is_comment (line : bytes) : bool :=
  match line with
  | [] => true
  | c :: _ => Ascii.eqb c "#"
  end.

(** The lines of a document that are no comments. *)
Definition name_lines (d : bytes) : list bytes :=
  filter (fun l => negb (is_comment l)) (doc_lines d).

(** A text every line of which one call of [fgets] reads whole into a
    buffer of [PATH_MAX] bytes: it holds no NUL, and each line with its
    newline is shorter than [PATH_MAX] bytes. *)
Definition read_whole (d : bytes) : Prop :=
  ~ In NUL d /\ Forall (fun l => length l + 1 < PATH_MAX) (doc_lines d).

(** Modelled from the spec: "Lines whose first character is [#] or that
    are empty/blank are comments"; a blank line holds spaces and tabs
    only. *)
Definition spec_comment (line : bytes) : bool :=
  is_comment line
  || forallb (fun c => Ascii.eqb c " " || Ascii.eqb c "009") line.

(** Modelled from the spec: the "count of non-comment lines" of an
    edited document. *)
Definition spec_count (d : bytes) : nat :=
  length (filter (fun l => negb (spec_comment l)) (doc_lines d)).

(** ** The vocabulary of the further properties *)

(** The data of the writes to the document in a trace, in order. *)
Definition writes_of (tr : list event) : list bytes :=
  flat_map (fun e => match e with
                     | WriteDoc _ d => [d]
                     | _ => []
                     end) tr.

(** The line [write_renfiles_to_tmp] prints for a name: ["%s\n"]. *)
Definition name_line (name : bytes) : bytes := cstr name ++ [NL].

(** The document [write_renfiles_to_tmp] writes for the names given: the
    header, then a line for each name. *)
Definition rename_document (names : list bytes) : bytes :=
  BULK_RENAME_TMP_FILE_HEADER ++ concat (map name_line names).

(** A path that names "." or "..": one of the two strings, or a path
    that ends in "/." or "/..". *)
Definition dotted_path (x : bytes) : Prop :=
  exists pre d, x = pre ++ d
                /\ (d = str "." \/ d = str "..")
                /\ (pre = [] \/ exists q, pre = q ++ str "/").

(** The text the format of [get_remove_files] expands to for an entry of
    a scanned directory, before [snprintf] cuts it to the buffer [p]. *)
Definition scanned_text {os : OS} (dir name : bytes) : bytes :=
  if Ascii.eqb (hd NUL dir) "/" then cstr dir ++ str "/" ++ cstr name
  else cstr cwd_path ++ str "/" ++ cstr dir ++ str "/" ++ cstr name.

(** The path of an entry fits the buffer [p] of [get_remove_files]; for
    the current directory the name is copied with no buffer between. *)
Definition path_fits {os : OS} (target : target_t) (name : bytes) : Prop :=
  match target with
  | T_cwd => True
  | T_dir dir => length (scanned_text dir name) < PATH_MAX
  end.

(** A vector for [remove_files] made from the entries of a run: "rr"
    first, then paths built for entries of the listing (of the scan, for
    another directory) whose names are neither "." nor "..". *)
Definition made_of_entries {os : OS} (target : target_t) (a : list dirent)
  (argv : list bytes) : Prop :=
  hd_error argv = Some (str "rr")
  /\ Forall (fun x => exists e, In e (entries_of target a)
                                /\ SELFORPARENT (d_name e) = false
                                /\ x = removal_path target (d_name e))
            (tl argv).

(** The name under which the loop of [write_renfiles_to_tmp] accepts an
    argument, in the world given: the argument dequoted by
    [unescape_str] when it holds a backslash, resolved by [realpath]
    when it then starts with "./" or "../", and known to [lstat]; [None]
    when one of the three fails. *)
Definition checked {os : OS} (w : World) (arg : bytes) : option bytes :=
  match (if strchr arg "\" then option_map cstr (unescape_str arg)
         else Some arg) with
  | None => None
  | Some arg1 =>
      match (if dot_slash arg1 then
               match sys_realpath w arg1 with
               | Ok p => Some p
               | Err _ => None
               end
             else Some arg1) with
      | None => None
      | Some arg2 =>
          match sys_lstat w arg2 with
          | Ok _ => Some arg2
          | Err _ => None
          end
      end
  end.

(** The names accepted out of a list of arguments, in order; each is
    checked in the world the writes before it have left. *)
Fixpoint accepted {os : OS} (w : World) (fd : Z) (rest : list bytes)
  : list bytes :=
  match rest with
  | [] => []
  | arg :: rest' =>
      match checked w arg with
      | Some n => n :: accepted (sys_write w fd (name_line n)) fd rest'
      | None => accepted w fd rest'
      end
  end.

(** The paths handed to [unlinkat] and [unlink] in a trace, in order. *)
Definition unlinks_of (tr : list event) : list bytes :=
  flat_map (fun e => match e with
                     | Unlinkat _ p => [p]
                     | Unlink p => [p]
                     | _ => []
                     end) tr.

(** The events that unlink nothing. *)
Definition no_unlink (e : event) : Prop :=
  match e with
  | Unlinkat _ _ | Unlink _ => False
  | _ => True
  end.

(** A name the rename document can hold on a line of its own and that
    the loops of the rename flow read back whole: not empty, no NUL, no
    newline, not starting like a comment, and short enough for the line
    and its newline to fit the buffer of [fgets]. *)
Definition rename_plain (name : bytes) : Prop :=
  name <> [] /\ ~ In NUL name /\ ~ In NL name /\
  hd NUL name <> "#"%char /\ length name + 1 < PATH_MAX.

(** The pairs of a name and the line at its position that differ as
    strings. *)
Definition edited_pairs (names lines : list bytes) : list (bytes * bytes) :=
  filter (fun p => negb (streq (fst p) (snd p))) (combine names lines).

(** The lines [count_modified_names] prints for a change list. *)
Definition preview_of {os : OS} (changes : list (bytes * bytes))
  : list event :=
  map (fun ch => Stdout "%s %s->%s %s\n"
                        [abbrev (fst ch); mi_c; df_c; abbrev (snd ch)])
      changes.

(** The template [bulk_rename] prints into [bulk_file], a buffer of
    [PATH_MAX] bytes. *)
Definition br_template {os : OS} : bytes :=
  snprintf PATH_MAX
    (cstr (if (stealth_mode =? 1)%Z then P_tmpdir else tmp_dir)
     ++ str "/" ++ cstr TMP_FILENAME).

(** The template [create_tmp_file] prints into a buffer as long as the
    text. *)
Definition rr_template {os : OS} : bytes :=
  cstr (if (stealth_mode =? 1)%Z then P_tmpdir else tmp_dir)
  ++ str "/" ++ cstr TMP_FILENAME.


(** A name whose line in the remove document fits the buffer of
    [diff_files] with its suffix and its newline. *)
Definition fits_diff_buffer (name : bytes) : Prop :=
  length name + 2 < PATH_MAX + 6.

(** * Properties *)

Unset Implicit Arguments.

(** ** Bytes *)

Lemma bytes_eqb_refl (a : bytes) : bytes_eqb a a = true.
Proof.
  induction a as [|x a IH]; simpl; [reflexivity|].
  now rewrite Ascii.eqb_refl.
Qed.

Lemma bytes_eqb_eq (a b : bytes) : bytes_eqb a b = true <-> a = b.
Proof.
  split; [|intros ->; apply bytes_eqb_refl].
  revert b; induction a as [|x a IH]; intros [|y b]; simpl;
    try discriminate; [reflexivity|].
  intros H; apply andb_true_iff in H as [Hx Hab].
  apply Ascii.eqb_eq in Hx; subst; f_equal; now apply IH.
Qed.

(** A buffer without NUL is the string it holds. *)
Lemma cstr_id (b : bytes) : ~ In NUL b -> cstr b = b.
Proof.
  induction b as [|c b IH]; simpl; intros H; [reflexivity|].
  destruct (Ascii.eqb c NUL) eqn:E.
  - apply Ascii.eqb_eq in E; subst; exfalso; apply H; now left.
  - f_equal; apply IH; intros Hin; apply H; now right.
Qed.

Lemma cstr_no_NUL (b : bytes) : ~ In NUL (cstr b).
Proof.
  induction b as [|c b IH]; simpl; [tauto|].
  destruct (Ascii.eqb c NUL) eqn:E; simpl; [tauto|].
  intros [->|H]; [now rewrite Ascii.eqb_refl in E | tauto].
Qed.

Lemma streq_eq (a b : bytes) : streq a b = true <-> cstr a = cstr b.
Proof. apply bytes_eqb_eq. Qed.

Lemma last_snoc (A : Type) (l : list A) (x d : A) : last (l ++ [x]) d = x.
Proof. apply last_last. Qed.

Lemma removelast_snoc (A : Type) (l : list A) (x : A) :
  removelast (l ++ [x]) = l.
Proof. apply removelast_last. Qed.

(** ** The line readers *)

Lemma PATH_MAX_ge : 2 <= PATH_MAX.
Proof. unfold PATH_MAX; lia. Qed.

Lemma fgets_chunk_split (r : nat) (s l rest : bytes) :
  fgets_chunk r s = (l, rest) -> s = l ++ rest.
Proof.
  revert s l rest; induction r as [|r IH]; intros [|c s] l rest; simpl;
    try (intros [= <- <-]; reflexivity).
  destruct (Ascii.eqb c NL).
  - intros [= <- <-]; reflexivity.
  - destruct (fgets_chunk r s) as [l' rest'] eqn:E.
    intros [= <- <-]; simpl; f_equal; now apply IH.
Qed.

Lemma fgets_chunk_progress (r : nat) (s l rest : bytes) :
  0 < r -> s <> [] -> fgets_chunk r s = (l, rest) ->
  length rest < length s.
Proof.
  intros Hr Hs E.
  destruct r as [|r]; [lia|]; destruct s as [|c s]; [congruence|].
  simpl in E; destruct (Ascii.eqb c NL).
  - injection E as <- <-; simpl; lia.
  - destruct (fgets_chunk r s) as [l' rest'] eqn:E'.
    injection E as <- <-.
    apply fgets_chunk_split in E'; subst s; simpl; rewrite length_app; lia.
Qed.

Lemma fgets_loop_S (fuel size : nat) (s : bytes) :
  fgets_loop (S fuel) size s =
  match fgets size s with
  | None => []
  | Some (l, rest) => l :: fgets_loop fuel size rest
  end.
Proof. reflexivity. Qed.

(** Once the fuel exceeds the length of the stream the loop has read it
    all: more fuel reads nothing more. *)
Lemma fgets_loop_fuel (size : nat) :
  2 <= size ->
  forall fuel fuel' s,
    length s < fuel -> length s < fuel' ->
    fgets_loop fuel size s = fgets_loop fuel' size s.
Proof.
  intros Hsize fuel; induction fuel as [|fuel IH]; intros fuel' s H H';
    [lia|].
  destruct fuel' as [|fuel']; [lia|]; rewrite !fgets_loop_S.
  unfold fgets; destruct s as [|c s]; [reflexivity|].
  destruct (fgets_chunk (size - 1) (c :: s)) as [l rest] eqn:E.
  f_equal; apply fgets_chunk_progress in E; [|lia|discriminate].
  apply IH; simpl in *; lia.
Qed.

Lemma fgets_lines_nil (size : nat) : fgets_lines size [] = [].
Proof. reflexivity. Qed.

(** The loop, one round at a time. *)
Lemma fgets_lines_cons (size : nat) (s : bytes) :
  2 <= size -> s <> [] ->
  fgets_lines size s =
  fst (fgets_chunk (size - 1) s)
  :: fgets_lines size (snd (fgets_chunk (size - 1) s)).
Proof.
  intros Hsize Hs; unfold fgets_lines at 1; rewrite fgets_loop_S.
  unfold fgets; destruct s as [|c s]; [congruence|].
  destruct (fgets_chunk (size - 1) (c :: s)) as [l rest] eqn:E.
  cbn [fst snd]; f_equal; apply fgets_chunk_progress in E;
    [|lia|discriminate].
  apply fgets_loop_fuel; [assumption|exact E|lia].
Qed.

(** A line that fits the buffer is read as one record. *)
Lemma fgets_chunk_line (r : nat) (l rest : bytes) :
  ~ In NL l -> length l < r ->
  fgets_chunk r (l ++ NL :: rest) = (l ++ [NL], rest).
Proof.
  revert r; induction l as [|c l IH]; intros r Hnl Hlen; simpl in *.
  - destruct r; [lia|]; reflexivity.
  - destruct r as [|r]; [lia|]; simpl.
    destruct (Ascii.eqb c NL) eqn:E.
    + apply Ascii.eqb_eq in E; subst; tauto.
    + rewrite IH; [reflexivity|tauto|lia].
Qed.

Lemma fgets_lines_line (size : nat) (l rest : bytes) :
  ~ In NL l -> length l + 2 <= size ->
  fgets_lines size (l ++ NL :: rest) = (l ++ [NL]) :: fgets_lines size rest.
Proof.
  intros Hnl Hlen.
  rewrite fgets_lines_cons; [|lia|now destruct l].
  rewrite fgets_chunk_line; [reflexivity|assumption|lia].
Qed.

(** A record read from a stream that ends with a newline is read the same
    when more text follows. *)
Lemma fgets_chunk_app (r : nat) (p post : bytes) :
  fgets_chunk r ((p ++ [NL]) ++ post) =
  (fst (fgets_chunk r (p ++ [NL])),
   snd (fgets_chunk r (p ++ [NL])) ++ post).
Proof.
  revert r; induction p as [|c p IH]; intros [|r]; simpl; try reflexivity.
  destruct (Ascii.eqb c NL); [reflexivity|].
  rewrite IH; destruct (fgets_chunk r (p ++ [NL])); reflexivity.
Qed.

(** What is left of such a stream after a record is empty or ends with
    a newline again. *)
Lemma fgets_chunk_rest (r : nat) (p : bytes) :
  snd (fgets_chunk r (p ++ [NL])) = [] \/
  exists q, snd (fgets_chunk r (p ++ [NL])) = q ++ [NL].
Proof.
  revert r; induction p as [|c p IH]; intros [|r]; simpl.
  - right; now exists [].
  - now left.
  - right; now exists (c :: p).
  - destruct (Ascii.eqb c NL); simpl; [right; now exists p|].
    specialize (IH r); destruct (fgets_chunk r (p ++ [NL])); exact IH.
Qed.

(** Reading the records of a text at a line boundary: the records of what
    comes before, then the records of what comes after. *)
Lemma fgets_lines_app (size : nat) (p post : bytes) :
  2 <= size ->
  fgets_lines size ((p ++ [NL]) ++ post) =
  fgets_lines size (p ++ [NL]) ++ fgets_lines size post.
Proof.
  intros Hsize.
  remember (length p) as n eqn:Hn.
  revert p Hn; induction n as [n IH] using lt_wf_ind; intros p Hn.
  rewrite (fgets_lines_cons size ((p ++ [NL]) ++ post)), fgets_chunk_app;
    [|assumption|now destruct p].
  rewrite (fgets_lines_cons size (p ++ [NL])); [|assumption|now destruct p].
  simpl; f_equal.
  destruct (fgets_chunk (size - 1) (p ++ [NL])) as [l rest] eqn:E; simpl.
  pose proof (fgets_chunk_rest (size - 1) p) as Hrest.
  rewrite E in Hrest; simpl in Hrest.
  destruct Hrest as [->|[q ->]]; [reflexivity|].
  apply fgets_chunk_progress in E; [|lia|now destruct p].
  rewrite !length_app in E; simpl in E.
  apply (IH (length q)); [lia|reflexivity].
Qed.

Lemma getline_chunk_split (s : bytes) :
  s = fst (getline_chunk s) ++ snd (getline_chunk s).
Proof.
  induction s as [|c s IH]; simpl; [reflexivity|].
  destruct (Ascii.eqb c NL); [reflexivity|].
  destruct (getline_chunk s); simpl in *; now f_equal.
Qed.

Lemma getline_chunk_progress (s : bytes) :
  s <> [] -> length (snd (getline_chunk s)) < length s.
Proof.
  intros Hs; destruct s as [|c s]; [congruence|].
  rewrite (getline_chunk_split (c :: s)) at 2.
  simpl; destruct (Ascii.eqb c NL); simpl; [lia|].
  destruct (getline_chunk s); simpl; rewrite length_app; lia.
Qed.

Lemma getline_loop_S (fuel : nat) (s : bytes) :
  getline_loop (S fuel) s =
  match getline s with
  | None => []
  | Some (l, rest) => l :: getline_loop fuel rest
  end.
Proof. reflexivity. Qed.

Lemma getline_loop_fuel (fuel fuel' : nat) (s : bytes) :
  length s < fuel -> length s < fuel' ->
  getline_loop fuel s = getline_loop fuel' s.
Proof.
  revert fuel' s; induction fuel as [|fuel IH]; intros fuel' s H H'; [lia|].
  destruct fuel' as [|fuel']; [lia|]; rewrite !getline_loop_S.
  unfold getline; destruct s as [|c s]; [reflexivity|].
  pose proof (getline_chunk_progress (c :: s)) as Hp.
  destruct (getline_chunk (c :: s)) as [l rest]; simpl in Hp.
  f_equal; apply IH; simpl in *; assert (c :: s <> []) by discriminate;
    specialize (Hp H0); lia.
Qed.

Lemma getline_lines_cons (s : bytes) :
  s <> [] ->
  getline_lines s =
  fst (getline_chunk s) :: getline_lines (snd (getline_chunk s)).
Proof.
  intros Hs; unfold getline_lines at 1; rewrite getline_loop_S.
  unfold getline; destruct s as [|c s]; [congruence|].
  pose proof (getline_chunk_progress _ Hs) as Hp.
  destruct (getline_chunk (c :: s)) as [l rest]; cbn [fst snd] in *.
  f_equal; apply getline_loop_fuel; [exact Hp|lia].
Qed.

Lemma getline_chunk_line (l rest : bytes) :
  ~ In NL l -> getline_chunk (l ++ NL :: rest) = (l ++ [NL], rest).
Proof.
  induction l as [|c l IH]; intros Hnl; simpl in *; [reflexivity|].
  destruct (Ascii.eqb c NL) eqn:E.
  - apply Ascii.eqb_eq in E; subst; tauto.
  - rewrite IH; [reflexivity|tauto].
Qed.

Lemma getline_lines_line (l rest : bytes) :
  ~ In NL l ->
  getline_lines (l ++ NL :: rest) = (l ++ [NL]) :: getline_lines rest.
Proof.
  intros Hnl; rewrite getline_lines_cons; [|now destruct l].
  now rewrite getline_chunk_line.
Qed.

Lemma getline_chunk_app (p post : bytes) :
  getline_chunk ((p ++ [NL]) ++ post) =
  (fst (getline_chunk (p ++ [NL])),
   snd (getline_chunk (p ++ [NL])) ++ post).
Proof.
  induction p as [|c p IH]; simpl; [reflexivity|].
  destruct (Ascii.eqb c NL); [reflexivity|].
  rewrite IH; destruct (getline_chunk (p ++ [NL])); reflexivity.
Qed.

Lemma getline_chunk_rest (p : bytes) :
  snd (getline_chunk (p ++ [NL])) = [] \/
  exists q, snd (getline_chunk (p ++ [NL])) = q ++ [NL].
Proof.
  induction p as [|c p IH]; simpl; [now left|].
  destruct (Ascii.eqb c NL); simpl; [right; now exists p|].
  destruct (getline_chunk (p ++ [NL])); exact IH.
Qed.

Lemma getline_lines_app (p post : bytes) :
  getline_lines ((p ++ [NL]) ++ post) =
  getline_lines (p ++ [NL]) ++ getline_lines post.
Proof.
  remember (length p) as n eqn:Hn.
  revert p Hn; induction n as [n IH] using lt_wf_ind; intros p Hn.
  rewrite (getline_lines_cons ((p ++ [NL]) ++ post)), getline_chunk_app;
    [|now destruct p].
  rewrite (getline_lines_cons (p ++ [NL])); [|now destruct p].
  simpl; f_equal.
  pose proof (getline_chunk_rest p) as Hrest.
  pose proof (getline_chunk_progress (p ++ [NL])) as Hp.
  destruct (getline_chunk (p ++ [NL])) as [l rest]; simpl in *.
  destruct Hrest as [->|[q ->]]; [reflexivity|].
  assert (p ++ [NL] <> []) as Hne by now destruct p.
  specialize (Hp Hne); rewrite !length_app in Hp; simpl in Hp.
  apply (IH (length q)); [lia|reflexivity].
Qed.

(** Putting a whole line in at a line start puts one record in. *)
Lemma fgets_lines_insert (size : nat) (pre c post : bytes) :
  line_start pre -> ~ In NL c -> length c + 2 <= size ->
  fgets_lines size (pre ++ c ++ NL :: post) =
  fgets_lines size pre ++ (c ++ [NL]) :: fgets_lines size post.
Proof.
  intros [->|[p ->]] Hnl Hlen.
  - simpl; now apply fgets_lines_line.
  - rewrite fgets_lines_app by lia; f_equal; now apply fgets_lines_line.
Qed.

Lemma fgets_lines_join (size : nat) (pre post : bytes) :
  2 <= size -> line_start pre ->
  fgets_lines size (pre ++ post) =
  fgets_lines size pre ++ fgets_lines size post.
Proof.
  intros Hsize [->|[p ->]]; [reflexivity|now apply fgets_lines_app].
Qed.

Lemma getline_lines_insert (pre c post : bytes) :
  line_start pre -> ~ In NL c ->
  getline_lines (pre ++ c ++ NL :: post) =
  getline_lines pre ++ (c ++ [NL]) :: getline_lines post.
Proof.
  intros [->|[p ->]] Hnl.
  - simpl; now apply getline_lines_line.
  - rewrite getline_lines_app; f_equal; now apply getline_lines_line.
Qed.

Lemma getline_lines_join (pre post : bytes) :
  line_start pre ->
  getline_lines (pre ++ post) = getline_lines pre ++ getline_lines post.
Proof.
  intros [->|[p ->]]; [reflexivity|apply getline_lines_app].
Qed.

(** ** The monad *)

Section Monad.

Context {os : OS}.

Lemma foldM_app (A B : Type) (f : A -> B -> M A) (l1 l2 : list B) (a : A)
  (s : state) :
  foldM f (l1 ++ l2) a s =
  (let (a', s') := foldM f l1 a s in foldM f l2 a' s').
Proof.
  revert a s; induction l1 as [|x l1 IH]; intros a s; simpl; [reflexivity|].
  unfold bind; destruct (f a x s) as [a' s']; apply IH.
Qed.

(** A round that changes nothing can be left out of the loop. *)
Lemma foldM_skip (A B : Type) (f : A -> B -> M A) (l1 l2 : list B) (x : B)
  (a : A) (s : state) :
  (forall a' s', f a' x s' = (a', s')) ->
  foldM f (l1 ++ x :: l2) a s = foldM f (l1 ++ l2) a s.
Proof.
  intros Hx; rewrite !foldM_app.
  destruct (foldM f l1 a s) as [a' s']; simpl; unfold bind.
  now rewrite Hx.
Qed.

End Monad.

(** ** Comments (claim C5) *)

Lemma br_skip_comment (c : bytes) :
  comment_line c -> br_skip (c ++ [NL]) = true.
Proof.
  intros [_ [->|[r ->]]]; reflexivity.
Qed.

Lemma rr_skip_comment (c : bytes) :
  comment_line c -> rr_skip (c ++ [NL]) = true.
Proof. intros [_ [->|[r ->]]]; reflexivity. Qed.

Lemma fold_left_skip (A B : Type) (f : A -> B -> A) (l1 l2 : list B)
  (x : B) (a : A) :
  (forall a', f a' x = a') ->
  fold_left f (l1 ++ x :: l2) a = fold_left f (l1 ++ l2) a.
Proof. intros Hx; rewrite !fold_left_app; simpl; now rewrite Hx. Qed.

(** One comment line more, in a place where a line can start, and within
    the line buffer: every loop of the two flows computes what it
    computed without it. *)
Lemma comment_added (pre c post : bytes) :
  line_start pre -> comment_line c -> length c + 1 < PATH_MAX ->
  total_modified (pre ++ c ++ NL :: post) = total_modified (pre ++ post)
  /\ (forall (os : OS) args s,
        count_modified_names args (pre ++ c ++ NL :: post) s =
        count_modified_names args (pre ++ post) s)
  /\ (forall (os : OS) args is_cwd renamed modified s,
        rename_bulk_files args (pre ++ c ++ NL :: post) is_cwd renamed
                          modified s =
        rename_bulk_files args (pre ++ post) is_cwd renamed modified s)
  /\ diff_count (pre ++ c ++ NL :: post) = diff_count (pre ++ post)
  /\ read_names (pre ++ c ++ NL :: post) = read_names (pre ++ post).
Proof.
  intros Hpre Hc Hlen.
  pose proof (br_skip_comment c Hc) as Hbr.
  pose proof (rr_skip_comment c Hc) as Hrr.
  destruct Hc as [Hnl _].
  pose proof PATH_MAX_ge as Hpm.
  assert (fgets_lines PATH_MAX (pre ++ c ++ NL :: post) =
          fgets_lines PATH_MAX pre ++ (c ++ [NL]) :: fgets_lines PATH_MAX post)
    as E1 by (apply fgets_lines_insert; [assumption..|lia]).
  assert (fgets_lines PATH_MAX (pre ++ post) =
          fgets_lines PATH_MAX pre ++ fgets_lines PATH_MAX post)
    as E2 by (now apply fgets_lines_join).
  repeat split.
  - unfold total_modified; rewrite E1, E2.
    apply fold_left_skip; intros; now rewrite Hbr.
  - intros os args s; unfold count_modified_names, bind; rewrite E1, E2.
    rewrite foldM_skip; [reflexivity|].
    intros [i m] s'; unfold count_modified_round; now rewrite Hbr.
  - intros os args is_cwd renamed modified s.
    unfold rename_bulk_files, bind; rewrite E1, E2.
    rewrite foldM_skip; [reflexivity|].
    intros v s'; unfold rename_round; now rewrite Hbr.
  - unfold diff_count.
    rewrite fgets_lines_insert, fgets_lines_join; [|lia|assumption..|lia].
    apply fold_left_skip; intros; now rewrite Hrr.
  - unfold read_names.
    rewrite getline_lines_insert, getline_lines_join by assumption.
    rewrite !filter_app; simpl; now rewrite Hrr.
Qed.

(** C5, as amended: a line whose first character is [#] and an empty line
    are invisible to the Differ of both flows as long as the line, with
    its newline, is shorter than [PATH_MAX] bytes. Putting in or taking
    out any number of such lines, wherever a line can start, changes
    neither the count of non-comment lines ([total_modified] for rename,
    [diff_count] for remove) nor the change set ([count_modified_names]
    and [rename_bulk_files] run as before) nor the names read back for
    the removal set ([read_names]). *)
Theorem comments_are_invisible (d d' : bytes) :
  comment_edit PATH_MAX d d' ->
  total_modified d' = total_modified d
  /\ (forall (os : OS) args s,
        count_modified_names args d' s = count_modified_names args d s)
  /\ (forall (os : OS) args is_cwd renamed modified s,
        rename_bulk_files args d' is_cwd renamed modified s =
        rename_bulk_files args d is_cwd renamed modified s)
  /\ diff_count d' = diff_count d
  /\ read_names d' = read_names d.
Proof.
  induction 1 as [d|pre c post Hpre Hc Hlen|pre c post Hpre Hc Hlen
                 |d1 d2 d3 _ IH12 _ IH23].
  - repeat split; reflexivity.
  - now apply comment_added.
  - destruct (comment_added pre c post Hpre Hc Hlen) as (H1 & H2 & H3 & H4 & H5).
    repeat split; intros; symmetry; auto.
  - destruct IH12 as (A1 & A2 & A3 & A4 & A5).
    destruct IH23 as (B1 & B2 & B3 & B4 & B5).
    repeat split; intros.
    + now rewrite B1.
    + now rewrite B2.
    + now rewrite B3.
    + now rewrite B4.
    + now rewrite B5.
Qed.

(** A comment put between two names is not counted. *)
Lemma comments_are_invisible_witness :
  total_modified (Toy.text ["a"; "# note"; "b"]%string)
  = total_modified (Toy.text ["a"; "b"]%string).
Proof.
  apply (comments_are_invisible (Toy.text ["a"; "b"]%string)
           (Toy.text ["a"; "# note"; "b"]%string)).
  apply (@ce_add PATH_MAX (Toy.text ["a"]%string) (str "# note")
           (Toy.text ["b"]%string)).
  - right; exists (str "a"); reflexivity.
  - split; [|right; eexists; reflexivity].
    simpl; intros H; repeat (destruct H as [H|H]; [discriminate H|]); exact H.
  - vm_compute; lia.
Defined.

(** C5 as the specification states it fails for a comment that does not
    fit the line buffer: after [PATH_MAX - 1] bytes [fgets] ends the
    record, and what is left of the comment is read as a name. It fails
    also for a line that holds one blank, which no loop skips. *)
Lemma long_comment_is_counted :
  comment_line ("#"%char :: repeat "x"%char (PATH_MAX - 1))
  /\ total_modified (Toy.text ["a"]%string) = 1
  /\ total_modified (Toy.text ["a"]%string
                     ++ "#"%char :: repeat "x"%char (PATH_MAX - 1) ++ [NL])
     = 2
  /\ diff_count (Toy.text ["a"]%string) = 1%Z
  /\ diff_count (Toy.text ["a"]%string
                 ++ "#"%char :: repeat "x"%char (PATH_MAX + 5) ++ [NL])
     = 2%Z
  /\ total_modified (Toy.text ["a"; " "]%string) = 2
  /\ read_names (Toy.text ["a"; " "]%string) = [str "a"; str " "].
Proof.
  split; [|vm_compute; repeat split; reflexivity].
  split; [|right; eexists; reflexivity].
  intros [H|H]; [discriminate H|].
  apply repeat_spec in H; discriminate H.
Qed.

(** ** The remove document read back (claim C8) *)

Lemma is_suffix_chr_not_NL (c : ascii) : is_suffix_chr c = true -> c <> NL.
Proof. intros H ->; discriminate H. Qed.

Lemma is_suffix_chr_not_NUL (c : ascii) : is_suffix_chr c = true -> c <> NUL.
Proof. intros H ->; discriminate H. Qed.

Lemma rr_skip_plain (name rest : bytes) :
  plain_name name -> rr_skip (name ++ rest) = false.
Proof.
  intros (Hne & _ & Hnl & Hhash & _).
  destruct name as [|c name]; [congruence|]; simpl in *.
  apply orb_false_iff; split; apply Ascii.eqb_neq; [assumption|].
  intros ->; apply Hnl; now left.
Qed.

Lemma length_pos_snoc (A : Type) (l : list A) (x : A) :
  (0 <? length (l ++ [x])) = true.
Proof. rewrite length_app; simpl; apply Nat.ltb_lt; lia. Qed.

(** The line of a plain name is read back as the name, with or without a
    suffix the reader knows. *)
Lemma read_name_plain (name : bytes) :
  plain_name name -> read_name (name ++ [NL]) = name.
Proof.
  intros (Hne & Hnul & _ & _ & Hsuf); unfold read_name.
  rewrite last_snoc, Ascii.eqb_refl, removelast_snoc, Hsuf, andb_false_r.
  now apply cstr_id.
Qed.

Lemma read_name_suffixed (name : bytes) (s : ascii) :
  plain_name name -> is_suffix_chr s = true ->
  read_name (name ++ [s; NL]) = name.
Proof.
  intros (Hne & Hnul & _ & _ & _) Hs; unfold read_name.
  change (name ++ [s; NL]) with (name ++ [s] ++ [NL]).
  rewrite app_assoc, last_snoc, Ascii.eqb_refl, removelast_snoc.
  rewrite last_snoc, Hs, length_pos_snoc, removelast_snoc.
  now apply cstr_id.
Qed.

Section RemoveDocument.

Context {os : OS}.

(** What [print_file] writes for a plain name of a stripped kind is one
    line, not skipped, whose name is the name written. *)
Lemma print_file_text_line (name : bytes) (type : dtype) :
  plain_name name -> stripped_kind type ->
  exists l, print_file_text name type = l ++ [NL] /\ ~ In NL l /\
            rr_skip (l ++ [NL]) = false /\ read_name (l ++ [NL]) = name.
Proof.
  intros Hname Hkind; unfold print_file_text.
  pose proof Hname as (Hne & Hnul & Hnl & _ & _).
  rewrite (cstr_id name Hnul).
  destruct Hkind as [E|E].
  - rewrite E; simpl; exists name; repeat split; try assumption.
    + now apply rr_skip_plain.
    + now apply read_name_plain.
  - pose proof (is_suffix_chr_not_NUL _ E) as Hs.
    apply Ascii.eqb_neq in Hs; rewrite Hs; simpl.
    exists (name ++ [get_file_suffix type]); repeat split.
    + now rewrite <- app_assoc.
    + intros Hin; apply in_app_or in Hin as [Hin|[Hin|[]]]; [tauto|].
      now apply (is_suffix_chr_not_NL _ E).
    + rewrite <- !app_assoc; now apply rr_skip_plain.
    + rewrite <- app_assoc; now apply read_name_suffixed.
Qed.

Lemma read_names_entries (entries : list dirent) :
  Forall (fun e => plain_name (d_name e) /\ stripped_kind (d_type e))
         entries ->
  read_names
    (concat (map (fun e => print_file_text (d_name e) (d_type e)) entries))
  = map d_name entries.
Proof.
  induction 1 as [|e entries [Hname Hkind] _ IH]; [reflexivity|].
  destruct (print_file_text_line _ _ Hname Hkind) as (l & E & Hnl & Hskip & Hrd).
  simpl; rewrite E, <- app_assoc; simpl.
  unfold read_names in *; rewrite getline_lines_line by assumption.
  simpl; rewrite Hskip; simpl; now rewrite Hrd, IH.
Qed.

Lemma read_names_header (rest : bytes) :
  read_names (BULK_RM_TMP_FILE_HEADER ++ rest) = read_names rest.
Proof.
  unfold read_names; rewrite getline_lines_join.
  - rewrite filter_app, map_app; reflexivity.
  - right; eexists; unfold BULK_RM_TMP_FILE_HEADER.
    rewrite !app_assoc.
    change [NL; NL] with ([NL] ++ [NL]); rewrite app_assoc; reflexivity.
Qed.

(** C8, as amended: the round trip of the remove document holds for the
    names that are [plain_name] (not empty, without NUL or newline, not
    starting with [#], not ending in one of [/ @ = | ?]) and for the
    kinds whose suffix is one of those five characters or none. What
    [print_file] writes for such an entry, [get_files_from_tmp_file]
    reads back ([read_names]) as exactly the name; and the whole document
    written for a list of such entries, header included, is read back as
    the list of their names. *)
Theorem remove_document_round_trip :
  (forall name type,
     plain_name name -> stripped_kind type ->
     read_names (print_file_text name type) = [name])
  /\ (forall entries,
        Forall (fun e => plain_name (d_name e) /\ stripped_kind (d_type e))
               entries ->
        read_names (remove_document entries) = map d_name entries).
Proof.
  split.
  - intros name type Hname Hkind.
    pose proof (read_names_entries [mkDirent name type]) as H.
    simpl in H; rewrite app_nil_r in H; apply H.
    constructor; [now split|constructor].
  - intros entries H; unfold remove_document.
    rewrite read_names_header; now apply read_names_entries.
Qed.

End RemoveDocument.

Lemma plain_name_a : plain_name (str "a").
Proof.
  repeat split; try discriminate;
    simpl; intros H; repeat (destruct H as [H|H]; [discriminate H|]); exact H.
Qed.

Lemma remove_document_round_trip_witness :
  @read_names (@print_file_text (Toy.os []) (str "a") DT_DIR) = [str "a"].
Proof.
  apply (@remove_document_round_trip (Toy.os [])).
  - exact plain_name_a.
  - right; reflexivity.
Defined.

(** C8 as stated fails for a regular file whose name starts with [#]: its
    line is read as a comment, and no name comes back. It fails as well
    for a name that holds a newline. *)
Lemma hash_name_is_not_read_back :
  is_suffix_chr (last (str "#a#") NUL) = false
  /\ @print_file_text (Toy.os []) (str "#a#") DT_REG = str "#a#" ++ [NL]
  /\ read_names (@print_file_text (Toy.os []) (str "#a#") DT_REG) = []
  /\ read_names (@print_file_text (Toy.os []) (str "a" ++ NL :: str "b")
                                  DT_REG)
     = [str "a"; str "b"].
Proof. vm_compute; repeat split; reflexivity. Qed.

(** ** The removal list (claims C9 and C10) *)

Lemma hd_cstr (b : bytes) : hd NUL (cstr b) = hd NUL b.
Proof.
  destruct b as [|c b]; simpl; [reflexivity|].
  destruct (Ascii.eqb c NUL) eqn:E; [|reflexivity].
  apply Ascii.eqb_eq in E; now subst.
Qed.

Lemma SELFORPARENT_spec (name : bytes) :
  SELFORPARENT name = true <-> cstr name = str "." \/ cstr name = str "..".
Proof.
  unfold SELFORPARENT; rewrite orb_true_iff, !bytes_eqb_eq; reflexivity.
Qed.

(** Whether a name is found in the list: some line holds the same
    string. The comparison of the first bytes changes nothing. *)
Lemma found_on_a_line (name : bytes) (tmp_files : list bytes) :
  existsb (fun x => Ascii.eqb (hd NUL name) (hd NUL x) && streq name x)
          tmp_files = true
  <-> on_a_line name tmp_files.
Proof.
  unfold on_a_line; rewrite existsb_exists; split; intros (x & Hin & H).
  - exists x; split; [assumption|].
    apply andb_true_iff in H as [_ H]; symmetry; now apply streq_eq.
  - exists x; split; [assumption|].
    apply andb_true_iff; split; [|apply streq_eq; now symmetry].
    apply Ascii.eqb_eq; rewrite <- (hd_cstr name), <- (hd_cstr x).
    now rewrite H.
Qed.

Lemma remove_this_file_values (name : bytes) (tmp_files : list bytes) :
  remove_this_file name tmp_files = 0%Z \/
  remove_this_file name tmp_files = 1%Z.
Proof.
  unfold remove_this_file; destruct (SELFORPARENT name); [now left|].
  match goal with
  | |- context [existsb ?f tmp_files] => destruct (existsb f tmp_files)
  end; [now left|now right].
Qed.

(** Who survives: the two dotted names, and the names found on a line. *)
Lemma survives_iff (name : bytes) (tmp_files : list bytes) :
  survives name tmp_files <->
  SELFORPARENT name = true \/ on_a_line name tmp_files.
Proof.
  unfold survives, remove_this_file.
  rewrite <- found_on_a_line.
  destruct (SELFORPARENT name); [intuition|].
  match goal with
  | |- context [existsb ?f tmp_files] => destruct (existsb f tmp_files)
  end; intuition discriminate.
Qed.

(** [remove_this_file] looks at the lines as a set. *)
Lemma remove_this_file_set (name : bytes) (l1 l2 : list bytes) :
  (forall x, In x l1 <-> In x l2) ->
  remove_this_file name l1 = remove_this_file name l2.
Proof.
  intros Hset.
  assert (forall l l', (forall x, In x l -> In x l') ->
                       survives name l -> survives name l') as Hmono.
  { intros l l' Hincl Hs; apply survives_iff in Hs; apply survives_iff.
    destruct Hs as [Hs|(x & Hin & Hx)]; [now left|right].
    exists x; split; [now apply Hincl|assumption]. }
  unfold survives in Hmono.
  destruct (remove_this_file_values name l1) as [E1|E1];
    destruct (remove_this_file_values name l2) as [E2|E2];
    try congruence.
  - apply (Hmono l1 l2) in E1; [congruence|intros x; apply Hset].
  - apply (Hmono l2 l1) in E2; [congruence|intros x; apply Hset].
Qed.

Section RemovalList.

Context {os : OS}.

Lemma get_remove_files_set (target : target_t) (l1 l2 : list bytes)
  (a : list dirent) :
  (forall x, In x l1 <-> In x l2) ->
  get_remove_files target l1 a = get_remove_files target l2 a.
Proof.
  intros Hset; unfold get_remove_files; f_equal.
  destruct target; f_equal; apply filter_ext; intros e;
    now rewrite (remove_this_file_set (d_name e) l1 l2 Hset).
Qed.

Lemma get_remove_files_eq (target : target_t) (tmp_files : list bytes)
  (a : list dirent) :
  get_remove_files target tmp_files a =
  str "rr" ::
  map (fun e => removal_path target (d_name e))
      (filter (fun e => (remove_this_file (d_name e) tmp_files =? 1)%Z)
              (entries_of target a)).
Proof. destruct target; reflexivity. Qed.

(** C9, as amended: the removal list depends only on the set of the names
    read from the non-comment lines: two lists with the same elements, a
    permutation of the lines, a line given twice, all yield the same list
    ([get_remove_files]). The list holds, after "rr" and in the order of
    the entries, the path of each entry that does not survive; an entry
    other than "." and ".." survives if and only if its name string-equals
    one of the lines, whatever their positions; the entries "." and ".."
    survive always, whether a line names them or not. *)
Theorem removal_by_name (target : target_t) (a : list dirent) :
  (forall l1 l2, (forall x, In x l1 <-> In x l2) ->
                 get_remove_files target l1 a = get_remove_files target l2 a)
  /\ (forall l1 l2, Permutation l1 l2 ->
                    get_remove_files target l1 a = get_remove_files target l2 a)
  /\ (forall l x, In x l ->
                  get_remove_files target (x :: l) a
                  = get_remove_files target l a)
  /\ (forall l,
        get_remove_files target l a =
        str "rr" :: map (fun e => removal_path target (d_name e))
                        (filter (fun e => (remove_this_file (d_name e) l =? 1)%Z)
                                (entries_of target a)))
  /\ (forall l name, SELFORPARENT name = false ->
                     (survives name l <-> on_a_line name l))
  /\ (forall l name, SELFORPARENT name = true -> survives name l).
Proof.
  split; [|split; [|split; [|split; [|split]]]].
  - intros l1 l2; apply get_remove_files_set.
  - intros l1 l2 HP; apply get_remove_files_set; intros x; split;
      apply Permutation_in; [assumption|now apply Permutation_sym].
  - intros l x Hin; apply get_remove_files_set; intros y; simpl.
    split; [intros [<-|H]; assumption|now right].
  - intros l; apply get_remove_files_eq.
  - intros l name Hdot; rewrite survives_iff, Hdot; intuition discriminate.
  - intros l name H; apply survives_iff; now left.
Qed.

End RemovalList.

(** C9 as stated fails for the dotted entries of a scan: ".." survives
    though no line names it, and the list for the directory "/d" holds
    the one entry that is neither dotted nor on a line. *)
Lemma dotted_entry_survives_unnamed :
  survives (str "..") [str "x"]
  /\ ~ on_a_line (str "..") [str "x"]
  /\ @get_remove_files (Toy.os []) (T_dir (str "/d")) [str "x"]
       [mkDirent (str ".") DT_DIR; mkDirent (str "..") DT_DIR;
        mkDirent (str "x") DT_REG; mkDirent (str "y") DT_REG]
     = [str "rr"; str "/d/y"].
Proof.
  split; [reflexivity|split; [|reflexivity]].
  intros (x & [<-|[]] & H); discriminate H.
Qed.

(** ** One rename (claim C6) *)

Lemma trim_slash_slash (p : bytes) :
  p <> [] -> ~ In NUL p -> trim_slash (p ++ str "/") = p.
Proof.
  intros Hne Hnul; unfold trim_slash.
  assert (~ In NUL (p ++ str "/")) as H.
  { intros Hin; apply in_app_or in Hin as [Hin|[Hin|[]]];
      [tauto|discriminate Hin]. }
  rewrite (cstr_id _ H); change (str "/") with ["/"%char].
  rewrite last_snoc, removelast_snoc, length_app; simpl.
  destruct p as [|c p]; [congruence|]; simpl.
  replace (length p + 1) with (S (length p)) by lia; reflexivity.
Qed.

Lemma trim_slash_other (p : bytes) :
  last (cstr p) NUL <> "/"%char -> trim_slash p = cstr p.
Proof.
  intros H; unfold trim_slash; apply Ascii.eqb_neq in H.
  now rewrite H, andb_false_r.
Qed.

Lemma trim_slash_root : trim_slash (str "/") = str "/".
Proof. reflexivity. Qed.

Section RenameFile.

Context {os : OS}.

(** The three ways of [rename_file]: value returned, string left in
    NEWPATH, process state. *)
Lemma rename_file_run (oldpath newpath : bytes) (s : state) :
  let np := trim_slash newpath in
  let cmd := [str "mv"; str "--"; oldpath; np] in
  let tr := trace s ++ [Renameat oldpath np] in
  match sys_renameat (world s) oldpath np with
  | (Ok _, w) =>
      rename_file oldpath newpath s = ((0%Z, np), mkState w (errno s) tr)
  | (Err e, w) =>
      if Pos.eqb e EXDEV then
        rename_file oldpath newpath s =
        ((fst (launch_execv w cmd FOREGROUND E_NOFLAG), np),
         mkState (snd (launch_execv w cmd FOREGROUND E_NOFLAG))
                 (Z.pos e)
                 (tr ++ [Execv cmd FOREGROUND E_NOFLAG]))
      else
        rename_file oldpath newpath s =
        ((Z.pos e, np),
         mkState w (Z.pos e)
                 (tr ++ [Stderr "br: Cannot rename '%s' to '%s': %s\n"
                                [oldpath; np]]))
  end.
Proof.
  intros np cmd tr.
  unfold rename_file, bind, sys, call, get_errno, xerror, emit, ret.
  fold np; fold cmd.
  destruct (sys_renameat (world s) oldpath np) as [[u|e] w] eqn:E;
    cbn [world errno trace].
  - reflexivity.
  - change (Z.pos e =? Z.pos EXDEV)%Z with (Pos.eqb e EXDEV).
    destruct (Pos.eqb e EXDEV) eqn:Ee; cbn [negb world errno trace].
    + destruct (launch_execv w cmd FOREGROUND E_NOFLAG); reflexivity.
    + reflexivity.
Qed.

(** C6: [rename_file] first trims a trailing slash of NEWPATH when the
    string is longer than one byte, then calls [renameat]. On success it
    returns 0. When [renameat] fails with [EXDEV] it runs
    ["mv"; "--"; oldpath; newpath] through [launch_execv] in the
    foreground and returns the status of that run. On any other error it
    prints a diagnostic and returns the error number. *)
Theorem rename_file_spec (oldpath newpath : bytes) (s : state) :
  let np := trim_slash newpath in
  let cmd := [str "mv"; str "--"; oldpath; np] in
  let tr := trace s ++ [Renameat oldpath np] in
  (forall p, p <> [] -> ~ In NUL p -> trim_slash (p ++ str "/") = p)
  /\ trim_slash (str "/") = str "/"
  /\ (forall p, last (cstr p) NUL <> "/"%char -> trim_slash p = cstr p)
  /\ match sys_renameat (world s) oldpath np with
     | (Ok _, w) =>
         rename_file oldpath newpath s = ((0%Z, np), mkState w (errno s) tr)
     | (Err e, w) =>
         if Pos.eqb e EXDEV then
           rename_file oldpath newpath s =
           ((fst (launch_execv w cmd FOREGROUND E_NOFLAG), np),
            mkState (snd (launch_execv w cmd FOREGROUND E_NOFLAG))
                    (Z.pos e)
                    (tr ++ [Execv cmd FOREGROUND E_NOFLAG]))
         else
           rename_file oldpath newpath s =
           ((Z.pos e, np),
            mkState w (Z.pos e)
                    (tr ++ [Stderr "br: Cannot rename '%s' to '%s': %s\n"
                                   [oldpath; np]]))
     end.
Proof.
  intros np cmd tr.
  split; [exact trim_slash_slash|].
  split; [exact trim_slash_root|].
  split; [exact trim_slash_other|].
  exact (rename_file_run oldpath newpath s).
Qed.

End RenameFile.

(** A rename across devices: [renameat] answers [EXDEV], [mv] moves the
    file and its status, 0, is what [rename_file] returns. *)
Lemma rename_file_spec_witness :
  trim_slash (str "dir/") = str "dir"
  /\ fst (@rename_file (Toy.os []) (str "a") (str "/mnt/b/")
            (Toy.start [] Run.other_device))
     = (0%Z, str "/mnt/b")
  /\ trace (snd (@rename_file (Toy.os []) (str "a") (str "/mnt/b/")
                   (Toy.start [] Run.other_device)))
     = [Renameat (str "a") (str "/mnt/b");
        Execv [str "mv"; str "--"; str "a"; str "/mnt/b"]
              FOREGROUND E_NOFLAG].
Proof.
  pose proof (@rename_file_spec (Toy.os []) (str "a") (str "/mnt/b/")
                (Toy.start [] Run.other_device)) as (H1 & _ & _ & H4).
  split.
  - apply (H1 (str "dir")); [discriminate|].
    simpl; intros H; repeat (destruct H as [H|H]; [discriminate H|]); exact H.
  - cbv zeta in H4.
    change (sys_renameat (world (Toy.start [] Run.other_device)) (str "a")
              (trim_slash (str "/mnt/b/")))
      with (@Err unit EXDEV, Run.other_device) in H4.
    cbv beta iota in H4; change (Pos.eqb EXDEV EXDEV) with true in H4.
    cbv beta iota in H4; rewrite H4; split; reflexivity.
Defined.

(** ** The renames of a batch (claims C1 and C7) *)

Section Executor.

Context {os : OS}.

Lemma query_ok (A : Type) (f : World -> res A) (a : A) (s : state) :
  f (world s) = Ok a -> query f s = (Ok a, s).
Proof. intros H; unfold query; now rewrite H. Qed.

(** [rename_file] makes one call of [renameat], on the trimmed path. *)
Lemma rename_file_renames (oldpath newpath : bytes) (s : state) :
  renames_of (trace (snd (rename_file oldpath newpath s))) =
  renames_of (trace s) ++ [(oldpath, trim_slash newpath)].
Proof.
  pose proof (rename_file_run oldpath newpath s) as H; cbv zeta in H.
  destruct (sys_renameat (world s) oldpath (trim_slash newpath))
    as [[u|e] w].
  - rewrite H; unfold renames_of; simpl; now rewrite flat_map_app.
  - destruct (Pos.eqb e EXDEV); rewrite H; unfold renames_of; simpl;
      rewrite !flat_map_app; simpl; now rewrite app_nil_r.
Qed.

Lemma when_renames (b : bool) (s : state) :
  renames_of (trace (snd (when b (emit PressAnyKey) s))) =
  renames_of (trace s).
Proof.
  destruct b; simpl; [|reflexivity].
  unfold renames_of; rewrite flat_map_app; simpl; apply app_nil_r.
Qed.

(** The calls of [renameat] that [rename_each] makes are the pairs of the
    change list, one call a pair, in order. *)
Lemma rename_each_renames (modified : nat) (changes : list (bytes * bytes))
  (s : state) :
  renames_of (trace (snd (rename_each modified changes s))) =
  renames_of (trace s)
  ++ map (fun ch => (fst ch, trim_slash (snd ch))) changes
  /\ length (fst (rename_each modified changes s)) = length changes.
Proof.
  revert s; induction changes as [|[o n] rest IH]; intros s; simpl.
  - now rewrite app_nil_r.
  - unfold bind.
    pose proof (rename_file_renames o n s) as Hr.
    destruct (rename_file o n s) as [r s1]; simpl in Hr.
    match goal with
    | |- context [when ?b (emit PressAnyKey) s1] =>
        pose proof (when_renames b s1) as Hw;
        destruct (when b (emit PressAnyKey) s1) as [[] s2]
    end; simpl in Hw.
    specialize (IH s2).
    destruct (rename_each modified rest s2) as [codes s3]; simpl in *.
    destruct IH as [IH1 IH2]; split; [|now rewrite IH2].
    rewrite IH1, Hw, Hr, <- app_assoc; reflexivity.
Qed.

(** The loop of [rename_bulk_files] is [rename_each] on the change list:
    the same calls in the same states, the status the last value that is
    not zero, [renamed] the count of the zeros. *)
Lemma rename_loop (args : list bytes) (modified : nat) (lines : list bytes) :
  forall (v : rename_vars) (s : state),
  exists v',
    foldM (rename_round args modified) lines v s =
    (v', snd (rename_each modified (change_list args (rv_i v) lines) s))
    /\ rv_exit_status v' =
       fold_left keep_error
         (fst (rename_each modified (change_list args (rv_i v) lines) s))
         (rv_exit_status v)
    /\ rv_renamed v' =
       rv_renamed v
       + count_renamed
           (fst (rename_each modified (change_list args (rv_i v) lines) s)).
Proof.
  induction lines as [|line rest IH]; intros v s.
  - exists v; simpl; unfold count_renamed; simpl.
    repeat split; lia.
  - cbn [foldM change_list]; unfold bind at 1; unfold rename_round at 1.
    destruct (br_skip line).
    { apply IH. }
    destruct (nth_error args (rv_i v)) as [a|].
    2:{ destruct (IH (mkVars (S (rv_i v)) (rv_exit_status v) (rv_is_cwd v)
                             (rv_renamed v)) s) as (v' & H1 & H2 & H3).
        exists v'; auto. }
    destruct (streq a (chomp line)).
    { destruct (IH (mkVars (S (rv_i v)) (rv_exit_status v) (rv_is_cwd v)
                           (rv_renamed v)) s) as (v' & H1 & H2 & H3).
      exists v'; auto. }
    cbn [rename_each]; unfold bind.
    destruct (rename_file a (chomp line) s) as [[rc line'] s1].
    cbn [fst].
    destruct (rc =? 0)%Z eqn:Erc; cbn [negb andb].
    + unfold peek, ret; cbn [when].
      match goal with
      | |- context [foldM _ rest ?v1 s1] =>
          destruct (IH v1 s1) as (v' & H1 & H2 & H3)
      end.
      cbn [rv_i rv_exit_status rv_renamed] in *.
      unfold ret in *.
      destruct (rename_each modified (change_list args (S (rv_i v)) rest) s1)
        as [codes s2]; cbn [fst snd] in *.
      exists v'; split; [exact H1|split].
      * rewrite H2; cbn [fold_left]; unfold keep_error at 3.
        now rewrite Erc.
      * rewrite H3; unfold count_renamed; cbn [filter].
        rewrite Erc; cbn [length]; lia.
    + destruct (when ((conf_autols =? 1)%Z && (1 <? modified))
                     (emit PressAnyKey) s1) as [[] s2].
      unfold ret.
      match goal with
      | |- context [foldM _ rest ?v1 s2] =>
          destruct (IH v1 s2) as (v' & H1 & H2 & H3)
      end.
      cbn [rv_i rv_exit_status rv_renamed] in *.
      destruct (rename_each modified (change_list args (S (rv_i v)) rest) s2)
        as [codes s3]; cbn [fst snd] in *.
      exists v'; split; [exact H1|split].
      * rewrite H2; cbn [fold_left]; unfold keep_error at 3.
        now rewrite Erc.
      * rewrite H3; unfold count_renamed; cbn [filter].
        rewrite Erc; cbn [length]; lia.
Qed.

Lemma rename_bulk_files_spec (args : list bytes) (fp : bytes) (is_cwd : Z)
  (renamed modified : nat) (s : state) :
  let changes := change_list args 1 (fgets_lines PATH_MAX fp) in
  exists is_cwd',
    rename_bulk_files args fp is_cwd renamed modified s =
    ((last_nonzero (fst (rename_each modified changes s)), is_cwd',
      renamed + count_renamed (fst (rename_each modified changes s))),
     snd (rename_each modified changes s)).
Proof.
  intros changes; unfold rename_bulk_files, bind.
  destruct (rename_loop args modified (fgets_lines PATH_MAX fp)
              (mkVars 1 EXIT_SUCCESS is_cwd renamed) s)
    as (v' & H1 & H2 & H3).
  rewrite H1; cbn [rv_i rv_exit_status rv_renamed] in *.
  exists (rv_is_cwd v'); unfold ret; fold changes in H2, H3 |- *.
  rewrite H2, H3; reflexivity.
Qed.

End Executor.

(** ** Traces *)

Section Traces.

Context {os : OS}.

Variable P : event -> Prop.

Lemma emits_ret (A : Type) (a : A) : emits P (ret a).
Proof. intros s; exists []; simpl; now rewrite app_nil_r. Qed.

Lemma emits_bind (A B : Type) (m : M A) (k : A -> M B) :
  emits P m -> (forall a, emits P (k a)) -> emits P (bind m k).
Proof.
  intros Hm Hk s; unfold bind.
  destruct (Hm s) as (e1 & H1 & F1).
  destruct (m s) as [a s1]; simpl in H1.
  destruct (Hk a s1) as (e2 & H2 & F2).
  exists (e1 ++ e2); split; [|now apply Forall_app].
  now rewrite H2, H1, app_assoc.
Qed.

Lemma emits_emit (e : event) : P e -> emits P (emit e).
Proof. intros He s; exists [e]; simpl; split; [reflexivity|now constructor]. Qed.

Lemma emits_sys (A : Type) (e : event) (f : World -> res A * World) :
  P e -> emits P (sys e f).
Proof.
  intros He s; exists [e]; unfold sys.
  destruct (f (world s)); simpl; split; [reflexivity|now constructor].
Qed.

Lemma emits_call (A : Type) (e : event) (f : World -> A * World) :
  P e -> emits P (call e f).
Proof.
  intros He s; exists [e]; unfold call.
  destruct (f (world s)); simpl; split; [reflexivity|now constructor].
Qed.

Lemma emits_query (A : Type) (f : World -> res A) : emits P (query f).
Proof.
  intros s; exists []; unfold query.
  destruct (f (world s)); simpl; now rewrite app_nil_r.
Qed.

Lemma emits_peek (A : Type) (f : World -> A) : emits P (peek f).
Proof. intros s; exists []; simpl; now rewrite app_nil_r. Qed.

Lemma emits_get_errno : emits P get_errno.
Proof. intros s; exists []; simpl; now rewrite app_nil_r. Qed.

Lemma emits_set_errno (f : state -> Z) :
  emits P (fun s => (tt, mkState (world s) (f s) (trace s))).
Proof. intros s; exists []; simpl; now rewrite app_nil_r. Qed.

Lemma emits_when (b : bool) (m : M unit) : emits P m -> emits P (when b m).
Proof. intros Hm; destruct b; [exact Hm|apply emits_ret]. Qed.

Lemma emits_foldM (A B : Type) (f : A -> B -> M A) (l : list B) :
  (forall a x, emits P (f a x)) -> forall a, emits P (foldM f l a).
Proof.
  intros Hf; induction l as [|x l IH]; intros a; simpl;
    [apply emits_ret|].
  apply emits_bind; [apply Hf|exact IH].
Qed.

End Traces.

(** One step of a proof of [emits]: the head of the computation decides. *)
Ltac emits_step :=
  lazymatch goal with
  | |- emits _ (ret _) => apply emits_ret
  | |- emits _ (bind _ _) => apply emits_bind; [|intros]
  | |- emits _ (emit _) => apply emits_emit; exact I
  | |- emits _ (puts _) => apply emits_emit; exact I
  | |- emits _ (xerror _ _) => apply emits_emit; exact I
  | |- emits _ (sys _ _) => apply emits_sys; exact I
  | |- emits _ (call _ _) => apply emits_call; exact I
  | |- emits _ (query _) => apply emits_query
  | |- emits _ (peek _) => apply emits_peek
  | |- emits _ get_errno => apply emits_get_errno
  | |- emits _ (when _ _) => apply emits_when
  | |- emits _ (foldM _ _ _) => apply emits_foldM; intros
  | |- emits _ (match ?x with _ => _ end) => destruct x
  end.

Ltac emits_auto := repeat emits_step.

Lemma no_rename_renames_of (evs : list event) :
  Forall no_rename evs -> renames_of evs = [].
Proof.
  induction 1 as [|e evs He _ IH]; [reflexivity|].
  unfold renames_of in *; simpl; rewrite IH.
  destruct e; simpl in *; tauto.
Qed.

Lemma renames_of_app (t1 t2 : list event) :
  renames_of (t1 ++ t2) = renames_of t1 ++ renames_of t2.
Proof. apply flat_map_app. Qed.

(** ** The rename flow up to the editor *)

Section RenameOpen.

Context {os : OS}.

Lemma emits_err_open_tmp_file (file : bytes) (fd : Z) :
  emits no_rename (err_open_tmp_file file fd).
Proof. unfold err_open_tmp_file; emits_auto. Qed.

Lemma emits_write_renfile (fd attr : Z) (arg : bytes) :
  emits no_rename (write_renfile fd attr arg).
Proof. unfold write_renfile; emits_auto. Qed.

Lemma emits_write_renfiles_loop (fd : Z) (rest : list bytes) :
  forall attr total, emits no_rename (write_renfiles_loop fd attr total rest).
Proof.
  induction rest as [|arg rest IH]; intros attr total; simpl; emits_auto.
  - apply emits_write_renfile.
  - apply IH.
Qed.

Lemma emits_write_renfiles_to_tmp (args : list bytes) (bulk_file : bytes)
  (fd : Z) :
  emits no_rename (write_renfiles_to_tmp args bulk_file fd).
Proof.
  unfold write_renfiles_to_tmp; emits_auto.
  - apply emits_write_renfiles_loop.
  - apply emits_err_open_tmp_file.
Qed.

Lemma emits_open_bulk_file (bulk_file : bytes) :
  emits no_rename (open_bulk_file bulk_file).
Proof. unfold open_bulk_file; emits_auto. Qed.

(** From its first statement to the reopening of the document
    [bulk_rename] renames nothing. *)
Lemma emits_bulk_rename_open (args : list bytes) :
  emits no_rename (bulk_rename_open args).
Proof.
  unfold bulk_rename_open; emits_auto;
    first [apply emits_write_renfiles_to_tmp
          |apply emits_open_bulk_file
          |apply emits_err_open_tmp_file].
Qed.

Lemma bulk_rename_open_renames (args : list bytes) (s0 : state) :
  renames_of (trace (snd (bulk_rename_open args s0))) =
  renames_of (trace s0).
Proof.
  destruct (emits_bulk_rename_open args s0) as (evs & -> & F).
  now rewrite renames_of_app, (no_rename_renames_of evs F), app_nil_r.
Qed.

End RenameOpen.

(** ** What [write_renfiles_to_tmp] writes and leaves in the vector *)

Lemma writes_of_app (t1 t2 : list event) :
  writes_of (t1 ++ t2) = writes_of t1 ++ writes_of t2.
Proof. apply flat_map_app. Qed.

Section WriteRenfiles.

Context {os : OS}.

(** One round of the loop. An argument that passes the checks is written
    once, as the name it was accepted under, and that name is left in
    the vector; an argument that fails one writes nothing and leaves the
    document as it is. An argument without a backslash that does not
    start with "./" or "../" stays in the vector as it is. *)
Lemma write_renfile_round (fd attr : Z) (arg : bytes) (s : state) :
  let r := write_renfile fd attr arg s in
  exists evs,
    trace (snd r) = trace s ++ evs
    /\ match checked (world s) arg with
       | Some n =>
           fst (fst (fst r)) = n /\ snd (fst r) = true
           /\ evs = [WriteDoc fd (name_line n)]
           /\ world (snd r) = sys_write (world s) fd (name_line n)
       | None =>
           snd (fst r) = false /\ writes_of evs = []
           /\ world (snd r) = world s
       end
    /\ (strchr arg "\" = false -> dot_slash arg = false ->
        fst (fst (fst r)) = arg).
Proof.
  unfold write_renfile, checked, bind, query, call, xerror, emit, ret.
  destruct (strchr arg "\") eqn:Es; [destruct (unescape_str arg)|];
    cbn [option_map fst snd world errno trace].
  - destruct (dot_slash (cstr b));
      [destruct (sys_realpath (world s) (cstr b)) as [p|e]|];
      cbn [fst snd world errno trace];
      repeat match goal with
             | |- context [sys_lstat ?w ?p] => destruct (sys_lstat w p)
             end;
      cbn [fst snd world errno trace]; rewrite <- ?app_assoc;
      eexists; (split; [reflexivity|]);
      (split; [repeat split|intros H; discriminate H]).
  - rewrite <- ?app_assoc; eexists; (split; [reflexivity|]);
      (split; [repeat split|intros H; discriminate H]).
  - destruct (dot_slash arg) eqn:Ed;
      [destruct (sys_realpath (world s) arg) as [p|e]|];
      cbn [fst snd world errno trace];
      repeat match goal with
             | |- context [sys_lstat ?w ?p] => destruct (sys_lstat w p)
             end;
      cbn [fst snd world errno trace]; rewrite <- ?app_assoc;
      eexists; (split; [reflexivity|]);
      (split; [repeat split
              |intros _ H; try discriminate H; reflexivity]).
Qed.

(** The loop: it writes the lines of the accepted names, in order, and
    raises the counter once for each; the vector keeps its length. *)
Lemma write_renfiles_loop_accepted (fd : Z) (rest : list bytes) :
  forall (attr : Z) (total : nat) (s : state),
    let r := write_renfiles_loop fd attr total rest s in
    exists evs,
      trace (snd r) = trace s ++ evs
      /\ writes_of evs = map name_line (accepted (world s) fd rest)
      /\ snd (fst r) = total + length (accepted (world s) fd rest)
      /\ length (fst (fst (fst r))) = length rest
      /\ (forall i a, nth_error rest i = Some a ->
                      strchr a "\" = false -> dot_slash a = false ->
                      nth_error (fst (fst (fst r))) i = Some a).
Proof.
  induction rest as [|arg rest IH]; intros attr total s r.
  - exists []; subst r; simpl; rewrite app_nil_r.
    repeat split; try lia; intros [|i] a H; discriminate H.
  - subst r; cbn [write_renfiles_loop accepted]; unfold bind.
    destruct (write_renfile_round fd attr arg s) as (e1 & H1 & C1 & S1).
    destruct (write_renfile fd attr arg s) as [[[arg' attr'] written] s1].
    cbn [fst snd] in H1, C1, S1.
    destruct (IH attr' (if written then S total else total) s1)
      as (e2 & H2 & W2 & T2 & L2 & S2).
    destruct (write_renfiles_loop fd attr'
                (if written then S total else total) rest s1)
      as [[[l attr''] total'] s2].
    cbn [fst snd] in *; unfold ret; cbn [fst snd].
    exists (e1 ++ e2); rewrite writes_of_app, W2, T2.
    split; [now rewrite H2, H1, app_assoc|].
    assert (forall i a, nth_error (arg :: rest) i = Some a ->
                        strchr a "\" = false -> dot_slash a = false ->
                        nth_error (arg' :: l) i = Some a) as Hshape.
    { intros [|i] a Hi Hs Hd; simpl in *.
      - injection Hi as ->; now rewrite S1.
      - now apply S2. }
    destruct (checked (world s) arg) as [n|].
    + destruct C1 as (-> & -> & -> & ->).
      repeat split; simpl; try lia; assumption.
    + destruct C1 as (-> & -> & ->).
      repeat split; simpl; try lia; assumption.
Qed.

(** [write_renfiles_to_tmp], where [fdopen] succeeds. The writes to the
    document are the header and then one line for each argument that
    passes the checks of the loop ([unescape_str] for an argument with a
    backslash, [realpath] for one that starts with "./" or "../",
    [lstat]), in the order of the arguments and spelled as accepted; an
    argument that fails a check is not written. [*total_input] is the
    number of the names written, and the status is [EXIT_FAILURE] when
    there is none, [EXIT_SUCCESS] otherwise. *)
Theorem total_input_counts_names (args : list bytes) (bulk_file : bytes)
  (fd : Z) (s : state) :
  sys_fdopen (world s) fd = Ok tt ->
  let names :=
    accepted (sys_write (world s) fd BULK_RENAME_TMP_FILE_HEADER) fd
             (tl args) in
  let r := write_renfiles_to_tmp args bulk_file fd s in
  exists evs,
    trace (snd r) = trace s ++ evs
    /\ writes_of evs = BULK_RENAME_TMP_FILE_HEADER :: map name_line names
    /\ concat (writes_of evs) = rename_document names
    /\ snd (fst r) = length names
    /\ fst (fst (fst (fst r))) =
       (if length names =? 0 then EXIT_FAILURE else EXIT_SUCCESS).
Proof.
  intros Hfd names r.
  assert (r = write_renfiles_to_tmp args bulk_file fd s) as Er
    by reflexivity.
  clearbody r; unfold write_renfiles_to_tmp, bind in Er.
  rewrite (query_ok _ _ _ s Hfd) in Er; unfold call at 1 in Er.
  cbn [fst snd] in Er.
  match type of Er with
  | context [write_renfiles_loop fd 0 0 (tl args) ?s1] =>
      destruct (write_renfiles_loop_accepted fd (tl args) 0%Z 0 s1)
        as (evs & H1 & W1 & T1 & _);
      destruct (write_renfiles_loop fd 0 0 (tl args) s1)
        as [[[rest attr] total] s2]
  end.
  cbn [fst snd trace world] in *; fold names in W1, T1.
  cbn [Nat.add] in T1; subst total.
  assert (forall tail,
            writes_of tail = [] ->
            writes_of ([WriteDoc fd BULK_RENAME_TMP_FILE_HEADER] ++ evs
                       ++ tail)
            = BULK_RENAME_TMP_FILE_HEADER :: map name_line names) as Hw.
  { intros tail Ht; rewrite !writes_of_app, W1, Ht, app_nil_r.
    reflexivity. }
  destruct (length names =? 0) eqn:E0.
  - unfold sys, when, xerror, emit, ret in Er.
    destruct (sys_unlinkat (world s2) fd bulk_file) as [[u|e] w];
      subst r; cbn [fst snd trace]; rewrite H1, <- !app_assoc;
      eexists; (split; [reflexivity|]);
      rewrite Hw by reflexivity; repeat split.
  - unfold query, ret in Er.
    destruct (sys_fstat (world s2) fd) as [m|e];
      subst r; cbn [fst snd trace]; rewrite H1, <- !app_assoc;
      exists ([WriteDoc fd BULK_RENAME_TMP_FILE_HEADER] ++ evs ++ []);
      (split; [now rewrite app_nil_r|]);
      rewrite Hw by reflexivity; repeat split.
Qed.

(** The loop of [write_renfiles_to_tmp] rewrites the vector in place and
    never shortens it: the vector keeps its length, [args[0]] stays, and
    so does every argument that holds no backslash and does not start
    with "./" or "../", whether it passed the checks or not. *)
Theorem vector_keeps_its_shape (args : list bytes) (bulk_file : bytes)
  (fd : Z) (s : state) :
  let args' := snd (fst (fst (fst (write_renfiles_to_tmp args bulk_file
                                                         fd s)))) in
  length args' = length args
  /\ nth_error args' 0 = nth_error args 0
  /\ (forall i a, nth_error args i = Some a ->
                  strchr a "\" = false -> dot_slash a = false ->
                  nth_error args' i = Some a).
Proof.
  intros args'.
  assert (args' = snd (fst (fst (fst (write_renfiles_to_tmp args bulk_file
                                                            fd s))))) as Er
    by reflexivity.
  clearbody args'; unfold write_renfiles_to_tmp, bind, query in Er.
  destruct (sys_fdopen (world s) fd) as [u|e].
  2:{ destruct (err_open_tmp_file bulk_file fd _) as [rc s1]; simpl in Er.
      subst args'; repeat split; intros; assumption. }
  unfold call at 1 in Er; cbn [fst snd] in Er.
  match type of Er with
  | context [write_renfiles_loop fd 0 0 (tl args) ?s1] =>
      destruct (write_renfiles_loop_accepted fd (tl args) 0%Z 0 s1)
        as (evs & _ & _ & _ & L1' & S1);
      destruct (write_renfiles_loop fd 0 0 (tl args) s1)
        as [[[rest attr] total] s2]
  end.
  cbn [fst snd] in *.
  assert (args' = firstn 1 args ++ rest) as ->.
  { destruct (total =? 0).
    - unfold sys, when, xerror, emit, ret in Er.
      destruct (sys_unlinkat (world s2) fd bulk_file) as [[u'|e] w];
        exact Er.
    - unfold ret in Er; destruct (sys_fstat (world s2) fd); exact Er. }
  destruct args as [|a0 args]; simpl in *.
  - destruct rest; [|discriminate L1'].
    repeat split; intros [|i] a H; discriminate H.
  - repeat split; [now rewrite L1'|].
    intros [|i] a Hi Hs Hd; simpl in *; [assumption|now apply S1].
Qed.

End WriteRenfiles.

(** ** The lines of a document and the records of [fgets] *)

Lemma fgets_chunk_getline (s : bytes) :
  forall r, length (fst (getline_chunk s)) <= r ->
            fgets_chunk r s = getline_chunk s.
Proof.
  induction s as [|c s IH]; intros r Hr; [now destruct r|].
  cbn [getline_chunk] in *.
  destruct (Ascii.eqb c NL) eqn:E.
  - destruct r as [|r]; [simpl in Hr; lia|]; simpl; now rewrite E.
  - destruct (getline_chunk s) as [l rest] eqn:Eg; cbn [fst length] in *.
    destruct r as [|r]; [lia|]; simpl; rewrite E.
    rewrite IH by lia; reflexivity.
Qed.

(** When every line fits the buffer, [fgets] reads the lines [getline]
    reads. *)
Lemma fgets_lines_getline (size : nat) (d : bytes) :
  2 <= size ->
  Forall (fun l => length l <= size - 1) (getline_lines d) ->
  fgets_lines size d = getline_lines d.
Proof.
  intros Hsize.
  remember (length d) as n eqn:Hn.
  revert d Hn; induction n as [n IH] using lt_wf_ind; intros d Hn H.
  destruct d as [|c d]; [reflexivity|].
  assert (c :: d <> []) as Hne by discriminate.
  rewrite (getline_lines_cons _ Hne) in H |- *.
  rewrite (fgets_lines_cons size _ Hsize Hne).
  pose proof (Forall_inv H) as Hl; pose proof (Forall_inv_tail H) as Hls.
  rewrite (fgets_chunk_getline (c :: d) (size - 1) Hl).
  f_equal; apply (IH (length (snd (getline_chunk (c :: d)))));
    [subst n; now apply getline_chunk_progress|reflexivity|assumption].
Qed.

(** A record of [getline]: not empty, made of bytes of the stream, with
    no newline but a last one. *)
Lemma getline_chunk_record (s : bytes) :
  s <> [] ->
  fst (getline_chunk s) <> []
  /\ (forall c, In c (fst (getline_chunk s)) -> In c s)
  /\ exists l, ~ In NL l
               /\ (fst (getline_chunk s) = l ++ [NL]
                   \/ fst (getline_chunk s) = l).
Proof.
  induction s as [|c s IH]; intros Hne; [congruence|].
  cbn [getline_chunk]; destruct (Ascii.eqb c NL) eqn:E.
  - apply Ascii.eqb_eq in E; subst; cbn [fst].
    split; [discriminate|split; [intros c [<-|[]]; now left|]].
    exists []; split; [intros []|now left].
  - apply Ascii.eqb_neq in E.
    destruct s as [|c' s'].
    + cbn [getline_chunk fst].
      split; [discriminate|split; [intros x H; exact H|]].
      exists [c]; split; [intros [H|[]]; congruence|now right].
    + destruct IH as (_ & Hin & l & Hl & Hshape); [discriminate|].
      destruct (getline_chunk (c' :: s')) as [l' rest]; cbn [fst] in *.
      split; [discriminate|split].
      * intros x [<-|H]; [now left|right; now apply Hin].
      * exists (c :: l); split; [intros [H|H]; [congruence|tauto]|].
        destruct Hshape as [->| ->]; [now left|now right].
Qed.

Lemma getline_lines_records (d : bytes) :
  Forall (fun rec => rec <> []
                     /\ (forall c, In c rec -> In c d)
                     /\ exists l, ~ In NL l
                                  /\ (rec = l ++ [NL] \/ rec = l))
         (getline_lines d).
Proof.
  remember (length d) as n eqn:Hn.
  revert d Hn; induction n as [n IH] using lt_wf_ind; intros d Hn.
  destruct d as [|c d]; [constructor|].
  assert (c :: d <> []) as Hne by discriminate.
  rewrite (getline_lines_cons _ Hne).
  pose proof (getline_chunk_record _ Hne) as Hrec.
  pose proof (getline_chunk_progress _ Hne) as Hprog.
  pose proof (getline_chunk_split (c :: d)) as Hsplit.
  constructor; [exact Hrec|].
  specialize (IH (length (snd (getline_chunk (c :: d))))).
  eapply Forall_impl; [|apply IH; [subst n; exact Hprog|reflexivity]].
  intros rec (H1 & H2 & H3); split; [exact H1|split; [|exact H3]].
  intros x Hx; rewrite Hsplit; apply in_or_app; right; now apply H2.
Qed.

Lemma strip_newline_length (l : bytes) :
  length l <= length (strip_newline l) + 1.
Proof.
  unfold strip_newline; destruct (Ascii.eqb (last l NUL) NL); [|lia].
  destruct l as [|c l] using rev_ind; [simpl; lia|].
  rewrite removelast_snoc, length_app; simpl; lia.
Qed.

(** On a record of a text the test of the loops and the test on the line
    agree. *)
Lemma br_skip_is_comment (rec : bytes) :
  rec <> [] -> ~ In NUL rec ->
  (exists l, ~ In NL l /\ (rec = l ++ [NL] \/ rec = l)) ->
  br_skip rec = is_comment (strip_newline rec).
Proof.
  intros Hne Hnul (l & Hl & [->| ->]); unfold strip_newline.
  - rewrite last_snoc, Ascii.eqb_refl, removelast_snoc.
    destruct l as [|c l]; [reflexivity|]; simpl.
    assert (Ascii.eqb c NUL = false) as ->
      by (apply Ascii.eqb_neq; intros ->; apply Hnul; now left).
    assert (Ascii.eqb c NL = false) as ->
      by (apply Ascii.eqb_neq; intros ->; apply Hl; now left).
    reflexivity.
  - assert (Ascii.eqb (last l NUL) NL = false) as ->.
    { apply Ascii.eqb_neq; intros E.
      destruct l as [|c l] using rev_ind; [congruence|].
      rewrite last_snoc in E; subst; apply Hl, in_or_app; right; now left. }
    destruct l as [|c l]; [congruence|]; simpl.
    assert (Ascii.eqb c NUL = false) as ->
      by (apply Ascii.eqb_neq; intros ->; apply Hnul; now left).
    assert (Ascii.eqb c NL = false) as ->
      by (apply Ascii.eqb_neq; intros ->; apply Hl; now left).
    reflexivity.
Qed.

Lemma count_is_filter (lines : list bytes) :
  fold_left (fun n line => if br_skip line then n else S n) lines 0 =
  length (filter (fun l => negb (br_skip l)) lines).
Proof.
  assert (forall k,
            fold_left (fun n line => if br_skip line then n else S n) lines k
            = k + length (filter (fun l => negb (br_skip l)) lines)) as H;
    [|apply (H 0)].
  induction lines as [|l lines IH]; intros k; simpl; [lia|].
  rewrite IH; destruct (br_skip l); simpl; lia.
Qed.

(** For a text whose lines [fgets] reads whole, the counter of
    [check_line_mismatch] is the number of the lines that are neither
    empty nor comments. *)
Lemma total_modified_name_lines (d : bytes) :
  read_whole d -> total_modified d = length (name_lines d).
Proof.
  intros [Hnul Hlen]; unfold total_modified, name_lines, doc_lines in *.
  rewrite fgets_lines_getline; [|apply PATH_MAX_ge|].
  2:{ rewrite Forall_map in Hlen; eapply Forall_impl; [|exact Hlen].
      intros l Hl; cbv beta in Hl.
      pose proof (strip_newline_length l); lia. }
  rewrite count_is_filter.
  pose proof (getline_lines_records d) as Hrec.
  induction Hrec as [|rec recs (H1 & H2 & H3) _ IH]; [reflexivity|].
  pose proof (Forall_inv_tail Hlen) as Hlen'.
  cbn [map filter].
  rewrite <- (br_skip_is_comment rec H1); [|intros H; apply Hnul; auto|exact H3].
  destruct (br_skip rec); cbn [negb length]; rewrite IH by assumption;
    reflexivity.
Qed.

(** A check of [read_whole] that computes. *)
Lemma read_whole_check (d : bytes) :
  negb (existsb (Ascii.eqb NUL) d)
  && forallb (fun l => length l + 1 <? PATH_MAX) (doc_lines d) = true ->
  read_whole d.
Proof.
  intros H; apply andb_true_iff in H as [H1 H2]; split.
  - intros Hin; apply negb_true_iff in H1.
    assert (existsb (Ascii.eqb NUL) d = true) as E; [|congruence].
    apply existsb_exists; exists NUL; split; [assumption|reflexivity].
  - apply Forall_forall; intros l Hl.
    rewrite forallb_forall in H2; now apply Nat.ltb_lt, H2.
Qed.

(** ** The rename flow after the editor (claims C1, C2 and C4) *)

Section RenameApply.

Context {os : OS}.

(** The label [ERROR]: the document is unlinked; the status is the one
    brought along, or the error number of the [unlinkat] that failed. *)
Lemma bulk_rename_ERROR_run (c : rename_ctx) (rc : Z) (s : state) :
  let u := sys_unlinkat (world s) (br_fd c) (br_file c) in
  bulk_rename_ERROR c rc s =
  (match fst u with Ok _ => rc | Err e => Z.pos e end,
   mkState (snd u)
           (match fst u with Ok _ => errno s | Err e => Z.pos e end)
           (trace s ++ Unlinkat (br_fd c) (br_file c)
                       :: unlink_diag (fst u) "br: unlinkat: '%s': %s\n"
                                      (br_file c))).
Proof.
  unfold bulk_rename_ERROR, bind, sys, xerror, emit, get_errno, ret.
  destruct (sys_unlinkat (world s) (br_fd c) (br_file c)) as [[u'|e] w];
    simpl; [reflexivity|].
  now rewrite <- app_assoc.
Qed.

Lemma bulk_rename_unfold (args : list bytes) (s0 s : state)
  (c : rename_ctx) :
  bulk_rename_open args s0 = (inr c, s) ->
  bulk_rename args s0 = bulk_rename_apply c s.
Proof. intros H; unfold bulk_rename, bind; now rewrite H. Qed.

Lemma check_line_mismatch_run (fp : bytes) (total_input : nat) (s : state) :
  check_line_mismatch fp total_input s =
  if total_input =? total_modified fp then (EXIT_SUCCESS, s)
  else (EXIT_FAILURE,
        mkState (world s) (errno s)
                (trace s ++ [Stderr "%s\n"
                               [str "br: Line mismatch in temporary file"]])).
Proof.
  unfold check_line_mismatch.
  destruct (total_input =? total_modified fp); reflexivity.
Qed.

(** When the counter of [check_line_mismatch] differs from
    [*total_input], [bulk_rename] reports the mismatch, unlinks the
    document and renames nothing. *)
Lemma line_mismatch_run (args : list bytes) (s0 s : state)
  (c : rename_ctx) (mtime : Z) :
  bulk_rename_open args s0 = (inr c, s) ->
  sys_fstat (world s) (br_fd c) = Ok mtime ->
  mtime <> br_mtime_bfr c ->
  total_modified (br_fp c) <> br_total_input c ->
  let u := sys_unlinkat (world s) (br_fd c) (br_file c) in
  let r := bulk_rename args s0 in
  fst r <> 0%Z
  /\ fst r = match fst u with Ok _ => EXIT_FAILURE | Err e => Z.pos e end
  /\ world (snd r) = snd u
  /\ trace (snd r) =
     trace s
     ++ [Stderr "%s\n" [str "br: Line mismatch in temporary file"];
         Unlinkat (br_fd c) (br_file c)]
     ++ unlink_diag (fst u) "br: unlinkat: '%s': %s\n" (br_file c)
  /\ exists evs, trace (snd r) = trace s0 ++ evs /\ Forall no_rename evs.
Proof.
  intros Hopen Hstat Hmt Hcount u r.
  destruct (emits_bulk_rename_open args s0) as (evs0 & Hevs0 & F0).
  rewrite Hopen in Hevs0; cbn [snd] in Hevs0.
  subst r; rewrite (bulk_rename_unfold args s0 s c Hopen).
  unfold bulk_rename_apply, bind.
  rewrite (query_ok _ _ _ s Hstat).
  replace (br_mtime_bfr c =? mtime)%Z with false
    by (symmetry; apply Z.eqb_neq; congruence).
  rewrite check_line_mismatch_run.
  replace (br_total_input c =? total_modified (br_fp c)) with false
    by (symmetry; apply Nat.eqb_neq; congruence).
  cbn [negb Z.eqb EXIT_FAILURE EXIT_SUCCESS].
  rewrite bulk_rename_ERROR_run; cbn [fst snd world trace]; fold u.
  repeat split.
  - destruct (fst u); [discriminate|intros H; discriminate H].
  - rewrite <- app_assoc; reflexivity.
  - rewrite Hevs0, <- !app_assoc; eexists; split; [reflexivity|].
    apply Forall_app; split; [exact F0|].
    destruct (fst u); repeat constructor.
Qed.

(** C2, as amended: for an edited text that [fgets] reads line by line
    (no NUL byte, every line with its newline shorter than [PATH_MAX]
    bytes: [read_whole]), when the number of its lines that are neither
    empty nor start with [#] ([name_lines]; a line of blanks is one of
    them) differs from the number of the arguments written to the
    document ([*total_input], the valid entries: lemma
    [total_input_counts_names]), [bulk_rename] reports "br: Line mismatch
    in temporary file", unlinks the document and returns a status that is
    not zero: [EXIT_FAILURE], or the error number of the [unlinkat] if
    that fails. From the first statement to the last the run calls no
    [renameat] and launches no [mv], and the world the editor left is
    changed by that one [unlinkat] only: every file is as it was. The
    fact is stated for a document the code sees as edited: its
    modification time differs from the one saved when it was written. *)
Theorem line_mismatch_aborts (args : list bytes) (s0 s : state)
  (c : rename_ctx) (mtime : Z) :
  bulk_rename_open args s0 = (inr c, s) ->
  sys_fstat (world s) (br_fd c) = Ok mtime ->
  mtime <> br_mtime_bfr c ->
  read_whole (br_fp c) ->
  length (name_lines (br_fp c)) <> br_total_input c ->
  let u := sys_unlinkat (world s) (br_fd c) (br_file c) in
  let r := bulk_rename args s0 in
  fst r <> 0%Z
  /\ fst r = match fst u with Ok _ => EXIT_FAILURE | Err e => Z.pos e end
  /\ world (snd r) = snd u
  /\ trace (snd r) =
     trace s
     ++ [Stderr "%s\n" [str "br: Line mismatch in temporary file"];
         Unlinkat (br_fd c) (br_file c)]
     ++ unlink_diag (fst u) "br: unlinkat: '%s': %s\n" (br_file c)
  /\ exists evs, trace (snd r) = trace s0 ++ evs /\ Forall no_rename evs.
Proof.
  intros Hopen Hstat Hmt Hwhole Hcount.
  apply (line_mismatch_run args s0 s c mtime Hopen Hstat Hmt).
  now rewrite total_modified_name_lines.
Qed.

(** What the rename flow does when the modification time has not
    changed. *)
Lemma rename_unchanged (args : list bytes) (s0 s : state) (c : rename_ctx) :
  bulk_rename_open args s0 = (inr c, s) ->
  sys_fstat (world s) (br_fd c) = Ok (br_mtime_bfr c) ->
  let u := sys_unlinkat (world s) (br_fd c) (br_file c) in
  let r := bulk_rename args s0 in
  fst r = match fst u with Ok _ => 0%Z | Err e => Z.pos e end
  /\ world (snd r) = snd u
  /\ trace (snd r) =
     trace s
     ++ [Stdout "br: Nothing to do" []; Unlinkat (br_fd c) (br_file c)]
     ++ unlink_diag (fst u) "br: unlinkat: '%s': %s\n" (br_file c)
  /\ exists evs, trace (snd r) = trace s0 ++ evs /\ Forall no_rename evs.
Proof.
  intros Hopen Hstat u r.
  destruct (emits_bulk_rename_open args s0) as (evs0 & Hevs0 & F0).
  rewrite Hopen in Hevs0; cbn [snd] in Hevs0.
  subst r; rewrite (bulk_rename_unfold args s0 s c Hopen).
  unfold bulk_rename_apply, bind.
  rewrite (query_ok _ _ _ s Hstat), Z.eqb_refl.
  unfold puts, emit; rewrite bulk_rename_ERROR_run.
  cbn [fst snd world trace]; fold u.
  repeat split.
  - rewrite <- app_assoc; reflexivity.
  - rewrite Hevs0, <- !app_assoc; eexists; split; [reflexivity|].
    apply Forall_app; split; [exact F0|].
    destruct (fst u); repeat constructor.
Qed.

Lemma emits_summary_and_prompt (c : rename_ctx) :
  emits no_rename (summary_and_prompt c).
Proof.
  unfold summary_and_prompt, count_modified_names; emits_auto.
  unfold count_modified_round; emits_auto.
Qed.

(** C1, as amended: once the user has confirmed, every pair of the change
    list is given to [renameat], one call a pair and in the order of the
    list, whatever the calls before it returned: the calls of [renameat]
    of the whole run are those pairs. The value [bulk_rename] returns is
    the LAST value other than zero that [rename_file] returned (zero when
    all were zero), not the first; only a failure of the final [unlinkat]
    of the document replaces it, by that error number. *)
Theorem aggregate_is_last_error (args : list bytes) (s0 s s1 : state)
  (c : rename_ctx) (mtime : Z) (modified : nat) (yes : Z) :
  bulk_rename_open args s0 = (inr c, s) ->
  sys_fstat (world s) (br_fd c) = Ok mtime ->
  mtime <> br_mtime_bfr c ->
  total_modified (br_fp c) = br_total_input c ->
  summary_and_prompt c s = ((modified, yes), s1) ->
  yes <> 0%Z ->
  let changes := change_list (br_args c) 1 (fgets_lines PATH_MAX (br_fp c)) in
  let codes := fst (rename_each modified changes s1) in
  let s2 := snd (rename_each modified changes s1) in
  let u := sys_unlinkat (world s2) (br_fd c) (br_file c) in
  length codes = length changes
  /\ renames_of (trace (snd (bulk_rename args s0))) =
     renames_of (trace s0)
     ++ map (fun ch => (fst ch, trim_slash (snd ch))) changes
  /\ fst (bulk_rename args s0) =
     match fst u with Ok _ => last_nonzero codes | Err e => Z.pos e end.
Proof.
  intros Hopen Hstat Hmt Hcount Hsum Hyes changes codes s2 u.
  pose proof (bulk_rename_open_renames args s0) as Hren0.
  rewrite Hopen in Hren0; cbn [snd] in Hren0.
  destruct (emits_summary_and_prompt c s) as (evs & Hevs & Fevs).
  rewrite Hsum in Hevs; cbn [snd] in Hevs.
  destruct (rename_each_renames modified changes s1) as [Hren2 Hlen].
  fold s2 in Hren2; fold codes in Hlen.
  rewrite Hevs, renames_of_app, (no_rename_renames_of evs Fevs), app_nil_r,
    Hren0 in Hren2.
  split; [exact Hlen|].
  rewrite (bulk_rename_unfold args s0 s c Hopen).
  unfold bulk_rename_apply, bind.
  rewrite (query_ok _ _ _ s Hstat).
  replace (br_mtime_bfr c =? mtime)%Z with false
    by (symmetry; apply Z.eqb_neq; congruence).
  rewrite check_line_mismatch_run, Hcount, Nat.eqb_refl.
  cbn [negb Z.eqb EXIT_SUCCESS].
  unfold summary_and_prompt, bind, ret in Hsum.
  destruct (count_modified_names (br_args c) (br_fp c) s) as [m sa].
  destruct (call (Ask "Continue? [y/n] ")
                 (fun w => rl_get_y_or_n w "Continue? [y/n] ") sa)
    as [y sb].
  injection Hsum as -> -> ->.
  replace (yes =? 0)%Z with false by (symmetry; now apply Z.eqb_neq).
  destruct (rename_bulk_files_spec (br_args c) (br_fp c) 0%Z 0 modified s1)
    as (is_cwd' & Hrun).
  rewrite Hrun; fold changes codes s2.
  assert ((if negb (last_nonzero codes =? EXIT_SUCCESS)%Z
           then last_nonzero codes else EXIT_SUCCESS) = last_nonzero codes)
    as ->.
  { destruct (last_nonzero codes =? EXIT_SUCCESS)%Z eqn:E; simpl;
      [|reflexivity].
    apply Z.eqb_eq in E; now rewrite E. }
  subst u; unfold sys.
  destruct (sys_unlinkat (world s2) (br_fd c) (br_file c)) as [[u'|e] w];
    cbn [fst];
    unfold get_errno, xerror, emit, ret, peek, call; cbn [errno world trace];
    repeat match goal with
           | |- context [when ?b _ _] => destruct b; cbn [when]
           end;
    unfold call, ret; cbn [fst snd errno world trace];
    (split; [|reflexivity]);
    rewrite ?renames_of_app, Hren2; cbn; now rewrite ?app_nil_r.
Qed.

End RenameApply.

(** ** The remove flow (claims C3, C4 and C10) *)

Section RemoveFlow.

Context {os : OS}.

Lemma emits_print_files (P : event -> Prop) (fd : Z) (l : list dirent) :
  (forall d, P (WriteDoc fd d)) -> emits P (print_files fd l).
Proof.
  intros HP; induction l as [|e l IH]; simpl; [apply emits_ret|].
  apply emits_bind; [|intros; exact IH].
  unfold print_file; apply emits_call, HP.
Qed.

Lemma emits_print_scanned (P : event -> Prop) (fd : Z) (l : list dirent) :
  (forall d, P (WriteDoc fd d)) -> emits P (print_scanned fd l).
Proof.
  intros HP; induction l as [|e l IH]; simpl; [apply emits_ret|].
  apply emits_bind; [|intros; exact IH].
  destruct (SELFORPARENT (d_name e)); [apply emits_ret|].
  unfold print_file; apply emits_call, HP.
Qed.

(** The remove flow up to the return of the editor adds no event that P
    refuses, when P refuses but removals and renames. *)
Lemma emits_bulk_remove_open (P : event -> Prop) (s1 s2 : option bytes) :
  (forall e, no_removal e -> P e) -> emits P (bulk_remove_open s1 s2).
Proof.
  intros HP.
  assert (forall e, no_removal e -> emits P (emit e)) as Hemit
    by (intros; now apply emits_emit, HP).
  assert (forall A e (f : World -> res A * World),
            no_removal e -> emits P (sys e f)) as Hsys
    by (intros; now apply emits_sys, HP).
  assert (forall A e (f : World -> A * World),
            no_removal e -> emits P (call e f)) as Hcall
    by (intros; now apply emits_call, HP).
  assert (forall tmp fd rc, emits P (bulk_remove_END tmp fd rc)) as HEND.
  { intros; unfold bulk_remove_END.
    repeat first [apply emits_bind; [|intros] | apply emits_ret
                 |apply emits_when | apply Hsys; exact I
                 |apply Hemit; exact I]. }
  unfold bulk_remove_open, parse_bulk_remove_params, create_tmp_file,
    write_files_to_tmp, open_tmp_file, puts, xerror.
  repeat first
    [ apply HEND
    | apply emits_print_files; intros; apply HP; exact I
    | apply emits_print_scanned; intros; apply HP; exact I
    | apply emits_ret
    | apply emits_bind; [|intros]
    | apply Hemit; exact I
    | apply Hsys; exact I
    | apply Hcall; exact I
    | apply emits_query
    | apply emits_peek
    | apply emits_get_errno
    | apply emits_set_errno
    | match goal with
      | |- emits _ (match ?x with _ => _ end) => destruct x
      end ].
Qed.

Lemma nothing_to_do_run (tmp_file : bytes) (fd : Z) (s : state) :
  let u := sys_unlinkat (world s) fd tmp_file in
  nothing_to_do tmp_file fd s =
  (EXIT_SUCCESS,
   mkState (snd u)
           (match fst u with Ok _ => errno s | Err e => Z.pos e end)
           (trace s ++ [Stdout "rr: Nothing to do" []; Unlinkat fd tmp_file])).
Proof.
  unfold nothing_to_do, bind, puts, emit, sys, ret; cbn [world errno trace].
  destruct (sys_unlinkat (world s) fd tmp_file) as [r w]; simpl.
  now rewrite <- app_assoc.
Qed.

Lemma bulk_remove_unfold (s1 s2 : option bytes) (st0 st : state)
  (c : remove_ctx) :
  bulk_remove_open s1 s2 st0 = (inr c, st) ->
  bulk_remove s1 s2 st0 = bulk_remove_apply c st.
Proof. intros H; unfold bulk_remove, bind; now rewrite H. Qed.

Lemma stat_run (c : remove_ctx) (st : state) :
  exists st',
    query (fun w => sys_stat w (rr_tmp_file c)) st =
    (sys_stat (world st) (rr_tmp_file c), st')
    /\ world st' = world st /\ trace st' = trace st
    /\ (forall r, sys_stat (world st) (rr_tmp_file c) = Ok r -> st' = st).
Proof.
  unfold query; destruct (sys_stat (world st) (rr_tmp_file c)) as [r|e].
  - exists st; repeat split; intros r' _; reflexivity.
  - eexists; repeat split; intros r' H; discriminate H.
Qed.

(** The remove flow when the modification time has not changed. *)
Lemma remove_unchanged_run (s1 s2 : option bytes) (st0 st : state)
  (c : remove_ctx) :
  bulk_remove_open s1 s2 st0 = (inr c, st) ->
  mtime_now c st = rr_old_t c ->
  exists st',
    bulk_remove s1 s2 st0 = nothing_to_do (rr_tmp_file c) (rr_fd c) st'
    /\ world st' = world st /\ trace st' = trace st.
Proof.
  intros Hopen Hmt.
  rewrite (bulk_remove_unfold s1 s2 st0 st c Hopen).
  unfold bulk_remove_apply, bind.
  destruct (stat_run c st) as (st' & -> & Hw & Ht & _).
  fold (mtime_now c st); rewrite Hmt, Z.eqb_refl.
  exists st'; repeat split; assumption.
Qed.

Lemma remove_unchanged (s1 s2 : option bytes) (st0 st : state)
  (c : remove_ctx) :
  bulk_remove_open s1 s2 st0 = (inr c, st) ->
  mtime_now c st = rr_old_t c ->
  let u := sys_unlinkat (world st) (rr_fd c) (rr_tmp_file c) in
  let r := bulk_remove s1 s2 st0 in
  fst r = 0%Z
  /\ world (snd r) = snd u
  /\ trace (snd r) =
     trace st
     ++ [Stdout "rr: Nothing to do" []; Unlinkat (rr_fd c) (rr_tmp_file c)]
  /\ exists evs, trace (snd r) = trace st0 ++ evs /\ Forall no_removal evs.
Proof.
  intros Hopen Hmt u r.
  destruct (emits_bulk_remove_open no_removal s1 s2 (fun e H => H) st0)
    as (evs0 & Hevs0 & F0).
  rewrite Hopen in Hevs0; cbn [snd] in Hevs0.
  destruct (remove_unchanged_run s1 s2 st0 st c Hopen Hmt)
    as (st' & E & Hw & Ht).
  subst r u; rewrite E, nothing_to_do_run.
  cbn [fst snd world trace]; rewrite Hw, Ht.
  repeat split.
  rewrite Hevs0, <- app_assoc; eexists; split; [reflexivity|].
  apply Forall_app; split; [exact F0|repeat constructor].
Qed.

End RemoveFlow.

Section RemoveApply.

Context {os : OS}.

(** C3, as amended: in the remove flow the document counts as changed
    and the flow goes on to the names that survive only when the edited
    document has FEWER lines that are not skipped ([diff_count]) than
    entries were written to it ([rr_num]). With exactly as many lines, or
    with more, [bulk_remove] takes the way of "nothing to do": it removes
    nothing. The fact is stated for a document the code sees as edited
    (its modification time differs from the one read before the editor
    ran) and that can be opened for reading. *)
Theorem remove_gate (s1 s2 : option bytes) (st0 st : state) (c : remove_ctx)
  (stream : bytes) :
  bulk_remove_open s1 s2 st0 = (inr c, st) ->
  mtime_now c st <> rr_old_t c ->
  sys_fopen_r (world st) (rr_tmp_file c) = Ok stream ->
  bulk_remove s1 s2 st0 =
  if (diff_count stream <? rr_num c)%Z then remove_proceeds c stream st
  else nothing_to_do (rr_tmp_file c) (rr_fd c) st.
Proof.
  intros Hopen Hmt Hfopen.
  rewrite (bulk_remove_unfold s1 s2 st0 st c Hopen).
  unfold bulk_remove_apply, bind.
  destruct (stat_run c st) as (st' & -> & _ & _ & Hst').
  assert (st' = st) as ->.
  { unfold mtime_now in Hmt.
    destruct (sys_stat (world st) (rr_tmp_file c)) as [r|e];
      [now apply (Hst' r)|congruence]. }
  fold (mtime_now c st).
  replace (rr_old_t c =? mtime_now c st)%Z with false
    by (symmetry; apply Z.eqb_neq; congruence).
  unfold diff_files, bind; rewrite (query_ok _ _ _ st Hfopen).
  unfold ret at 1; cbn [orb].
  destruct (diff_count stream <? rr_num c)%Z; cbn [Z.eqb]; [|reflexivity].
  unfold get_files_from_tmp_file, bind; rewrite (query_ok _ _ _ st Hfopen).
  reflexivity.
Qed.

Lemma firstn_short (A : Type) (k : nat) (p x : list A) :
  firstn k p = x -> length x < k -> p = x.
Proof.
  intros E Hlen; subst x; rewrite length_firstn in Hlen.
  symmetry; apply firstn_all2; lia.
Qed.

Lemma in_firstn (A : Type) (k : nat) (l : list A) (x : A) :
  In x (firstn k l) -> In x l.
Proof.
  intros H; rewrite <- (firstn_skipn k l); apply in_or_app; now left.
Qed.

(** A path printed with a slash in it is neither "." nor "..", cut at
    [PATH_MAX - 1] bytes or not. *)
Lemma slashed_not_dotted (a b : bytes) :
  ~ In NUL a -> ~ In NUL b ->
  let x := savestring (snprintf PATH_MAX (a ++ str "/" ++ b)) in
  x <> str "." /\ x <> str "..".
Proof.
  intros Ha Hb x.
  assert (x = firstn (PATH_MAX - 1) (a ++ str "/" ++ b)) as Hx.
  { unfold x, savestring, snprintf; apply cstr_id.
    intros Hin; apply in_firstn in Hin.
    apply in_app_or in Hin as [Hin|[Hin|Hin]];
      [tauto|discriminate Hin|tauto]. }
  assert (2 < PATH_MAX - 1) as Hpm by (unfold PATH_MAX; lia).
  split; intros E; rewrite Hx in E; apply firstn_short in E;
    try (simpl; lia);
    assert (In "/"%char (a ++ str "/" ++ b)) as Hin
      by (apply in_or_app; right; now left);
    rewrite E in Hin; simpl in Hin;
    repeat (destruct Hin as [Hin|Hin]; [discriminate Hin|]); exact Hin.
Qed.

Lemma scanned_path_not_dotted (dir name : bytes) :
  scanned_path dir name <> str "." /\ scanned_path dir name <> str "..".
Proof.
  unfold scanned_path; destruct (Ascii.eqb (hd NUL dir) "/").
  - apply slashed_not_dotted; apply cstr_no_NUL.
  - apply slashed_not_dotted; [apply cstr_no_NUL|].
    intros Hin; apply in_app_or in Hin as [Hin|[Hin|Hin]];
      [now apply cstr_no_NUL in Hin|discriminate Hin
      |now apply cstr_no_NUL in Hin].
Qed.

End RemoveApply.

(** ** The vectors handed to [remove_files] (claim C10) *)

Lemma before_the_slash (l1 l2 r1 r2 : bytes) :
  ~ In "/"%char l1 -> ~ In "/"%char l2 ->
  l1 ++ "/"%char :: r1 = l2 ++ "/"%char :: r2 -> l1 = l2.
Proof.
  revert l2; induction l1 as [|c l1 IH]; intros [|c' l2] H1 H2 E;
    simpl in *.
  - reflexivity.
  - injection E as <- _; tauto.
  - injection E as -> _; tauto.
  - injection E as <- E; f_equal; apply IH; tauto.
Qed.

Lemma after_the_last_slash (a q n d : bytes) :
  ~ In "/"%char n -> ~ In "/"%char d ->
  a ++ "/"%char :: n = q ++ "/"%char :: d -> n = d.
Proof.
  intros Hn Hd E.
  apply (f_equal (@rev ascii)) in E.
  rewrite !rev_app_distr in E; simpl in E; rewrite <- !app_assoc in E.
  simpl in E; apply before_the_slash in E.
  - now apply rev_inj.
  - now rewrite <- in_rev.
  - now rewrite <- in_rev.
Qed.

Lemma slashed_is_not_dotted (a n : bytes) :
  ~ In "/"%char n -> n <> str "." -> n <> str ".." ->
  ~ dotted_path (a ++ str "/" ++ n).
Proof.
  intros Hn H1 H2 (pre & d & E & Hd & Hpre).
  assert (~ In "/"%char d) as Hslash.
  { destruct Hd as [-> | ->]; simpl; intros H;
      repeat (destruct H as [H|H]; [discriminate H|]); exact H. }
  destruct Hpre as [->|[q ->]].
  - simpl in E; apply Hslash; rewrite <- E.
    apply in_or_app; right; now left.
  - rewrite <- app_assoc in E.
    change (str "/" ++ n) with ("/"%char :: n) in E.
    change (str "/" ++ d) with ("/"%char :: d) in E.
    apply after_the_last_slash in E; try assumption.
    subst n; destruct Hd; contradiction.
Qed.

Section RemovalVectors.

Context {os : OS}.

Lemma no_NUL_app (a b : bytes) :
  ~ In NUL a -> ~ In NUL b -> ~ In NUL (a ++ b).
Proof. intros Ha Hb H; apply in_app_or in H; tauto. Qed.

Lemma no_NUL_slash : ~ In NUL (str "/").
Proof. intros [H|[]]; discriminate H. Qed.

Lemma scanned_path_fits (dir name : bytes) :
  length (scanned_text dir name) < PATH_MAX ->
  scanned_path dir name = scanned_text dir name.
Proof.
  intros Hlen; unfold scanned_path, scanned_text in *.
  destruct (Ascii.eqb (hd NUL dir) "/"); unfold savestring, snprintf;
    rewrite firstn_all2 by lia; apply cstr_id;
    repeat first [apply no_NUL_app | apply cstr_no_NUL | apply no_NUL_slash].
Qed.

(** A path that fits the buffer, built for an entry whose name is not
    "." or ".." and holds no slash, does not name "." or "..". *)
Lemma fitting_path_is_not_dotted (target : target_t) (name : bytes) :
  SELFORPARENT name = false -> ~ In "/"%char (cstr name) ->
  path_fits target name ->
  ~ dotted_path (removal_path target name).
Proof.
  intros Hdot Hslash Hfit.
  assert (cstr name <> str "." /\ cstr name <> str "..") as [H1 H2].
  { split; intros E;
      assert (SELFORPARENT name = true) as Habs
        by (apply SELFORPARENT_spec; auto);
      congruence. }
  destruct target as [|dir]; cbn [removal_path path_fits] in *.
  - unfold savestring; intros (pre & d & E & Hd & Hpre).
    destruct Hpre as [->|[q ->]].
    + simpl in E; destruct Hd; congruence.
    + apply Hslash; rewrite E, <- app_assoc.
      apply in_or_app; right; now left.
  - rewrite (scanned_path_fits dir name Hfit); unfold scanned_text.
    destruct (Ascii.eqb (hd NUL dir) "/").
    + now apply slashed_is_not_dotted.
    + rewrite app_assoc, (app_assoc _ (cstr dir)).
      now apply slashed_is_not_dotted.
Qed.

Lemma get_remove_files_made_of_entries (target : target_t)
  (tmp_files : list bytes) (a : list dirent) :
  made_of_entries target a (get_remove_files target tmp_files a).
Proof.
  rewrite get_remove_files_eq; split; [reflexivity|]; cbn [tl].
  apply Forall_forall; intros x Hx.
  apply in_map_iff in Hx as (e & <- & He).
  apply filter_In in He as [Hin He]; apply Z.eqb_eq in He.
  exists e; repeat split; [assumption|].
  unfold remove_this_file in He.
  destruct (SELFORPARENT (d_name e)); [discriminate He|reflexivity].
Qed.

Lemma emits_bulk_remove_apply (c : remove_ctx) :
  emits (fun e => match e with
                  | RemoveFiles argv =>
                      made_of_entries (rr_target c) (rr_a c) argv
                  | _ => True
                  end) (bulk_remove_apply c).
Proof.
  unfold bulk_remove_apply, diff_files, nothing_to_do,
    get_files_from_tmp_file, bulk_remove_END, puts, xerror.
  repeat first
    [ apply emits_ret
    | apply emits_bind; [|intros]
    | apply emits_emit; exact I
    | apply emits_sys; exact I
    | apply emits_call; apply get_remove_files_made_of_entries
    | apply emits_query
    | apply emits_when
    | match goal with
      | |- emits _ (match ?x with _ => _ end) => destruct x
      end ].
Qed.

(** What [bulk_remove] hands to [remove_files]. In every run, a vector
    given to [remove_files] comes after the editor has returned, has "rr"
    as its first element, and each of its other elements is the path
    [get_remove_files] builds for an entry of the listing (of the scan,
    for another directory) whose name is neither "." nor "..". Such a
    path, when its text fits the buffer of [PATH_MAX] bytes and the name
    holds no slash, is that text and names neither "." nor "..": it is
    not one of the two strings and does not end in "/." or "/..". Cut
    or not, a path is never the bare string "." or "..". *)
Theorem removal_paths_name_their_entries (s1 s2 : option bytes)
  (s : state) :
  (exists evs,
     trace (snd (bulk_remove s1 s2 s)) = trace s ++ evs
     /\ forall argv, In (RemoveFiles argv) evs ->
          exists c st, bulk_remove_open s1 s2 s = (inr c, st)
                       /\ made_of_entries (rr_target c) (rr_a c) argv)
  /\ (forall dir name,
        path_fits (T_dir dir) name ->
        removal_path (T_dir dir) name = scanned_text dir name)
  /\ (forall target name,
        SELFORPARENT name = false -> ~ In "/"%char (cstr name) ->
        path_fits target name ->
        ~ dotted_path (removal_path target name))
  /\ (forall target name,
        SELFORPARENT name = false ->
        removal_path target name <> str "."
        /\ removal_path target name <> str "..").
Proof.
  split; [|split; [intros dir name; apply scanned_path_fits
                  |split; [apply fitting_path_is_not_dotted|]]].
  2:{ intros [|dir] name Hdot; [|apply scanned_path_not_dotted].
      unfold removal_path, savestring; split; intros E;
        assert (SELFORPARENT name = true) as Habs
          by (apply SELFORPARENT_spec; auto);
        congruence. }
  destruct (emits_bulk_remove_open no_removal s1 s2 (fun e H => H) s)
    as (evs0 & Hevs0 & F0).
  unfold bulk_remove, bind.
  destruct (bulk_remove_open s1 s2 s) as [[rc|c] st]; cbn [snd] in *.
  - exists evs0; split; [exact Hevs0|].
    intros argv Hin; rewrite Forall_forall in F0.
    destruct (F0 _ Hin).
  - destruct (emits_bulk_remove_apply c st) as (evs1 & Hevs1 & F1).
    exists (evs0 ++ evs1); split; [now rewrite Hevs1, Hevs0, app_assoc|].
    intros argv Hin; apply in_app_or in Hin as [Hin|Hin].
    + rewrite Forall_forall in F0; destruct (F0 _ Hin).
    + rewrite Forall_forall in F1; exists c, st; split; [reflexivity|].
      exact (F1 _ Hin).
Qed.

End RemovalVectors.


(** ** The vector of the names read back is large enough *)

Lemma getline_chunk_shape (s : bytes) :
  (exists p, fst (getline_chunk s) = p ++ [NL]) \/ snd (getline_chunk s) = [].
Proof.
  induction s as [|c s IH]; simpl; [now right|].
  destruct (Ascii.eqb c NL) eqn:E.
  - apply Ascii.eqb_eq in E; subst; left; now exists [].
  - destruct (getline_chunk s) as [l rest]; simpl in *.
    destruct IH as [[p ->] | ->]; [left; now exists (c :: p)|now right].
Qed.

Lemma getline_chunk_head (s : bytes) :
  rr_skip (fst (getline_chunk s)) = rr_skip s.
Proof.
  destruct s as [|c s]; [reflexivity|]; cbn [getline_chunk].
  destruct (Ascii.eqb c NL); [reflexivity|].
  now destruct (getline_chunk s).
Qed.

Lemma fgets_chunk_head (r : nat) (s : bytes) :
  rr_skip (fst (fgets_chunk (S r) s)) = rr_skip s.
Proof.
  destruct s as [|c s]; [reflexivity|]; cbn [fgets_chunk].
  destruct (Ascii.eqb c NL); [reflexivity|].
  now destruct (fgets_chunk r s).
Qed.

Lemma kept_app (l1 l2 : list bytes) : kept (l1 ++ l2) = kept l1 + kept l2.
Proof. unfold kept; now rewrite filter_app, length_app. Qed.

Lemma diff_count_kept (stream : bytes) :
  diff_count stream = Z.of_nat (kept (fgets_lines (PATH_MAX + 6) stream)).
Proof.
  unfold diff_count, kept.
  assert (forall ls z,
            fold_left (fun c line => if rr_skip line then c else (c + 1)%Z)
                      ls z
            = (z + Z.of_nat (length (filter (fun l => negb (rr_skip l)) ls)))%Z)
    as H.
  { induction ls as [|l ls IH]; intros z; simpl; [lia|].
    rewrite IH; destruct (rr_skip l); simpl; lia. }
  now rewrite H.
Qed.

(** A line that [getline] counts is counted by [fgets] as well, once or
    more. *)
Lemma kept_getline_le_fgets (size : nat) (s : bytes) :
  2 <= size -> kept (getline_lines s) <= kept (fgets_lines size s).
Proof.
  intros Hsize.
  remember (length s) as n eqn:Hn.
  revert s Hn; induction n as [n IH] using lt_wf_ind; intros s Hn.
  destruct s as [|c s]; [reflexivity|].
  assert (c :: s <> []) as Hne by discriminate.
  rewrite (getline_lines_cons _ Hne).
  pose proof (getline_chunk_split (c :: s)) as Hsplit.
  pose proof (getline_chunk_progress _ Hne) as Hprog.
  pose proof (getline_chunk_shape (c :: s)) as Hshape.
  pose proof (getline_chunk_head (c :: s)) as Hhead.
  destruct (getline_chunk (c :: s)) as [l rest]; cbn [fst snd] in *.
  assert (kept [l] <= kept (fgets_lines size l)) as Hfirst.
  { destruct l as [|c' l'].
    { exfalso; simpl in Hsplit; rewrite <- Hsplit in Hprog; lia. }
    rewrite (fgets_lines_cons size (c' :: l')) by (assumption || discriminate).
    destruct size as [|[|size']]; [lia..|].
    replace (S (S size') - 1) with (S size') by lia.
    pose proof (fgets_chunk_head size' (c' :: l')) as Hh.
    unfold kept; cbn [filter]; rewrite Hh.
    destruct (rr_skip (c' :: l')); cbn [negb length]; lia. }
  change (l :: getline_lines rest) with ([l] ++ getline_lines rest).
  rewrite kept_app.
  destruct Hshape as [[p Hp]|Hr]; [rewrite Hp in *|rewrite Hr in *].
  - rewrite Hsplit, fgets_lines_app, kept_app by assumption.
    specialize (IH (length rest)).
    assert (kept (getline_lines rest) <= kept (fgets_lines size rest)).
    { apply IH; [subst n; exact Hprog|reflexivity]. }
    lia.
  - rewrite app_nil_r in Hsplit; rewrite Hsplit.
    change (getline_lines []) with (@nil bytes).
    unfold kept at 2; simpl; lia.
Qed.

Section TmpFiles.

Context {os : OS}.

(** [get_files_from_tmp_file] allocates [nfiles + 2] pointers, [nfiles]
    being [files] or the length of the scan, and stores a pointer for
    every line it keeps, then NULL. [bulk_remove] calls it only when
    [diff_files] has counted fewer lines than [num], and [num] is at most
    [nfiles]: the names and the NULL fit. *)
Lemma tmp_files_fit (c : remove_ctx) (stream : bytes) :
  (diff_count stream < rr_num c)%Z ->
  length (read_names stream) + 1
  < length (entries_of (rr_target c) (rr_a c)) + 2.
Proof.
  intros H; rewrite diff_count_kept in H.
  pose proof (kept_getline_le_fgets (PATH_MAX + 6) stream) as Hle.
  pose proof PATH_MAX_ge as Hpm.
  assert (length (read_names stream) = kept (getline_lines stream)) as ->
    by (unfold read_names, kept; now rewrite length_map).
  assert (rr_num c <= Z.of_nat (length (entries_of (rr_target c) (rr_a c))))%Z.
  { unfold rr_num, entries_of; destruct (rr_target c); lia. }
  lia.
Qed.

End TmpFiles.

(** ** Nothing to do (claim C4) *)

(** C4: in both flows, when the modification time read after the editor
    returned equals the one saved when the document was written, the
    operation prints "Nothing to do", calls [unlinkat] on the document and
    does nothing else: the trace ends with those two events, the world is
    the one the editor left but for that [unlinkat], and the whole run
    holds no [renameat] and no launched command (rename flow), no call of
    [remove_files] and no [renameat] (remove flow). [bulk_remove] returns
    0; [bulk_rename] returns 0 when the [unlinkat] of the document
    succeeds. *)
Theorem unchanged_is_nothing_to_do {os : OS} :
  (forall args s0 s c,
     bulk_rename_open args s0 = (inr c, s) ->
     sys_fstat (world s) (br_fd c) = Ok (br_mtime_bfr c) ->
     fst (sys_unlinkat (world s) (br_fd c) (br_file c)) = Ok tt ->
     let r := bulk_rename args s0 in
     fst r = 0%Z
     /\ world (snd r) = snd (sys_unlinkat (world s) (br_fd c) (br_file c))
     /\ trace (snd r) =
        trace s ++ [Stdout "br: Nothing to do" [];
                    Unlinkat (br_fd c) (br_file c)]
     /\ exists evs, trace (snd r) = trace s0 ++ evs
                     /\ Forall no_rename evs)
  /\ (forall s1 s2 st0 st c,
        bulk_remove_open s1 s2 st0 = (inr c, st) ->
        mtime_now c st = rr_old_t c ->
        let r := bulk_remove s1 s2 st0 in
        fst r = 0%Z
        /\ world (snd r) =
           snd (sys_unlinkat (world st) (rr_fd c) (rr_tmp_file c))
        /\ trace (snd r) =
           trace st ++ [Stdout "rr: Nothing to do" [];
                        Unlinkat (rr_fd c) (rr_tmp_file c)]
        /\ exists evs, trace (snd r) = trace st0 ++ evs
                        /\ Forall no_removal evs).
Proof.
  split.
  - intros args s0 s c Hopen Hstat Hunlink r.
    destruct (rename_unchanged args s0 s c Hopen Hstat)
      as (H1 & H2 & H3 & H4).
    fold r in H1, H2, H3, H4; rewrite Hunlink in H1, H3; simpl in H3.
    repeat split; assumption.
  - intros s1 s2 st0 st c Hopen Hmt; now apply remove_unchanged.
Qed.

(** * Further properties *)

(** ** The rename document read back *)

Lemma header_is_skipped :
  Forall (fun l => br_skip l = true)
         (fgets_lines PATH_MAX BULK_RENAME_TMP_FILE_HEADER).
Proof. vm_compute; repeat constructor. Qed.

Lemma header_line_start : line_start BULK_RENAME_TMP_FILE_HEADER.
Proof.
  right; eexists; unfold BULK_RENAME_TMP_FILE_HEADER.
  rewrite !app_assoc.
  change [NL; NL] with ([NL] ++ [NL]); rewrite app_assoc; reflexivity.
Qed.

Lemma name_line_plain (name : bytes) :
  rename_plain name ->
  name_line name = name ++ [NL]
  /\ br_skip (name ++ [NL]) = false
  /\ chomp (name ++ [NL]) = name.
Proof.
  intros (Hne & Hnul & Hnl & Hhash & _).
  assert (~ In NUL (name ++ [NL])) as Hnul'.
  { intros Hin; apply in_app_or in Hin as [Hin|[Hin|[]]];
      [tauto|discriminate Hin]. }
  split; [unfold name_line; now rewrite (cstr_id name Hnul)|split].
  - destruct name as [|c name]; [congruence|]; simpl in *.
    rewrite !orb_false_iff; repeat split; apply Ascii.eqb_neq;
      try assumption; intros ->; [apply Hnul|apply Hnl]; now left.
  - unfold chomp; rewrite (cstr_id _ Hnul'), last_snoc, Ascii.eqb_refl.
    apply removelast_snoc.
Qed.

(** The records [fgets] delivers for the lines of plain names. *)
Lemma fgets_lines_names (lines : list bytes) :
  Forall rename_plain lines ->
  fgets_lines PATH_MAX (concat (map name_line lines)) =
  map (fun n => n ++ [NL]) lines.
Proof.
  induction 1 as [|n lines Hn _ IH]; [reflexivity|].
  destruct (name_line_plain n Hn) as (E & _ & _).
  destruct Hn as (_ & _ & Hnl & _ & Hlen).
  simpl; rewrite E, <- app_assoc; simpl.
  rewrite fgets_lines_line, IH; [reflexivity|assumption|lia].
Qed.

Lemma fgets_lines_rename_document (lines : list bytes) :
  Forall rename_plain lines ->
  fgets_lines PATH_MAX (rename_document lines) =
  fgets_lines PATH_MAX BULK_RENAME_TMP_FILE_HEADER
  ++ map (fun n => n ++ [NL]) lines.
Proof.
  intros H; unfold rename_document.
  rewrite fgets_lines_join;
    [|apply PATH_MAX_ge|apply header_line_start].
  now rewrite fgets_lines_names.
Qed.

Lemma change_list_skipped (args : list bytes) (i : nat)
  (l1 l2 : list bytes) :
  Forall (fun l => br_skip l = true) l1 ->
  change_list args i (l1 ++ l2) = change_list args i l2.
Proof.
  induction 1 as [|l l1 Hl _ IH]; [reflexivity|].
  simpl; now rewrite Hl.
Qed.

Lemma change_list_past_the_end (args : list bytes) (lines : list bytes) :
  forall i, length args <= i -> change_list args i lines = [].
Proof.
  induction lines as [|l lines IH]; intros i Hi; [reflexivity|].
  simpl; destruct (br_skip l); [now apply IH|].
  assert (nth_error args i = None) as -> by now apply nth_error_None.
  apply IH; lia.
Qed.

(** On the lines of plain names the change list pairs the arguments from
    [args[i]] on with the lines, position by position, and keeps the
    pairs that differ. *)
Lemma change_list_names (args : list bytes) (lines : list bytes) :
  Forall rename_plain lines ->
  forall i,
    change_list args i (map (fun n => n ++ [NL]) lines) =
    edited_pairs (skipn i args) lines.
Proof.
  induction 1 as [|n lines Hn _ IH]; intros i.
  - unfold edited_pairs; now destruct (skipn i args).
  - destruct (name_line_plain n Hn) as (_ & Hskip & Hchomp).
    cbn [map change_list]; rewrite Hskip, Hchomp, IH.
    destruct (nth_error args i) as [a|] eqn:E.
    + apply nth_error_split in E as (l1 & l2 & -> & <-).
      replace (skipn (length l1) (l1 ++ a :: l2)) with (a :: l2)
        by (now rewrite skipn_app, skipn_all, Nat.sub_diag).
      replace (skipn (S (length l1)) (l1 ++ a :: l2)) with l2.
      * unfold edited_pairs; cbn [combine filter fst snd].
        destruct (streq a n); reflexivity.
      * rewrite skipn_app, skipn_all2 by lia.
        replace (S (length l1) - length l1) with 1 by lia; reflexivity.
    + apply nth_error_None in E.
      rewrite !skipn_all2 by lia; reflexivity.
Qed.

Lemma total_modified_names (l1 : list bytes) (lines : list bytes) :
  Forall (fun l => br_skip l = true) l1 ->
  Forall rename_plain lines ->
  fold_left (fun n line => if br_skip line then n else S n)
            (l1 ++ map (fun n => n ++ [NL]) lines) 0 = length lines.
Proof.
  intros H1 H2; rewrite fold_left_app.
  assert (fold_left (fun n line => if br_skip line then n else S n) l1 0 = 0)
    as ->.
  { induction H1 as [|l l1 Hl _ IH]; [reflexivity|]. simpl; now rewrite Hl. }
  assert (forall k,
            fold_left (fun n line => if br_skip line then n else S n)
                      (map (fun n => n ++ [NL]) lines) k = k + length lines)
    as H; [|apply (H 0)].
  induction H2 as [|n lines Hn _ IH]; intros k; [simpl; lia|].
  destruct (name_line_plain n Hn) as (_ & Hskip & _).
  cbn [map fold_left length]; rewrite Hskip, IH; lia.
Qed.

Lemma edited_pairs_same (names : list bytes) : edited_pairs names names = [].
Proof.
  unfold edited_pairs; induction names as [|n names IH]; [reflexivity|].
  cbn [combine filter fst snd]; unfold streq; now rewrite bytes_eqb_refl.
Qed.

Section RenameDocument.

Context {os : OS}.

(** The calls of [renameat] of [rename_bulk_files]: the pairs of the
    change list, the new path trimmed. *)
Lemma rename_bulk_files_renames (args : list bytes) (fp : bytes)
  (is_cwd : Z) (renamed modified : nat) (s : state) :
  renames_of
    (trace (snd (rename_bulk_files args fp is_cwd renamed modified s))) =
  renames_of (trace s)
  ++ map (fun ch => (fst ch, trim_slash (snd ch)))
         (change_list args 1 (fgets_lines PATH_MAX fp)).
Proof.
  destruct (rename_bulk_files_spec args fp is_cwd renamed modified s)
    as (is_cwd' & ->); cbn [snd].
  apply rename_each_renames.
Qed.

(** The rename document, read back by the loops of the rename flow. For
    a document that holds, after the header, the lines of plain names
    ([rename_plain]): [check_line_mismatch] counts one line a name; and
    [rename_bulk_files], given the vector [a0 :: names], calls [renameat]
    for exactly the positions where the name and the line differ as
    strings, from the name to the line (a trailing slash trimmed), in the
    order of the lines. A document that holds the names themselves makes
    it rename nothing. *)
Theorem rename_document_read_back (a0 : bytes) (names lines : list bytes) :
  Forall rename_plain lines ->
  total_modified (rename_document lines) = length lines
  /\ (forall is_cwd renamed modified s,
        renames_of
          (trace (snd (rename_bulk_files (a0 :: names) (rename_document lines)
                                         is_cwd renamed modified s))) =
        renames_of (trace s)
        ++ map (fun p => (fst p, trim_slash (snd p)))
               (edited_pairs names lines))
  /\ (lines = names ->
      forall is_cwd renamed modified s,
        renames_of
          (trace (snd (rename_bulk_files (a0 :: names) (rename_document lines)
                                         is_cwd renamed modified s))) =
        renames_of (trace s)).
Proof.
  intros Hplain.
  assert (change_list (a0 :: names) 1
            (fgets_lines PATH_MAX (rename_document lines)) =
          edited_pairs names lines) as Hch.
  { rewrite fgets_lines_rename_document by assumption.
    rewrite change_list_skipped by apply header_is_skipped.
    now rewrite change_list_names. }
  split; [|split].
  - unfold total_modified.
    rewrite fgets_lines_rename_document by assumption.
    apply total_modified_names; [apply header_is_skipped|assumption].
  - intros; now rewrite rename_bulk_files_renames, Hch.
  - intros -> is_cwd renamed modified s.
    rewrite rename_bulk_files_renames, Hch, edited_pairs_same.
    apply app_nil_r.
Qed.

End RenameDocument.

(** ** The summary, the confirmation and the report of the rename flow *)

Section Preview.

Context {os : OS}.

(** The loop of [count_modified_names] prints a line for each pair of the
    change list and counts them; it changes nothing else. *)
Lemma count_loop (args : list bytes) (lines : list bytes) :
  forall (i m : nat) (s : state),
  exists i',
    foldM (count_modified_round args) lines (i, m) s =
    ((i', m + length (change_list args i lines)),
     mkState (world s) (errno s)
             (trace s ++ preview_of (change_list args i lines))).
Proof.
  induction lines as [|line rest IH]; intros i m s.
  - exists i; destruct s; simpl; unfold ret.
    now rewrite app_nil_r, Nat.add_0_r.
  - cbn [foldM change_list]; unfold bind; unfold count_modified_round at 1.
    destruct (br_skip line); [apply IH|].
    destruct (nth_error args i) as [a|].
    + destruct (streq a (chomp line)); cbn [negb].
      * apply IH.
      * unfold bind, emit, ret.
        match goal with
        | |- context [foldM _ rest _ ?s1] =>
            destruct (IH (S i) (S m) s1) as (i' & ->)
        end.
        exists i'; cbn [world errno trace length preview_of map fst snd].
        rewrite <- app_assoc; simpl; do 2 f_equal; lia.
    + apply IH.
Qed.

(** The summary agrees with the renames. [count_modified_names] prints
    one line for each pair of an argument and the line at its position
    that differ as strings, in the order of the lines, returns their
    number, prints "br: Nothing to do" when there is none, and changes
    nothing else; [rename_bulk_files], on the same vector and the same
    document, calls [renameat] for exactly those pairs, in that order,
    the new path with its trailing slash trimmed. *)
Theorem preview_agrees_with_the_renames (args : list bytes) (fp : bytes)
  (s : state) :
  let changes := change_list args 1 (fgets_lines PATH_MAX fp) in
  count_modified_names args fp s =
  (length changes,
   mkState (world s) (errno s)
           (trace s ++ preview_of changes
            ++ match changes with
               | [] => [Stdout "br: Nothing to do" []]
               | _ => []
               end))
  /\ (forall is_cwd renamed modified s',
        renames_of
          (trace (snd (rename_bulk_files args fp is_cwd renamed modified
                                         s'))) =
        renames_of (trace s')
        ++ map (fun ch => (fst ch, trim_slash (snd ch))) changes).
Proof.
  intros changes; split; [|intros; apply rename_bulk_files_renames].
  unfold count_modified_names, bind.
  destruct (count_loop args (fgets_lines PATH_MAX fp) 1 0 s) as (i' & ->).
  fold changes; cbn [snd Nat.add].
  destruct changes as [|ch changes]; cbn [length Nat.eqb].
  - unfold puts, emit, ret; cbn [world errno trace preview_of map].
    now rewrite app_nil_r.
  - unfold ret; now rewrite app_nil_r.
Qed.

Lemma count_modified_names_value (args : list bytes) (fp : bytes)
  (s : state) :
  fst (count_modified_names args fp s) =
  length (change_list args 1 (fgets_lines PATH_MAX fp)).
Proof.
  unfold count_modified_names, bind.
  destruct (count_loop args (fgets_lines PATH_MAX fp) 1 0 s) as (i' & ->).
  cbn [snd Nat.add].
  destruct (change_list args 1 (fgets_lines PATH_MAX fp)); reflexivity.
Qed.

Lemma count_renamed_le (codes : list Z) : count_renamed codes <= length codes.
Proof. apply filter_length_le. Qed.

(** The prompt answered with "no": the document is unlinked and nothing
    is renamed. When the user answers 0 to "Continue? [y/n] ",
    [bulk_rename] calls [unlinkat] on the document and returns: the run
    holds no call of [renameat] and no launched command, and the status
    is 0, or the error number of the [unlinkat] if that fails. *)
Theorem declined_renames_nothing (args : list bytes) (s0 s s1 : state)
  (c : rename_ctx) (mtime : Z) (modified : nat) :
  bulk_rename_open args s0 = (inr c, s) ->
  sys_fstat (world s) (br_fd c) = Ok mtime ->
  mtime <> br_mtime_bfr c ->
  total_modified (br_fp c) = br_total_input c ->
  summary_and_prompt c s = ((modified, 0%Z), s1) ->
  let u := sys_unlinkat (world s1) (br_fd c) (br_file c) in
  let r := bulk_rename args s0 in
  fst r = match fst u with Ok _ => 0%Z | Err e => Z.pos e end
  /\ world (snd r) = snd u
  /\ trace (snd r) =
     trace s1 ++ Unlinkat (br_fd c) (br_file c)
              :: unlink_diag (fst u) "br: unlinkat: '%s': %s\n" (br_file c)
  /\ exists evs, trace (snd r) = trace s0 ++ evs /\ Forall no_rename evs.
Proof.
  intros Hopen Hstat Hmt Hcount Hsum u r.
  destruct (emits_bulk_rename_open args s0) as (evs0 & Hevs0 & F0).
  rewrite Hopen in Hevs0; cbn [snd] in Hevs0.
  destruct (emits_summary_and_prompt c s) as (evs1 & Hevs1 & F1).
  rewrite Hsum in Hevs1; cbn [snd] in Hevs1.
  subst r; rewrite (bulk_rename_unfold args s0 s c Hopen).
  unfold bulk_rename_apply, bind.
  rewrite (query_ok _ _ _ s Hstat).
  replace (br_mtime_bfr c =? mtime)%Z with false
    by (symmetry; apply Z.eqb_neq; congruence).
  rewrite check_line_mismatch_run, Hcount, Nat.eqb_refl.
  cbn [negb Z.eqb EXIT_SUCCESS].
  unfold summary_and_prompt, bind, ret in Hsum.
  destruct (count_modified_names (br_args c) (br_fp c) s) as [m sa].
  destruct (call (Ask "Continue? [y/n] ")
                 (fun w => rl_get_y_or_n w "Continue? [y/n] ") sa)
    as [y sb].
  injection Hsum as -> -> ->; cbn [Z.eqb].
  rewrite bulk_rename_ERROR_run; cbn [fst snd world trace]; fold u.
  repeat split.
  rewrite Hevs1, Hevs0, <- !app_assoc; eexists; split; [reflexivity|].
  apply Forall_app; split; [exact F0|].
  apply Forall_app; split; [exact F1|].
  destruct (fst u); repeat constructor.
Qed.


(** The report of a confirmed batch. After the renames [bulk_rename]
    unlinks the document and ends with the message "%zu file(s) renamed"
    for the number of calls of [rename_file] that returned 0; that number
    is at most the number the summary announced; and the listing is
    reloaded only when it is positive and [conf.autols] is 1. *)
Theorem report_counts_the_successes (args : list bytes) (s0 s s1 : state)
  (c : rename_ctx) (mtime : Z) (modified : nat) (yes : Z) :
  bulk_rename_open args s0 = (inr c, s) ->
  sys_fstat (world s) (br_fd c) = Ok mtime ->
  mtime <> br_mtime_bfr c ->
  total_modified (br_fp c) = br_total_input c ->
  summary_and_prompt c s = ((modified, yes), s1) ->
  yes <> 0%Z ->
  let changes := change_list (br_args c) 1 (fgets_lines PATH_MAX (br_fp c)) in
  let codes := fst (rename_each modified changes s1) in
  let s2 := snd (rename_each modified changes s1) in
  exists evs,
    trace (snd (bulk_rename args s0)) =
    trace s2 ++ Unlinkat (br_fd c) (br_file c) :: evs
    ++ [ReloadMsg "%zu file(s) renamed\n" (count_renamed codes)]
    /\ count_renamed codes <= modified
    /\ (In ReloadDirlist evs ->
        0 < count_renamed codes /\ conf_autols = 1%Z)
    /\ Forall (fun e => e = ReloadDirlist \/ e = GetSelFiles
                        \/ e = Stderr "br: unlink: '%s': %s\n" [br_file c])
              evs.
Proof.
  intros Hopen Hstat Hmt Hcount Hsum Hyes changes codes s2.
  assert (modified = length changes) as Hmod.
  { pose proof (count_modified_names_value (br_args c) (br_fp c) s) as Hv.
    unfold summary_and_prompt, bind, ret in Hsum.
    destruct (count_modified_names (br_args c) (br_fp c) s) as [m sa].
    destruct (call (Ask "Continue? [y/n] ")
                   (fun w => rl_get_y_or_n w "Continue? [y/n] ") sa)
      as [y sb].
    injection Hsum as -> _ _; exact Hv. }
  assert (count_renamed codes <= modified) as Hle.
  { rewrite Hmod; etransitivity; [apply count_renamed_le|].
    apply Nat.eq_le_incl, rename_each_renames. }
  rewrite (bulk_rename_unfold args s0 s c Hopen).
  unfold bulk_rename_apply, bind.
  rewrite (query_ok _ _ _ s Hstat).
  replace (br_mtime_bfr c =? mtime)%Z with false
    by (symmetry; apply Z.eqb_neq; congruence).
  rewrite check_line_mismatch_run, Hcount, Nat.eqb_refl.
  cbn [negb Z.eqb EXIT_SUCCESS].
  unfold summary_and_prompt, bind, ret in Hsum.
  destruct (count_modified_names (br_args c) (br_fp c) s) as [m sa].
  destruct (call (Ask "Continue? [y/n] ")
                 (fun w => rl_get_y_or_n w "Continue? [y/n] ") sa)
    as [y sb].
  injection Hsum as -> -> ->.
  replace (yes =? 0)%Z with false by (symmetry; now apply Z.eqb_neq).
  destruct (rename_bulk_files_spec (br_args c) (br_fp c) 0%Z 0 modified s1)
    as (is_cwd' & Hrun).
  rewrite Hrun; fold changes codes s2; cbn [Nat.add].
  clear Hrun; clearbody s2 codes; unfold sys.
  destruct (sys_unlinkat (world s2) (br_fd c) (br_file c)) as [[u'|e] w].
  all: unfold get_errno, xerror, emit, ret, peek; cbn [errno world trace].
  all: destruct ((0 <? sel_n)%Z && have_sel_files w); cbn [when].
  all: unfold call, ret; cbn [fst snd errno world trace].
  all: destruct ((0 <? count_renamed codes) && (is_cwd' =? 1)%Z
              && (conf_autols =? 1)%Z) eqn:Ereload; cbn [when].
  all: unfold call, ret; cbn [fst snd errno world trace].
  all: rewrite <- ?app_assoc; cbn [app].
  all: match goal with
       | |- exists evs, _ ++ (_ :: ?l) = _ /\ _ =>
           let pre := eval cbn [removelast] in (removelast l) in
           exists pre
       end.
  all: split; [reflexivity|].
  all: split; [exact Hle|].
  all: split; [|repeat first [apply Forall_nil | apply Forall_cons]; auto].
  all: cbn [In]; intros Hin.
  all: try (apply andb_true_iff in Ereload as [Ereload Eauto];
            apply andb_true_iff in Ereload as [Epos _];
            split; [now apply Nat.ltb_lt|now apply Z.eqb_eq]).
  all: exfalso; repeat (destruct Hin as [Hin|Hin]; [discriminate Hin|]);
         exact Hin.
Qed.

End Preview.

(** ** The temporary document is unlinked on every path *)

Lemma unlinks_of_app (t1 t2 : list event) :
  unlinks_of (t1 ++ t2) = unlinks_of t1 ++ unlinks_of t2.
Proof. apply flat_map_app. Qed.

Lemma no_unlink_unlinks_of (evs : list event) :
  Forall no_unlink evs -> unlinks_of evs = [].
Proof.
  induction 1 as [|e evs He _ IH]; [reflexivity|].
  unfold unlinks_of in *; simpl; rewrite IH.
  destruct e; simpl in *; tauto.
Qed.

Section CleanUp.

Context {os : OS}.

(** A computation that unlinks nothing leaves the list of the unlinked
    paths as it is. *)
Lemma quiet_unlinks (A : Type) (m : M A) (s : state) :
  emits no_unlink m ->
  unlinks_of (trace (snd (m s))) = unlinks_of (trace s).
Proof.
  intros H; destruct (H s) as (evs & -> & F).
  now rewrite unlinks_of_app, (no_unlink_unlinks_of evs F), app_nil_r.
Qed.

Lemma quiet_write_renfiles_loop (fd : Z) (rest : list bytes) :
  forall attr total, emits no_unlink (write_renfiles_loop fd attr total rest).
Proof.
  induction rest as [|arg rest IH]; intros attr total; simpl; emits_auto.
  - unfold write_renfile; emits_auto.
  - apply IH.
Qed.

Lemma quiet_count_modified_names (args : list bytes) (fp : bytes) :
  emits no_unlink (count_modified_names args fp).
Proof.
  unfold count_modified_names; emits_auto.
  unfold count_modified_round; emits_auto.
Qed.

Lemma quiet_rename_bulk_files (args : list bytes) (fp : bytes) (is_cwd : Z)
  (renamed modified : nat) :
  emits no_unlink (rename_bulk_files args fp is_cwd renamed modified).
Proof.
  unfold rename_bulk_files; emits_auto.
  unfold rename_round, rename_file; emits_auto.
Qed.

Lemma err_open_tmp_file_unlinks (file : bytes) (fd : Z) (s : state) :
  unlinks_of (trace (snd (err_open_tmp_file file fd s))) =
  unlinks_of (trace s) ++ [file]
  /\ ((0 < errno s)%Z -> (0 < fst (err_open_tmp_file file fd s))%Z).
Proof.
  unfold err_open_tmp_file, bind, xerror, emit, sys, when, get_errno, ret.
  cbn [world errno trace].
  destruct (sys_unlinkat (world s) fd file) as [[u|e] w];
    cbn [fst snd world errno trace]; rewrite !unlinks_of_app; simpl;
    rewrite ?app_nil_r; split; try reflexivity; intros; lia.
Qed.

(** [write_renfiles_to_tmp] unlinks the document exactly when it
    fails. *)
Lemma write_renfiles_to_tmp_unlinks (args : list bytes) (bulk_file : bytes)
  (fd : Z) (s : state) :
  let r := write_renfiles_to_tmp args bulk_file fd s in
  unlinks_of (trace (snd r)) =
  unlinks_of (trace s)
  ++ (if (fst (fst (fst (fst r))) =? EXIT_SUCCESS)%Z then []
      else [bulk_file]).
Proof.
  intros r.
  assert (r = write_renfiles_to_tmp args bulk_file fd s) as Er
    by reflexivity.
  clearbody r; unfold write_renfiles_to_tmp, bind, query in Er.
  destruct (sys_fdopen (world s) fd) as [u|e].
  - unfold call at 1 in Er; cbn [fst snd] in Er.
    match type of Er with
    | context [write_renfiles_loop fd 0 0 (tl args) ?s1] =>
        pose proof (quiet_unlinks _ (write_renfiles_loop fd 0 0 (tl args)) s1
                      (quiet_write_renfiles_loop fd (tl args) 0%Z 0)) as Hq;
        destruct (write_renfiles_loop fd 0 0 (tl args) s1)
          as [[[rest attr] total] s2]
    end.
    cbn [fst snd trace] in *.
    rewrite unlinks_of_app in Hq; simpl in Hq; rewrite app_nil_r in Hq.
    destruct (total =? 0).
    + unfold sys, when, xerror, emit, ret in Er.
      destruct (sys_unlinkat (world s2) fd bulk_file) as [[u'|e] w];
        subst r; cbn [fst snd trace]; rewrite !unlinks_of_app, Hq; simpl;
        rewrite ?app_nil_r; reflexivity.
    + unfold ret in Er; destruct (sys_fstat (world s2) fd); subst r;
        cbn [fst snd trace]; rewrite Hq; simpl; now rewrite app_nil_r.
  - match type of Er with
    | context [err_open_tmp_file bulk_file fd ?s1] =>
        destruct (err_open_tmp_file_unlinks bulk_file fd s1) as [Hu Hpos];
        destruct (err_open_tmp_file bulk_file fd s1) as [rc s2]
    end.
    cbn [fst snd trace errno] in *; unfold ret in Er; subst r.
    cbn [fst snd]; rewrite Hu.
    assert (0 < rc)%Z as Hrc by (apply Hpos; lia).
    destruct (rc =? EXIT_SUCCESS)%Z eqn:E; [|reflexivity].
    apply Z.eqb_eq in E; unfold EXIT_SUCCESS in E; lia.
Qed.

(** [open_bulk_file] unlinks the document exactly when the editor
    fails. *)
Lemma open_bulk_file_unlinks (bulk_file : bytes) (s : state) :
  let r := open_bulk_file bulk_file s in
  unlinks_of (trace (snd r)) =
  unlinks_of (trace s)
  ++ (if (fst r =? EXIT_SUCCESS)%Z then [] else [bulk_file]).
Proof.
  unfold open_bulk_file, bind, call, sys, when, xerror, emit, ret.
  destruct (open_file (world s) bulk_file) as [rc w]; cbn [fst snd].
  destruct (rc =? EXIT_SUCCESS)%Z eqn:E; cbn [negb world errno trace].
  - cbn [fst snd trace]; rewrite unlinks_of_app; reflexivity.
  - destruct (sys_unlink w bulk_file) as [[u|e] w'];
      cbn [fst snd trace]; rewrite E, !unlinks_of_app; simpl;
      rewrite ?app_nil_r; reflexivity.
Qed.

Lemma bulk_rename_ERROR_unlinks (c : rename_ctx) (rc : Z) (s : state) :
  unlinks_of (trace (snd (bulk_rename_ERROR c rc s))) =
  unlinks_of (trace s) ++ [br_file c].
Proof.
  rewrite bulk_rename_ERROR_run; cbn [snd trace].
  rewrite unlinks_of_app; simpl.
  destruct (fst (sys_unlinkat (world s) (br_fd c) (br_file c))); reflexivity.
Qed.

(** Whatever way the second half of [bulk_rename] takes, it unlinks the
    document once. *)
Lemma bulk_rename_apply_unlinks (c : rename_ctx) (s : state) :
  unlinks_of (trace (snd (bulk_rename_apply c s))) =
  unlinks_of (trace s) ++ [br_file c].
Proof.
  unfold bulk_rename_apply, bind, query.
  destruct (sys_fstat (world s) (br_fd c)) as [mtime|e].
  2:{ unfold xerror, emit; rewrite bulk_rename_ERROR_unlinks.
      cbn [trace]; rewrite unlinks_of_app; simpl; now rewrite app_nil_r. }
  destruct (br_mtime_bfr c =? mtime)%Z.
  { unfold puts, emit; rewrite bulk_rename_ERROR_unlinks.
    cbn [trace]; rewrite unlinks_of_app; simpl; now rewrite app_nil_r. }
  rewrite check_line_mismatch_run.
  destruct (br_total_input c =? total_modified (br_fp c));
    cbn [negb Z.eqb EXIT_SUCCESS EXIT_FAILURE].
  2:{ rewrite bulk_rename_ERROR_unlinks.
      cbn [trace]; rewrite unlinks_of_app; simpl; now rewrite app_nil_r. }
  pose proof (quiet_unlinks _ (count_modified_names (br_args c) (br_fp c)) s
                (quiet_count_modified_names _ _)) as H1.
  destruct (count_modified_names (br_args c) (br_fp c) s) as [modified sa].
  cbn [snd] in H1; unfold call at 1.
  destruct (rl_get_y_or_n (world sa) "Continue? [y/n] ") as [yes w].
  destruct (yes =? 0)%Z.
  { rewrite bulk_rename_ERROR_unlinks; cbn [trace].
    rewrite unlinks_of_app, H1; simpl; now rewrite app_nil_r. }
  match goal with
  | |- context [rename_bulk_files _ _ _ _ _ ?sb] =>
      pose proof (quiet_unlinks _
                    (rename_bulk_files (br_args c) (br_fp c) 0 0 modified) sb
                    (quiet_rename_bulk_files _ _ _ _ _)) as H2;
      destruct (rename_bulk_files (br_args c) (br_fp c) 0 0 modified sb)
        as [[[rc is_cwd] renamed] s2]
  end.
  cbn [snd trace] in H2.
  rewrite unlinks_of_app, H1 in H2; simpl in H2; rewrite app_nil_r in H2.
  unfold sys.
  destruct (sys_unlinkat (world s2) (br_fd c) (br_file c)) as [[u|e] w'];
    unfold get_errno, xerror, emit, ret, peek; cbn [errno world trace];
    repeat match goal with
           | |- context [when ?b _ _] => destruct b; cbn [when]
           end;
    unfold call, ret; cbn [fst snd errno world trace];
    rewrite ?unlinks_of_app, H2; simpl; rewrite ?app_nil_r; reflexivity.
Qed.

(** The first half: a document that was created and is not handed on to
    the second half has been unlinked. *)
Lemma bulk_rename_open_unlinks (args : list bytes) (s : state) :
  let r := bulk_rename_open args s in
  match nth_error args 1 with
  | None => unlinks_of (trace (snd r)) = unlinks_of (trace s)
            /\ exists rc, fst r = inl rc
  | Some a1 =>
      if IS_HELP a1 then unlinks_of (trace (snd r)) = unlinks_of (trace s)
                         /\ exists rc, fst r = inl rc
      else
        match fst (sys_mkstemp (world s) br_template) with
        | Err _ => unlinks_of (trace (snd r)) = unlinks_of (trace s)
                   /\ exists rc, fst r = inl rc
        | Ok (_, bulk_file) =>
            match fst r with
            | inl _ =>
                unlinks_of (trace (snd r)) = unlinks_of (trace s) ++ [bulk_file]
            | inr c =>
                unlinks_of (trace (snd r)) = unlinks_of (trace s)
                /\ br_file c = bulk_file
            end
        end
  end.
Proof.
  intros r.
  assert (r = bulk_rename_open args s) as Er by reflexivity.
  clearbody r; unfold bulk_rename_open in Er.
  destruct (nth_error args 1) as [a1|].
  2:{ subst r; unfold bind, puts, emit, ret; cbn [fst snd trace].
      rewrite unlinks_of_app; simpl; rewrite app_nil_r.
      split; [reflexivity|now eexists]. }
  destruct (IS_HELP a1).
  { subst r; unfold bind, puts, emit, ret; cbn [fst snd trace].
    rewrite unlinks_of_app; simpl; rewrite app_nil_r.
    split; [reflexivity|now eexists]. }
  fold br_template in Er; unfold bind at 1, sys at 1 in Er.
  destruct (sys_mkstemp (world s) br_template) as [[[fd bulk_file]|e] w];
    cbn [fst].
  2:{ subst r; unfold bind, xerror, emit, ret; cbn [fst snd trace].
      rewrite !unlinks_of_app; simpl; rewrite !app_nil_r.
      split; [reflexivity|now eexists]. }
  unfold bind at 1 in Er.
  match type of Er with
  | context [write_renfiles_to_tmp args bulk_file fd ?s1] =>
      pose proof (write_renfiles_to_tmp_unlinks args bulk_file fd s1) as H1;
      destruct (write_renfiles_to_tmp args bulk_file fd s1)
        as [[[[rc args'] mtime_bfr] total_input] s2]
  end.
  cbn [fst snd trace] in H1.
  rewrite unlinks_of_app in H1; simpl in H1; rewrite app_nil_r in H1.
  destruct (rc =? EXIT_SUCCESS)%Z; cbn [negb] in Er.
  2:{ subst r; unfold ret; cbn [fst snd]; exact H1. }
  rewrite app_nil_r in H1; unfold bind at 1 in Er.
  pose proof (open_bulk_file_unlinks bulk_file s2) as H2.
  destruct (open_bulk_file bulk_file s2) as [rc' s3].
  cbn [fst snd] in H2; rewrite H1 in H2.
  destruct (rc' =? EXIT_SUCCESS)%Z; cbn [negb] in Er.
  2:{ subst r; unfold ret; cbn [fst snd]; exact H2. }
  rewrite app_nil_r in H2.
  unfold bind, peek, query in Er; cbn [fst snd] in Er.
  destruct (snd (open_fread (world s3) bulk_file)) as [stream|e].
  - subst r; unfold ret; cbn [fst snd br_file]; now split.
  - match type of Er with
    | context [err_open_tmp_file bulk_file ?fd' ?s4] =>
        destruct (err_open_tmp_file_unlinks bulk_file fd' s4) as [Hu _];
        destruct (err_open_tmp_file bulk_file fd' s4) as [rc'' s5]
    end.
    cbn [fst snd trace] in *; subst r; unfold ret; cbn [fst snd].
    now rewrite Hu, H2.
Qed.

(** The temporary document of [bulk_rename] never outlives the call. A
    run that created the document (the arguments were no request for
    help and [mkstemp] succeeded) hands its path to [unlinkat] or
    [unlink] exactly once, whatever way it takes: a failure while
    writing, an editor that fails, a document that cannot be reopened,
    nothing to do, a line mismatch, the prompt declined, or the renames
    done. A run that created none unlinks nothing. *)
Theorem bulk_rename_cleans_up (args : list bytes) (s : state) :
  unlinks_of (trace (snd (bulk_rename args s))) =
  unlinks_of (trace s)
  ++ match nth_error args 1 with
     | None => []
     | Some a1 =>
         if IS_HELP a1 then []
         else match fst (sys_mkstemp (world s) br_template) with
              | Ok (_, bulk_file) => [bulk_file]
              | Err _ => []
              end
     end.
Proof.
  pose proof (bulk_rename_open_unlinks args s) as H; cbv zeta in H.
  unfold bulk_rename, bind.
  destruct (nth_error args 1) as [a1|];
    [destruct (IS_HELP a1);
     [|destruct (fst (sys_mkstemp (world s) br_template)) as [[fd bf]|e]]|];
    destruct (bulk_rename_open args s) as [[rc|c] s1]; cbn [fst snd] in H;
    try (destruct H as (_ & rc' & H); discriminate H);
    unfold ret; cbn [snd]; rewrite ?bulk_rename_apply_unlinks;
    rewrite ?app_nil_r; try tauto.
  destruct H as [-> ->]; reflexivity.
Qed.

Lemma parse_bulk_remove_params_quiet (s1 s2 : option bytes) (s : state) :
  let r := parse_bulk_remove_params s1 s2 s in
  world (snd r) = world s
  /\ unlinks_of (trace (snd r)) = unlinks_of (trace s)
  /\ (snd (fst r) = None -> fst (fst (fst r)) <> EXIT_SUCCESS).
Proof.
  unfold parse_bulk_remove_params.
  destruct s1 as [p1|]; [|repeat split; discriminate].
  destruct (no_string (Some p1)); [repeat split; discriminate|].
  unfold bind, query, peek, xerror, emit, ret.
  destruct (sys_stat (world s) p1) as [[[|] m]|e]; cbn [fst snd world trace].
  - destruct (no_string s2); [repeat split; discriminate|].
    destruct (get_cmd_path (world s) _); cbn [fst snd world trace];
      rewrite ?unlinks_of_app; simpl; rewrite ?app_nil_r;
      repeat split; discriminate.
  - destruct (get_cmd_path (world s) p1); cbn [fst snd world trace];
      rewrite ?unlinks_of_app; simpl; rewrite ?app_nil_r;
      repeat split; discriminate.
  - destruct (get_cmd_path (world s) p1); cbn [fst snd world trace];
      rewrite ?unlinks_of_app; simpl; rewrite ?app_nil_r;
      repeat split; discriminate.
Qed.

Lemma quiet_write_files_to_tmp (target : target_t) (tmp_file : bytes) :
  emits no_unlink (write_files_to_tmp target tmp_file).
Proof.
  unfold write_files_to_tmp; emits_auto;
    first [apply emits_print_files | apply emits_print_scanned];
    intros; exact I.
Qed.

Lemma quiet_open_tmp_file (tmp_file : bytes) (app : option bytes) :
  emits no_unlink (open_tmp_file tmp_file app).
Proof. unfold open_tmp_file; emits_auto. Qed.

Lemma bulk_remove_END_unlinks (tmp_file : bytes) (fd rc : Z) (s : state) :
  unlinks_of (trace (snd (bulk_remove_END tmp_file fd rc s))) =
  unlinks_of (trace s) ++ [tmp_file].
Proof.
  unfold bulk_remove_END, bind, sys, when, xerror, emit, ret.
  destruct (sys_unlinkat (world s) fd tmp_file) as [[u|e] w];
    cbn [fst snd trace]; rewrite !unlinks_of_app; simpl;
    rewrite ?app_nil_r; reflexivity.
Qed.

(** Whatever way the second half of [bulk_remove] takes, it unlinks the
    document once. *)
Lemma bulk_remove_apply_unlinks (c : remove_ctx) (s : state) :
  unlinks_of (trace (snd (bulk_remove_apply c s))) =
  unlinks_of (trace s) ++ [rr_tmp_file c].
Proof.
  unfold bulk_remove_apply, bind.
  destruct (stat_run c s) as (s' & -> & _ & Ht & _).
  match goal with
  | |- context [(rr_old_t c =? ?m)%Z] => destruct (rr_old_t c =? m)%Z
  end.
  { unfold ret at 1; cbn [orb]; rewrite nothing_to_do_run; cbn [snd trace].
    rewrite unlinks_of_app, Ht; reflexivity. }
  unfold diff_files, bind, query, xerror, emit, ret.
  destruct (sys_fopen_r (world s') (rr_tmp_file c)) as [stream|e] eqn:Ef;
    cbn [orb Z.eqb].
  - destruct (diff_count stream <? rr_num c)%Z; cbn [Z.eqb].
    + unfold get_files_from_tmp_file, bind, query, ret; rewrite Ef.
      unfold call.
      destruct (remove_files (world s') _) as [rc w].
      rewrite bulk_remove_END_unlinks; cbn [trace].
      rewrite unlinks_of_app, Ht; simpl; now rewrite app_nil_r.
    + rewrite nothing_to_do_run; cbn [snd trace].
      rewrite unlinks_of_app, Ht; reflexivity.
  - rewrite nothing_to_do_run; cbn [snd trace world].
    rewrite !unlinks_of_app, Ht; simpl; now rewrite app_nil_r.
Qed.

Lemma bulk_remove_open_unlinks (s1 s2 : option bytes) (s : state) :
  let r := bulk_remove_open s1 s2 s in
  if match s1 with Some p1 => IS_HELP p1 | None => false end then
    unlinks_of (trace (snd r)) = unlinks_of (trace s)
    /\ exists rc, fst r = inl rc
  else if negb (fst (fst (fst (parse_bulk_remove_params s1 s2 s)))
                =? EXIT_SUCCESS)%Z then
    unlinks_of (trace (snd r)) = unlinks_of (trace s)
    /\ exists rc, fst r = inl rc
  else
    match fst (sys_mkstemp (world s) rr_template) with
    | Err _ => unlinks_of (trace (snd r)) = unlinks_of (trace s)
               /\ exists rc, fst r = inl rc
    | Ok (_, tmp_file) =>
        match fst r with
        | inl _ =>
            unlinks_of (trace (snd r)) = unlinks_of (trace s) ++ [tmp_file]
        | inr c =>
            unlinks_of (trace (snd r)) = unlinks_of (trace s)
            /\ rr_tmp_file c = tmp_file
        end
    end.
Proof.
  intros r.
  assert (r = bulk_remove_open s1 s2 s) as Er by reflexivity.
  clearbody r; unfold bulk_remove_open in Er.
  destruct (match s1 with Some p1 => IS_HELP p1 | None => false end).
  { subst r; unfold bind, puts, emit, ret; cbn [fst snd trace].
    rewrite unlinks_of_app; simpl; rewrite app_nil_r.
    split; [reflexivity|now eexists]. }
  unfold bind at 1 in Er.
  destruct (parse_bulk_remove_params_quiet s1 s2 s) as (Hw & Hu & Hnone).
  destruct (parse_bulk_remove_params s1 s2 s) as [[[rc app] target] sp].
  cbn [fst snd] in *.
  destruct target as [target|].
  2:{ assert ((rc =? EXIT_SUCCESS)%Z = false) as ->
        by (apply Z.eqb_neq; now apply Hnone).
      subst r; unfold ret; cbn [negb fst snd].
      split; [exact Hu|now eexists]. }
  destruct (rc =? EXIT_SUCCESS)%Z; cbn [negb] in *.
  2:{ subst r; unfold ret; cbn [fst snd]; split; [exact Hu|now eexists]. }
  unfold bind at 1, create_tmp_file at 1, bind at 1 in Er.
  fold rr_template in Er; unfold bind at 1, sys at 1 in Er.
  cbn [world errno trace] in Er; rewrite Hw in Er.
  destruct (sys_mkstemp (world s) rr_template) as [[[fd tmp_file]|e] w];
    cbn [fst].
  2:{ subst r; unfold bind, xerror, emit, ret.
      cbn [fst snd trace negb Z.eqb EXIT_FAILURE EXIT_SUCCESS].
      rewrite !unlinks_of_app, Hu; simpl; rewrite !app_nil_r.
      split; [reflexivity|now eexists]. }
  unfold ret at 1 in Er; cbn [negb Z.eqb EXIT_SUCCESS] in Er.
  unfold bind at 1 in Er.
  match type of Er with
  | context [write_files_to_tmp target tmp_file ?t1] =>
      pose proof (quiet_unlinks _ (write_files_to_tmp target tmp_file) t1
                    (quiet_write_files_to_tmp target tmp_file)) as H1;
      destruct (write_files_to_tmp target tmp_file t1) as [[rc2 a] t2]
  end.
  cbn [snd trace] in H1.
  rewrite unlinks_of_app in H1; simpl in H1; rewrite app_nil_r, Hu in H1.
  destruct (rc2 =? EXIT_SUCCESS)%Z; cbn [negb] in Er.
  2:{ unfold bind in Er.
      pose proof (bulk_remove_END_unlinks tmp_file fd rc2 t2) as H2.
      destruct (bulk_remove_END tmp_file fd rc2 t2) as [rc' t3].
      subst r; unfold ret; cbn [fst snd] in *; now rewrite H2, H1. }
  unfold bind at 1 in Er.
  match type of Er with
  | context [query ?f t2] =>
      pose proof (quiet_unlinks _ (query f) t2 (emits_query no_unlink _ f))
        as H2;
      destruct (query f t2) as [st t3]
  end.
  cbn [snd] in H2; unfold bind at 1 in Er.
  pose proof (quiet_unlinks _ (open_tmp_file tmp_file app) t3
                (quiet_open_tmp_file tmp_file app)) as H3.
  destruct (open_tmp_file tmp_file app t3) as [rc3 t4]; cbn [snd] in H3.
  destruct (rc3 =? EXIT_SUCCESS)%Z; cbn [negb] in Er.
  - subst r; unfold ret; cbn [fst snd rr_tmp_file].
    split; [now rewrite H3, H2, H1|reflexivity].
  - unfold bind in Er.
    pose proof (bulk_remove_END_unlinks tmp_file fd rc3 t4) as H4.
    destruct (bulk_remove_END tmp_file fd rc3 t4) as [rc' t5].
    subst r; unfold ret; cbn [fst snd] in *; now rewrite H4, H3, H2, H1.
Qed.

(** The temporary document of [bulk_remove] never outlives the call. A
    run that created the document (no request for help, parameters
    accepted by [parse_bulk_remove_params], [mkstemp] succeeded) hands
    its path to [unlinkat] exactly once, whatever way it takes: a
    failure while writing, an editor that fails, nothing to do, or the
    removal done. A run that created none unlinks nothing. *)
Theorem bulk_remove_cleans_up (s1 s2 : option bytes) (s : state) :
  unlinks_of (trace (snd (bulk_remove s1 s2 s))) =
  unlinks_of (trace s)
  ++ (if match s1 with Some p1 => IS_HELP p1 | None => false end then []
      else if negb (fst (fst (fst (parse_bulk_remove_params s1 s2 s)))
                    =? EXIT_SUCCESS)%Z then []
      else match fst (sys_mkstemp (world s) rr_template) with
           | Ok (_, tmp_file) => [tmp_file]
           | Err _ => []
           end).
Proof.
  pose proof (bulk_remove_open_unlinks s1 s2 s) as H; cbv zeta in H.
  unfold bulk_remove, bind.
  destruct (match s1 with Some p1 => IS_HELP p1 | None => false end);
    [|destruct (negb (fst (fst (fst (parse_bulk_remove_params s1 s2 s)))
                      =? EXIT_SUCCESS)%Z);
      [|destruct (fst (sys_mkstemp (world s) rr_template))
          as [[fd tf]|e]]];
    destruct (bulk_remove_open s1 s2 s) as [[rc|c] st]; cbn [fst snd] in H;
    try (destruct H as (_ & rc' & H); discriminate H);
    unfold ret; cbn [snd]; rewrite ?bulk_remove_apply_unlinks;
    rewrite ?app_nil_r; try tauto.
  destruct H as [-> ->]; reflexivity.
Qed.

End CleanUp.

(** ** The remove document, written and read back *)

Lemma rm_header_is_skipped :
  Forall (fun l => rr_skip l = true)
         (fgets_lines (PATH_MAX + 6) BULK_RM_TMP_FILE_HEADER).
Proof. vm_compute; repeat constructor. Qed.

Lemma rm_header_line_start : line_start BULK_RM_TMP_FILE_HEADER.
Proof.
  right; eexists; unfold BULK_RM_TMP_FILE_HEADER.
  rewrite !app_assoc.
  change [NL; NL] with ([NL] ++ [NL]); rewrite app_assoc; reflexivity.
Qed.

Lemma NoDup_map_inj (A B : Type) (f : A -> B) (l : list A) (x y : A) :
  NoDup (map f l) -> In x l -> In y l -> f x = f y -> x = y.
Proof.
  induction l as [|a l IH]; intros Hnd Hx Hy E; [destruct Hx|].
  simpl in Hnd; apply NoDup_cons_iff in Hnd as [Hna Hnd].
  destruct Hx as [->|Hx], Hy as [->|Hy].
  - reflexivity.
  - exfalso; apply Hna; rewrite E; now apply in_map.
  - exfalso; apply Hna; rewrite <- E; now apply in_map.
  - now apply IH.
Qed.

Section RemoveRoundTrip.

Context {os : OS}.





Lemma print_file_text_length (name : bytes) (type : dtype) :
  length (print_file_text name type) <= length name + 2.
Proof.
  assert (length (cstr name) <= length name) as H.
  { induction name as [|c name IH]; simpl; [lia|].
    destruct (Ascii.eqb c NUL); simpl; lia. }
  unfold print_file_text.
  destruct (negb (Ascii.eqb (get_file_suffix type) NUL));
    rewrite length_app; simpl; lia.
Qed.

(** [diff_files] counts one line for each entry of a document whose
    names are plain and fit its buffer. *)
Lemma diff_count_entries (entries : list dirent) :
  Forall (fun e => plain_name (d_name e) /\ stripped_kind (d_type e)
                   /\ fits_diff_buffer (d_name e)) entries ->
  diff_count (remove_document entries) = Z.of_nat (length entries).
Proof.
  intros H; rewrite diff_count_kept; f_equal.
  unfold remove_document.
  assert (2 <= PATH_MAX + 6) as Hsize by (pose proof PATH_MAX_ge; lia).
  rewrite fgets_lines_join; [|exact Hsize|apply rm_header_line_start].
  rewrite kept_app.
  assert (kept (fgets_lines (PATH_MAX + 6) BULK_RM_TMP_FILE_HEADER) = 0)
    as ->.
  { unfold kept.
    induction rm_header_is_skipped as [|l ls Hl _ IH]; [reflexivity|].
    simpl; now rewrite Hl. }
  induction H as [|e entries (Hname & Hkind & Hfit) _ IH]; [reflexivity|].
  destruct (print_file_text_line _ _ Hname Hkind)
    as (l & E & Hnl & Hskip & _).
  pose proof (print_file_text_length (d_name e) (d_type e)) as Hlen.
  rewrite E, length_app in Hlen; simpl in Hlen.
  unfold fits_diff_buffer in Hfit.
  cbn [map concat]; rewrite E, <- app_assoc; cbn [app].
  rewrite fgets_lines_line by (assumption || lia).
  unfold kept in *; cbn [filter]; rewrite Hskip; cbn [negb length].
  cbn [Nat.add] in IH |- *; now rewrite IH.
Qed.

(** Taking lines out of the remove document removes the entries of those
    lines, and no other. For entries with plain names ([plain_name]), of
    the kinds whose suffix is read back, and no two of the same name:
    when the edited document holds the header and the lines of the
    entries kept, as [write_files_to_tmp] wrote them,
    [get_files_from_tmp_file] and [get_remove_files] yield "rr" followed
    by the paths of exactly the entries whose lines are gone, in the
    order of the listing, "." and ".." left out. [diff_files] counts the
    lines kept, so with names that fit its buffer the removal is reached
    exactly when fewer lines are kept than [num]. *)
Theorem deleting_lines_removes_those_entries (target : target_t)
  (a : list dirent) (keep : dirent -> bool) :
  let entries := entries_of target a in
  Forall (fun e => plain_name (d_name e) /\ stripped_kind (d_type e))
         entries ->
  NoDup (map d_name entries) ->
  get_remove_files target
    (read_names (remove_document (filter keep entries))) a =
  str "rr"
  :: map (fun e => removal_path target (d_name e))
         (filter (fun e => negb (keep e) && negb (SELFORPARENT (d_name e)))
                 entries)
  /\ (Forall (fun e => fits_diff_buffer (d_name e)) entries ->
      diff_count (remove_document (filter keep entries)) =
      Z.of_nat (length (filter keep entries))).
Proof.
  intros entries Hplain Hnd.
  assert (Forall (fun e => plain_name (d_name e) /\ stripped_kind (d_type e))
                 (filter keep entries)) as Hkept.
  { apply Forall_forall; intros e He; apply filter_In in He as [He _].
    rewrite Forall_forall in Hplain; now apply Hplain. }
  split.
  - rewrite get_remove_files_eq; fold entries; f_equal; f_equal.
    unfold remove_document.
    rewrite read_names_header, (read_names_entries _ Hkept).
    apply filter_ext_in; intros e He.
    unfold remove_this_file.
    destruct (SELFORPARENT (d_name e)); [now rewrite andb_false_r|].
    rewrite andb_true_r.
    match goal with
    | |- context [existsb ?f ?l] => destruct (existsb f l) eqn:Ex
    end.
    + apply found_on_a_line in Ex as (x & Hx & Hcstr).
      apply in_map_iff in Hx as (e' & <- & He').
      apply filter_In in He' as [He' Hk].
      rewrite Forall_forall in Hplain.
      destruct (Hplain e He) as [(_ & Hn1 & _) _].
      destruct (Hplain e' He') as [(_ & Hn2 & _) _].
      rewrite (cstr_id _ Hn1), (cstr_id _ Hn2) in Hcstr.
      assert (e' = e) as -> by (apply (NoDup_map_inj _ _ d_name entries);
                                assumption).
      now rewrite Hk.
    + destruct (keep e) eqn:Hk; [|reflexivity].
      assert (existsb (fun x => Ascii.eqb (hd NUL (d_name e)) (hd NUL x)
                                && streq (d_name e) x)
                      (map d_name (filter keep entries)) = true) as Habs;
        [|congruence].
      apply found_on_a_line; exists (d_name e); split; [|reflexivity].
      apply in_map, filter_In; now split.
  - intros Hfit; apply diff_count_entries.
    apply Forall_forall; intros e He; apply filter_In in He as [He _].
    rewrite Forall_forall in Hplain, Hfit.
    destruct (Hplain e He) as [H1 H2].
    split; [exact H1|split; [exact H2|now apply Hfit]].
Qed.

(** The vector of the files to remove is large enough, and so is the
    buffer of each path. [get_remove_files] allocates [l + 3] pointers,
    [l] being [files] or the length of the scan, and stores "rr", at
    most one path for each entry, and NULL; each path of a scanned
    directory is a string of less than [PATH_MAX] bytes. *)
Theorem rem_files_fit (target : target_t) (tmp_files : list bytes)
  (a : list dirent) :
  length (get_remove_files target tmp_files a) + 1
  <= length (entries_of target a) + 3
  /\ (forall dir name, strlen (scanned_path dir name) < PATH_MAX).
Proof.
  split.
  - rewrite get_remove_files_eq; cbn [length]; rewrite length_map.
    pose proof (filter_length_le
                  (fun e => (remove_this_file (d_name e) tmp_files =? 1)%Z)
                  (entries_of target a)); lia.
  - assert (forall b, length (cstr b) <= length b) as Hc.
    { induction b as [|c b IH]; simpl; [lia|].
      destruct (Ascii.eqb c NUL); simpl; lia. }
    intros dir name; unfold scanned_path, strlen, savestring, snprintf.
    pose proof PATH_MAX_ge.
    destruct (Ascii.eqb (hd NUL dir) "/");
      match goal with
      | |- length (cstr (cstr (firstn ?k ?t))) < _ =>
          pose proof (Hc (cstr (firstn k t)));
          pose proof (Hc (firstn k t));
          pose proof (length_firstn k t)
      end; lia.
Qed.

End RemoveRoundTrip.

(** ** The parameters of [bulk_remove] *)

Section Parameters.

Context {os : OS}.



End Parameters.

(** ** Failures that are reported and not returned *)

Section Swallowed.

Context {os : OS}.

(** A document that cannot be read after the editor. When [fopen] fails
    in [diff_files], [bulk_remove] prints the failure with the prefix of
    the rename command, takes the way of "nothing to do" and returns 0:
    the document is unlinked and [remove_files] is not called. *)
Theorem unreadable_document_is_nothing_to_do (s1 s2 : option bytes)
  (st0 st : state) (c : remove_ctx) (e : positive) :
  bulk_remove_open s1 s2 st0 = (inr c, st) ->
  mtime_now c st <> rr_old_t c ->
  sys_fopen_r (world st) (rr_tmp_file c) = Err e ->
  let r := bulk_remove s1 s2 st0 in
  fst r = EXIT_SUCCESS
  /\ trace (snd r) =
     trace st ++ [Stderr "br: '%s': %s\n" [rr_tmp_file c];
                  Stdout "rr: Nothing to do" [];
                  Unlinkat (rr_fd c) (rr_tmp_file c)]
  /\ removals_of (trace (snd r)) = removals_of (trace st0).
Proof.
  intros Hopen Hmt Hfopen r.
  destruct (emits_bulk_remove_open no_removal s1 s2 (fun e H => H) st0)
    as (evs0 & Hevs0 & F0).
  rewrite Hopen in Hevs0; cbn [snd] in Hevs0.
  assert (removals_of evs0 = []) as Hrem.
  { clear Hevs0; induction F0 as [|x evs Hx _ IH]; [reflexivity|].
    unfold removals_of in *; simpl; rewrite IH.
    destruct x; simpl in *; tauto. }
  subst r; rewrite (bulk_remove_unfold s1 s2 st0 st c Hopen).
  unfold bulk_remove_apply, bind.
  destruct (stat_run c st) as (st' & -> & Hw & Ht & Hst').
  assert (st' = st) as ->.
  { unfold mtime_now in Hmt.
    destruct (sys_stat (world st) (rr_tmp_file c)) as [x|e'];
      [now apply (Hst' x)|congruence]. }
  fold (mtime_now c st).
  replace (rr_old_t c =? mtime_now c st)%Z with false
    by (symmetry; apply Z.eqb_neq; congruence).
  unfold diff_files, bind, query; rewrite Hfopen.
  unfold xerror, emit, ret; cbn [orb Z.eqb].
  rewrite nothing_to_do_run; cbn [fst snd trace world].
  split; [reflexivity|split; [now rewrite <- app_assoc|]].
  rewrite Hevs0; unfold removals_of in *.
  rewrite !flat_map_app, Hrem; simpl; now rewrite !app_nil_r.
Qed.

(** An [fstat] that fails after the editor. [bulk_rename] prints the
    failure, unlinks the document and renames nothing; the status it
    returns is 0, [EXIT_SUCCESS], unless the [unlinkat] fails as well. *)
Theorem failed_fstat_returns_success (args : list bytes) (s0 s : state)
  (c : rename_ctx) (e : positive) :
  bulk_rename_open args s0 = (inr c, s) ->
  sys_fstat (world s) (br_fd c) = Err e ->
  let u := sys_unlinkat (world s) (br_fd c) (br_file c) in
  let r := bulk_rename args s0 in
  fst r = match fst u with Ok _ => EXIT_SUCCESS | Err e' => Z.pos e' end
  /\ world (snd r) = snd u
  /\ trace (snd r) =
     trace s
     ++ [Stderr "br: '%s': %s\n" [br_file c];
         Unlinkat (br_fd c) (br_file c)]
     ++ unlink_diag (fst u) "br: unlinkat: '%s': %s\n" (br_file c)
  /\ renames_of (trace (snd r)) = renames_of (trace s0).
Proof.
  intros Hopen Hstat u r.
  pose proof (bulk_rename_open_renames args s0) as Hren.
  rewrite Hopen in Hren; cbn [snd] in Hren.
  subst r; rewrite (bulk_rename_unfold args s0 s c Hopen).
  unfold bulk_rename_apply, bind, query; rewrite Hstat.
  unfold xerror, emit; rewrite bulk_rename_ERROR_run.
  cbn [fst snd world trace]; fold u.
  split; [reflexivity|split; [reflexivity|split]].
  - now rewrite <- app_assoc.
  - rewrite !renames_of_app, Hren; simpl.
    destruct (fst u); simpl; now rewrite !app_nil_r.
Qed.

End Swallowed.

(** ** The theorems at work *)

Import Run.

Lemma unchanged_is_nothing_to_do_witness :
  fst (Toy.br ["br"; "a"; "b"]%string untouched) = 0%Z
  /\ fst (Toy.rr listing None None untouched) = 0%Z.
Proof.
  split.
  - apply (proj1 (@unchanged_is_nothing_to_do (Toy.os [])) ab
             (br_start untouched) (br_opened untouched) (br_ctx untouched));
      vm_compute; reflexivity.
  - apply (proj2 (@unchanged_is_nothing_to_do (Toy.os listing)) None None
             (rr_start untouched) (rr_opened untouched) (rr_ctx untouched));
      vm_compute; reflexivity.
Defined.

Lemma line_mismatch_aborts_witness :
  fst (Toy.br ["br"; "a"; "b"]%string one_line_short) <> 0%Z.
Proof.
  apply (@line_mismatch_aborts (Toy.os []) ab (br_start one_line_short)
           (br_opened one_line_short) (br_ctx one_line_short) 105%Z).
  - vm_compute; reflexivity.
  - vm_compute; reflexivity.
  - vm_compute; discriminate.
  - apply read_whole_check; vm_compute; reflexivity.
  - vm_compute; discriminate.
Defined.

(** C2 as stated fails for a document with a line of [PATH_MAX] bytes:
    "br a b", the two lines replaced by one line of [PATH_MAX - 1] times
    "x" and then "y". The document has one line that is no comment where
    two names were written, yet [fgets] delivers the line as two records,
    the count matches, no mismatch is reported, and [bulk_rename] tries
    to rename "a" to the first [PATH_MAX - 1] bytes and renames "b" to
    "y". It fails as well where the line of "b" is replaced by a line of
    one blank, which the specification counts as a comment and no loop
    skips: "b" is renamed to " " and the status is 0. *)
Lemma long_line_hides_the_mismatch :
  length (name_lines long_line) = 1
  /\ spec_count long_line = 1
  /\ br_fp (br_ctx one_long_line) = long_line
  /\ br_total_input (br_ctx one_long_line) = 2
  /\ total_modified long_line = 2
  /\ renames_of (trace (snd (Toy.br ["br"; "a"; "b"]%string one_long_line)))
     = [(str "a", repeat "x"%char (PATH_MAX - 1)); (str "b", str "y")]
  /\ Toy.tw_names
       (world (snd (Toy.br ["br"; "a"; "b"]%string one_long_line)))
     = [str "y"; str "a"]
  /\ existsb (fun e => match e with
                       | Stderr "%s\n" _ => true
                       | _ => false
                       end)
             (trace (snd (Toy.br ["br"; "a"; "b"]%string one_long_line)))
     = false
  /\ spec_count (Toy.text ["a"; " "]%string) = 1
  /\ br_total_input (br_ctx blank_for_b) = 2
  /\ renames_of (trace (snd (Toy.br ["br"; "a"; "b"]%string blank_for_b)))
     = [(str "b", str " ")]
  /\ Toy.tw_names (world (snd (Toy.br ["br"; "a"; "b"]%string blank_for_b)))
     = [str " "; str "a"]
  /\ fst (Toy.br ["br"; "a"; "b"]%string blank_for_b) = 0%Z.
Proof. vm_compute; repeat split; reflexivity. Qed.

Lemma aggregate_is_last_error_witness :
  fst (Toy.br ["br"; "a"; "b"]%string two_failures) = 2%Z.
Proof.
  pose proof
    (@aggregate_is_last_error (Toy.os []) ab (br_start two_failures)
       (br_opened two_failures)
       (snd (summary_and_prompt (br_ctx two_failures)
                                (br_opened two_failures)))
       (br_ctx two_failures) 105%Z 2 1%Z) as H.
  destruct H as (_ & _ & H);
    [vm_compute; reflexivity | vm_compute; reflexivity
    |vm_compute; discriminate | vm_compute; reflexivity
    |vm_compute; reflexivity | discriminate |].
  etransitivity; [exact H|vm_compute; reflexivity].
Defined.

(** C1 as stated fails where two renames fail: the first returns 13, the
    second 2, and [bulk_rename] returns 2, the last of the two, not the
    first. Both renames were attempted. *)
Lemma first_error_is_not_returned :
  fst (rename_each 2
         (change_list (br_args (br_ctx two_failures)) 1
            (fgets_lines PATH_MAX (br_fp (br_ctx two_failures))))
         (snd (summary_and_prompt (br_ctx two_failures)
                                  (br_opened two_failures))))
  = [13%Z; 2%Z]
  /\ first_nonzero [13%Z; 2%Z] = 13%Z
  /\ fst (Toy.br ["br"; "a"; "b"]%string two_failures) = 2%Z
  /\ renames_of (trace (snd (Toy.br ["br"; "a"; "b"]%string two_failures)))
     = [(str "a", str "x"); (str "b", str "y")].
Proof. vm_compute; repeat split; reflexivity. Qed.

Lemma remove_gate_witness :
  removals_of (trace (snd (Toy.rr listing None None y_deleted)))
  = [[str "rr"; str "y"]].
Proof.
  unfold Toy.rr; cbn [option_map].
  change (Toy.start listing y_deleted) with (rr_start y_deleted).
  rewrite (@remove_gate (Toy.os listing) None None (rr_start y_deleted)
             (rr_opened y_deleted) (rr_ctx y_deleted)
             (Toy.text ["x/"; "z@"]%string)).
  - vm_compute; reflexivity.
  - vm_compute; reflexivity.
  - vm_compute; discriminate.
  - vm_compute; reflexivity.
Defined.

(** C3 as stated fails for a document with exactly as many lines as
    entries were written: the line of "y" replaced by another name, three
    lines for three entries, and [bulk_remove] prints "rr: Nothing to do"
    and removes nothing, where the claim has it go on to the names that
    survive (and so remove "y"). With one line more it is the same. *)
Lemma as_many_lines_is_nothing_to_do :
  diff_count (Toy.text ["x/"; "w"; "z@"]%string)
  = @rr_num (Toy.os listing) (rr_ctx y_replaced)
  /\ removals_of (trace (snd (Toy.rr listing None None y_replaced))) = []
  /\ In (Stdout "rr: Nothing to do" [])
        (trace (snd (Toy.rr listing None None y_replaced)))
  /\ Toy.tw_names (world (snd (Toy.rr listing None None y_replaced)))
     = [str "x"; str "y"; str "z"]
  /\ removals_of (trace (snd (Toy.rr listing None None line_added))) = []
  /\ In (Stdout "rr: Nothing to do" [])
        (trace (snd (Toy.rr listing None None line_added))).
Proof.
  vm_compute; repeat split; try reflexivity; right; right; right; right;
    right; right; right; left; reflexivity.
Qed.

(** C7 on the code: with an argument that does not exist before the valid
    ones ("br missing a b", the line of "a" edited to "a2"), the first
    line is paired with "missing" and the second with "a": the code tries
    to rename "missing" to "a2", renames "a" to "b" over the file "b", and
    never renames "a" to "a2". *)
Lemma missing_argument_shifts_the_pairs :
  br_total_input
    (ctx_of (fst (@bulk_rename_open (Toy.os []) with_missing
                    (Toy.start [] first_line_edited)))) = 2
  /\ renames_of
       (trace (snd (@bulk_rename (Toy.os []) with_missing
                      (Toy.start [] first_line_edited))))
     = [(str "missing", str "a2"); (str "a", str "b")]
  /\ Toy.tw_names
       (world (snd (@bulk_rename (Toy.os []) with_missing
                      (Toy.start [] first_line_edited))))
     = [str "b"]
  /\ fst (@bulk_rename (Toy.os []) with_missing
            (Toy.start [] first_line_edited)) = 2%Z.
Proof. vm_compute; repeat split; reflexivity. Qed.

Lemma removal_by_name_witness :
  @get_remove_files (Toy.os listing) T_cwd [str "z"; str "x"] []
  = @get_remove_files (Toy.os listing) T_cwd [str "x"; str "z"; str "x"] [].
Proof.
  apply (proj1 (@removal_by_name (Toy.os listing) T_cwd [])).
  intros x; simpl; tauto.
Defined.

(** C10 on the code: for a directory whose path is [PATH_MAX - 4] bytes
    long and holds a file "..x", the text of the path of "..x" is one
    byte longer than the buffer [p] of [get_remove_files] takes, and
    [snprintf] cuts it to the path of "..". With the line of "..x" taken
    out of the document, the vector [bulk_remove] hands to
    [remove_files] holds the path of the parent directory. *)
Lemma cut_path_names_the_parent :
  length Rig.deep = PATH_MAX - 4
  /\ SELFORPARENT (str "..x") = false
  /\ @scanned_path (Rig.os [] [Rig.deep] None None) Rig.deep (str "..x")
     = Rig.deep ++ str "/.."
  /\ removals_of
       (trace (snd (@bulk_remove (Rig.os [] [Rig.deep] None None)
                      (Some Rig.deep) None
                      (Rig.start (Rig.os [] [Rig.deep] None None)
                                 Rig.line_of_dotdotx_deleted))))
     = [[str "rr"; Rig.deep ++ str "/.."]]
  /\ writes_of
       (trace (snd (@bulk_remove (Rig.os [] [Rig.deep] None None)
                      (Some Rig.deep) None
                      (Rig.start (Rig.os [] [Rig.deep] None None)
                                 Rig.line_of_dotdotx_deleted))))
     = [BULK_RM_TMP_FILE_HEADER; str "..x" ++ [NL]].
Proof. vm_compute; repeat split; reflexivity. Qed.

Lemma total_input_counts_names_witness :
  snd (fst (@write_renfiles_to_tmp (Toy.os []) with_missing Toy.tmp_name
              3%Z (Toy.start [] first_line_edited))) = 2.
Proof.
  destruct (@total_input_counts_names (Toy.os []) with_missing Toy.tmp_name
              3%Z (Toy.start [] first_line_edited))
    as (evs & _ & _ & _ & H & _); [reflexivity|].
  etransitivity; [exact H|vm_compute; reflexivity].
Defined.

Lemma tmp_files_fit_witness :
  length (read_names (Toy.text ["x/"; "z@"]%string)) + 1
  < length listing + 2.
Proof.
  apply (@tmp_files_fit (Toy.os listing) (rr_ctx y_deleted)
           (Toy.text ["x/"; "z@"]%string)).
  vm_compute; reflexivity.
Defined.

(** Checks of [rename_plain] and [plain_name] that compute. *)
Lemma rename_plain_check (name : bytes) :
  negb (match name with [] => true | _ => false end)
  && negb (existsb (Ascii.eqb NUL) name)
  && negb (existsb (Ascii.eqb NL) name)
  && negb (Ascii.eqb (hd NUL name) "#")
  && (length name + 1 <? PATH_MAX) = true ->
  rename_plain name.
Proof.
  intros H; repeat (apply andb_true_iff in H as [H ?]).
  repeat split.
  - intros ->; discriminate H.
  - intros Hin.
    assert (existsb (Ascii.eqb NUL) name = true) as E
      by (apply existsb_exists; exists NUL; split; [assumption|reflexivity]).
    rewrite E in *; discriminate.
  - intros Hin.
    assert (existsb (Ascii.eqb NL) name = true) as E
      by (apply existsb_exists; exists NL; split; [assumption|reflexivity]).
    rewrite E in *; discriminate.
  - intros E; rewrite E in *; discriminate.
  - now apply Nat.ltb_lt.
Qed.

Lemma plain_name_check (name : bytes) :
  negb (match name with [] => true | _ => false end)
  && negb (existsb (Ascii.eqb NUL) name)
  && negb (existsb (Ascii.eqb NL) name)
  && negb (Ascii.eqb (hd NUL name) "#")
  && negb (is_suffix_chr (last name NUL)) = true ->
  plain_name name.
Proof.
  intros H; repeat (apply andb_true_iff in H as [H ?]).
  repeat split.
  - intros ->; discriminate H.
  - intros Hin.
    assert (existsb (Ascii.eqb NUL) name = true) as E
      by (apply existsb_exists; exists NUL; split; [assumption|reflexivity]).
    rewrite E in *; discriminate.
  - intros Hin.
    assert (existsb (Ascii.eqb NL) name = true) as E
      by (apply existsb_exists; exists NL; split; [assumption|reflexivity]).
    rewrite E in *; discriminate.
  - intros E; rewrite E in *; discriminate.
  - now apply negb_true_iff.
Qed.

(** "br a b" with the document saved as "x", "b": one rename, of "a". *)
Lemma rename_document_read_back_witness :
  total_modified (rename_document [str "x"; str "b"]) = 2
  /\ renames_of
       (trace (snd (@rename_bulk_files (Toy.os []) ab
                      (rename_document [str "x"; str "b"]) 0%Z 0 1
                      (Toy.start [] first_line_edited))))
     = [(str "a", str "x")].
Proof.
  destruct (@rename_document_read_back (Toy.os []) (str "br")
              [str "a"; str "b"] [str "x"; str "b"]) as (H1 & H2 & _).
  - repeat first [apply Forall_nil
                 |apply Forall_cons;
                  [apply rename_plain_check; vm_compute; reflexivity|]].
  - split; [exact H1|].
    etransitivity; [apply H2|vm_compute; reflexivity].
Defined.

Lemma declined_renames_nothing_witness :
  fst (Toy.br ["br"; "a"; "b"]%string says_no) = 0%Z
  /\ Toy.tw_names (world (snd (Toy.br ["br"; "a"; "b"]%string says_no)))
     = [str "a"; str "b"].
Proof.
  destruct (@declined_renames_nothing (Toy.os []) ab (br_start says_no)
              (br_opened says_no)
              (snd (summary_and_prompt (br_ctx says_no) (br_opened says_no)))
              (br_ctx says_no) 105%Z 1) as (H1 & H2 & _);
    [vm_compute; reflexivity | vm_compute; reflexivity
    |vm_compute; discriminate | vm_compute; reflexivity
    |vm_compute; reflexivity |].
  split.
  - etransitivity; [exact H1|vm_compute; reflexivity].
  - unfold Toy.br; change (map str ["br"; "a"; "b"]%string) with ab.
    change (Toy.start [] says_no) with (br_start says_no).
    rewrite H2; vm_compute; reflexivity.
Defined.

Lemma report_counts_the_successes_witness :
  exists evs,
    trace (snd (Toy.br ["br"; "a"; "b"]%string first_line_edited)) =
    trace (snd (rename_each 1 [(str "a", str "a2")]
                  (snd (summary_and_prompt (br_ctx first_line_edited)
                                           (br_opened first_line_edited)))))
    ++ Unlinkat 4 Toy.tmp_name :: evs
    ++ [ReloadMsg "%zu file(s) renamed\n" 1].
Proof.
  destruct (@report_counts_the_successes (Toy.os []) ab
              (br_start first_line_edited) (br_opened first_line_edited)
              (snd (summary_and_prompt (br_ctx first_line_edited)
                                       (br_opened first_line_edited)))
              (br_ctx first_line_edited) 105%Z 1 1%Z)
    as (evs & H & _);
    [vm_compute; reflexivity | vm_compute; reflexivity
    |vm_compute; discriminate | vm_compute; reflexivity
    |vm_compute; reflexivity | discriminate |].
  exists evs; exact H.
Defined.

Lemma deleting_lines_removes_those_entries_witness :
  @get_remove_files (Toy.os listing) T_cwd
    (read_names (@remove_document (Toy.os listing)
                   (filter keep_but_y listing))) []
  = [str "rr"; str "y"].
Proof.
  destruct (@deleting_lines_removes_those_entries (Toy.os listing) T_cwd []
              keep_but_y) as [H _].
  - repeat first
      [apply Forall_nil
      |apply Forall_cons;
       [split; [apply plain_name_check; vm_compute; reflexivity
               |first [right; reflexivity | left; reflexivity]]|]].
  - repeat first [apply NoDup_nil | apply NoDup_cons];
      simpl; intros H;
      repeat (destruct H as [H|H]; [discriminate H|]); exact H.
  - etransitivity; [exact H|vm_compute; reflexivity].
Defined.

Lemma unreadable_document_is_nothing_to_do_witness :
  fst (@bulk_remove (Rig.os listing [] None (Some 13%positive)) None None
         (Rig.start (Rig.os listing [] None (Some 13%positive)) y_deleted))
  = 0%Z.
Proof.
  apply (@unreadable_document_is_nothing_to_do
           (Rig.os listing [] None (Some 13%positive)) None None
           (Rig.start (Rig.os listing [] None (Some 13%positive)) y_deleted)
           (snd (@bulk_remove_open
                   (Rig.os listing [] None (Some 13%positive)) None None
                   (Rig.start (Rig.os listing [] None (Some 13%positive))
                              y_deleted)))
           (rctx_of
              (fst (@bulk_remove_open
                      (Rig.os listing [] None (Some 13%positive)) None None
                      (Rig.start (Rig.os listing [] None (Some 13%positive))
                                 y_deleted))))
           13%positive).
  - vm_compute; reflexivity.
  - vm_compute; discriminate.
  - vm_compute; reflexivity.
Defined.

Lemma failed_fstat_returns_success_witness :
  fst (@bulk_rename (Rig.os [] [] (Some 5%positive) None) ab
         (Rig.start (Rig.os [] [] (Some 5%positive) None) first_line_edited))
  = 0%Z.
Proof.
  destruct (@failed_fstat_returns_success
              (Rig.os [] [] (Some 5%positive) None) ab
              (Rig.start (Rig.os [] [] (Some 5%positive) None)
                         first_line_edited)
              (snd (@bulk_rename_open (Rig.os [] [] (Some 5%positive) None) ab
                      (Rig.start (Rig.os [] [] (Some 5%positive) None)
                                 first_line_edited)))
              (ctx_of
                 (fst (@bulk_rename_open
                         (Rig.os [] [] (Some 5%positive) None) ab
                         (Rig.start (Rig.os [] [] (Some 5%positive) None)
                                    first_line_edited))))
              5%positive) as (H & _).
  - vm_compute; reflexivity.
  - vm_compute; reflexivity.
  - etransitivity; [exact H|vm_compute; reflexivity].
Defined.
